(** * Euromask privacy network: settlement pipeline

    A shallow embedding of the settlement pipeline of the repository
    (wallet.py, token_system.py, voucher.py, compliance.py, ledger.py,
    transaction.py, offline.py) and the properties of its specification.

    Conventions of the embedding.
    - A Python [str] is a [string] (its UTF-8 bytes); [Optional[str]] is
      [option string]; a Python [int] is a [Z]; a Python [float] is a
      binary64 [float] of the kernel, so that [0.7 + 0.3] rounds as it does
      in Python.
    - Every manager of [PrivacyNetworkSystem] is a field of one record
      [System]; the cross references set up by [_setup_manager_references]
      are the fields of that record, and an object held in a [Dict] is the
      value stored under its id.
    - [uuid.uuid4()], [secrets.token_hex(32)] and [datetime.now().isoformat()]
      are inputs of the operation that calls them.
    - A raised exception is the result [Err msg]; the state that the
      call leaves behind is returned with it.
    - The ledger file is not part of the state. What a write of it does,
      succeed or raise, is an input of the operation that performs it. *)

From Stdlib Require Import ZArith NArith String Ascii List Floats.
From stdpp Require Import gmap strings list fin_maps pretty.
Import ListNotations.
Open Scope string_scope.

#[local] Set Warnings "-inexact-float".

(** ** Python values *)

(** Truth value of a [str]: only the empty string is false. *)
Definition truthy (s : string) : bool :=
  match s with
  | EmptyString => false
  | String _ _ => true
  end.

(** Truth value of an [Optional[str]]: [None] and [""] are false. *)
Definition truthy_opt (o : option string) : bool :=
  match o with
  | None => false
  | Some s => truthy s
  end.

(** [a or b] on strings. *)
Definition str_or (a b : string) : string := if truthy a then a else b.

(** [o or b] for an [Optional[str]] [o]. *)
Definition opt_or (o : option string) (b : string) : string :=
  match o with
  | Some a => str_or a b
  | None => b
  end.

(** [sep.join(l)]. *)
Fixpoint join (sep : string) (l : list string) : string :=
  match l with
  | [] => ""
  | [x] => x
  | x :: rest => x ++ sep ++ join sep rest
  end.

(** A raised exception carries its message. *)
Inductive Result (A : Type) : Type :=
  | Ok (a : A)
  | Err (msg : string).
Arguments Ok {A} a.
Arguments Err {A} msg.

(** ** json.dumps(d, sort_keys=True)

    The dictionaries that the pipeline signs are flat: their values are
    strings, integers, booleans or [None]. *)

Inductive jvalue : Type :=
  | JNull
  | JBool (b : bool)
  | JInt (z : Z)
  | JStr (s : string).

(** A [dict] literal, in insertion order. *)
Definition Dict : Type := list (string * jvalue).

(** [d.pop(k, None)]. *)
Fixpoint dict_pop (k : string) (d : Dict) : Dict :=
  match d with
  | [] => []
  | (k', v) :: rest => if String.eqb k k' then rest else (k', v) :: dict_pop k rest
  end.

Module Json.

(** The double quote character. *)
Definition dquote : ascii := ascii_of_nat 34.

Definition hex_digit (n : N) : ascii :=
  match n with
  | 0 => "0" | 1 => "1" | 2 => "2" | 3 => "3" | 4 => "4" | 5 => "5"
  | 6 => "6" | 7 => "7" | 8 => "8" | 9 => "9" | 10 => "a" | 11 => "b"
  | 12 => "c" | 13 => "d" | 14 => "e" | _ => "f"
  end%N%char.

(** [\uXXXX] for a code unit below 65536. *)
Definition u_escape (n : N) : string :=
  String "\" (String "u"
    (String (hex_digit (N.shiftr n 12 mod 16))
    (String (hex_digit (N.shiftr n 8 mod 16))
    (String (hex_digit (N.shiftr n 4 mod 16))
    (String (hex_digit (n mod 16)) ""))))).

(** A code point as the encoder writes it with [ensure_ascii]: a
    surrogate pair above the basic plane. *)
Definition escape_code_point (n : N) : string :=
  if (n <? 65536)%N then u_escape n
  else
    let v := (n - 65536)%N in
    u_escape (55296 + N.shiftr v 10) ++ u_escape (56320 + v mod 1024).

(** The continuation bytes of a UTF-8 sequence: [k] bytes after a lead
    byte whose payload is [acc]. *)
Fixpoint continuation (k : nat) (acc : N) (s : string) : N * string :=
  match k, s with
  | S k', String c rest =>
      continuation k' (N.lor (N.shiftl acc 6) (N.land (N_of_ascii c) 63)) rest
  | _, _ => (acc, s)
  end.

(** The body of a string literal; [fuel] bounds the number of bytes. *)
Fixpoint escape (fuel : nat) (s : string) : string :=
  match fuel, s with
  | S fuel', String c rest =>
      let n := N_of_ascii c in
      if (n =? 34)%N then String "\" (String dquote (escape fuel' rest))
      else if (n =? 92)%N then String "\" (String "\" (escape fuel' rest))
      else if (n =? 10)%N then String "\" (String "n" (escape fuel' rest))
      else if (n =? 13)%N then String "\" (String "r" (escape fuel' rest))
      else if (n =? 9)%N then String "\" (String "t" (escape fuel' rest))
      else if (n =? 8)%N then String "\" (String "b" (escape fuel' rest))
      else if (n =? 12)%N then String "\" (String "f" (escape fuel' rest))
      else if ((32 <=? n) && (n <=? 126))%N then String c (escape fuel' rest)
      else if (n <? 128)%N then u_escape n ++ escape fuel' rest
      else
        let '(cp, rest') :=
          if (n <? 224)%N then continuation 1 (N.land n 31) rest
          else if (n <? 240)%N then continuation 2 (N.land n 15) rest
          else continuation 3 (N.land n 7) rest in
        escape_code_point cp ++ escape fuel' rest'
  | _, _ => ""
  end.

Definition quote (s : string) : string :=
  String dquote (escape (String.length s) s ++ String dquote "").

Definition value (v : jvalue) : string :=
  match v with
  | JNull => "null"
  | JBool true => "true"
  | JBool false => "false"
  | JInt z => pretty z
  | JStr s => quote s
  end.

(** [sorted(d.items())], by insertion; the keys of a dict are distinct. *)
Fixpoint insert_sorted (kv : string * jvalue) (l : Dict) : Dict :=
  match l with
  | [] => [kv]
  | kv' :: rest =>
      if String.leb (fst kv) (fst kv') then kv :: l
      else kv' :: insert_sorted kv rest
  end.

Definition sort_items (d : Dict) : Dict := foldr insert_sorted [] d.

Definition item (kv : string * jvalue) : string :=
  quote (fst kv) ++ ": " ++ value (snd kv).

(** [json.dumps(d, sort_keys=True)] with the default separators. *)
Definition dumps (d : Dict) : string :=
  "{" ++ join ", " (map item (sort_items d)) ++ "}".

End Json.

(** ** hashlib.sha256(data).hexdigest()  (FIPS 180-4) *)

Module SHA256.
Local Open Scope N_scope.

Definition mask32 : N := 0xFFFFFFFF.
Definition add32 (x y : N) : N := N.land (x + y) mask32.
Definition rotr (n x : N) : N :=
  N.lor (N.shiftr x n) (N.land (N.shiftl x (32 - n)) mask32).
Definition not32 (x : N) : N := N.lxor x mask32.

Definition Ch (x y z : N) : N := N.lxor (N.land x y) (N.land (not32 x) z).
Definition Maj (x y z : N) : N :=
  N.lxor (N.land x y) (N.lxor (N.land x z) (N.land y z)).
Definition Sigma0 (x : N) : N := N.lxor (rotr 2 x) (N.lxor (rotr 13 x) (rotr 22 x)).
Definition Sigma1 (x : N) : N := N.lxor (rotr 6 x) (N.lxor (rotr 11 x) (rotr 25 x)).
Definition sigma0 (x : N) : N := N.lxor (rotr 7 x) (N.lxor (rotr 18 x) (N.shiftr x 3)).
Definition sigma1 (x : N) : N := N.lxor (rotr 17 x) (N.lxor (rotr 19 x) (N.shiftr x 10)).

(** The constants are derived as the standard describes them: the first
    32 bits of the fractional parts of the cube roots (for [K]) and of the
    square roots (for [H0]) of the first primes. *)
Fixpoint primes_from (fuel : nat) (k : N) (n : nat) (found : list N) : list N :=
  match fuel, n with
  | S fuel', S n' =>
      if forallb (fun p => negb (k mod p =? 0)) found
      then primes_from fuel' (k + 1) n' (found ++ [k])
      else primes_from fuel' (k + 1) n found
  | _, _ => found
  end.

Definition primes (n : nat) : list N := primes_from 400 2 n [].

(** The integer root of order [e], one bit at a time from bit [i - 1]. *)
Fixpoint iroot (e : N) (i : nat) (x r : N) : N :=
  match i with
  | O => r
  | S i' =>
      let r' := r + 2 ^ N.of_nat i' in
      iroot e i' x (if r' ^ e <=? x then r' else r)
  end.

Definition frac32 (e p : N) : N :=
  N.land (iroot e 40 (N.shiftl p (32 * e)) 0) mask32.

Definition K : list N := Eval vm_compute in map (frac32 3) (primes 64).

Definition H0 : list N := Eval vm_compute in map (frac32 2) (primes 8).

(** The message, one bit appended, zero bytes up to 56 modulo 64, then
    the bit length on eight bytes. *)
Definition be_bytes (k : nat) (n : N) : list N :=
  map (fun i => N.land (N.shiftr n (8 * N.of_nat i)) 255) (rev (seq 0 k)).

Definition pad (msg : list N) : list N :=
  let len := N.of_nat (length msg) in
  let zeros := N.to_nat ((119 - len mod 64) mod 64) in
  msg ++ [128] ++ repeat 0 zeros ++ be_bytes 8 (8 * len).

Fixpoint words (fuel : nat) (bytes : list N) : list N :=
  match fuel, bytes with
  | S fuel', a :: b :: c :: d :: rest =>
      (N.shiftl a 24 + N.shiftl b 16 + N.shiftl c 8 + d) :: words fuel' rest
  | _, _ => []
  end.

Fixpoint blocks (fuel : nat) (ws : list N) : list (list N) :=
  match fuel, ws with
  | _, [] => []
  | O, _ => []
  | S fuel', _ => take 16 ws :: blocks fuel' (drop 16 ws)
  end.

(** The message schedule, most recent word first. *)
Fixpoint schedule (k : nat) (rev_w : list N) : list N :=
  match k with
  | O => rev_w
  | S k' =>
      let w := add32 (add32 (sigma1 (nth 1 rev_w 0)) (nth 6 rev_w 0))
                     (add32 (sigma0 (nth 14 rev_w 0)) (nth 15 rev_w 0)) in
      schedule k' (w :: rev_w)
  end.

Definition round (s : list N) (kw : N * N) : list N :=
  match s with
  | [a; b; c; d; e; f; g; h] =>
      let t1 := add32 (add32 (add32 h (Sigma1 e)) (add32 (Ch e f g) (fst kw))) (snd kw) in
      let t2 := add32 (Sigma0 a) (Maj a b c) in
      [add32 t1 t2; a; b; c; add32 d t1; e; f; g]
  | _ => s
  end.

Definition compress (h : list N) (block : list N) : list N :=
  let w := rev (schedule 48 (rev block)) in
  let s := fold_left round (combine K w) h in
  map (fun p => add32 (fst p) (snd p)) (combine h s).

Definition hex_word (w : N) : string :=
  string_of_list_ascii
    (map (fun i => Json.hex_digit (N.shiftr w (4 * N.of_nat i) mod 16)) (rev (seq 0 8))).

Definition hexdigest (s : string) : string :=
  let bytes := pad (map N_of_ascii (list_ascii_of_string s)) in
  let ws := words (length bytes) bytes in
  let h := fold_left compress (blocks (length ws) ws) H0 in
  String.concat "" (map hex_word h).

End SHA256.

(** ** wallet.py *)

(** [list.remove(x)]: the first occurrence only. *)
Fixpoint list_remove (x : string) (l : list string) : list string :=
  match l with
  | [] => []
  | y :: rest => if String.eqb x y then rest else y :: list_remove x rest
  end.

Module Wallet.

Record t : Type := mk {
  wallet_id : string;
  public_key : string;
  private_key : string;
  token_balance : list string;
  voucher_balance : Z
}.

Definition set_token_balance (l : list string) (w : t) : t :=
  mk (wallet_id w) (public_key w) (private_key w) l (voucher_balance w).

Definition set_voucher_balance (n : Z) (w : t) : t :=
  mk (wallet_id w) (public_key w) (private_key w) (token_balance w) n.

(** [__post_init__]: false when it raises. *)
Definition post_init_ok (w : t) : bool :=
  truthy (wallet_id w) && truthy (public_key w) && truthy (private_key w).

Definition add_token (token_id : string) (w : t) : t :=
  if bool_decide (token_id ∈ token_balance w) then w
  else set_token_balance (token_balance w ++ [token_id]) w.

Definition remove_token (token_id : string) (w : t) : bool * t :=
  if bool_decide (token_id ∈ token_balance w)
  then (true, set_token_balance (list_remove token_id (token_balance w)) w)
  else (false, w).

Definition add_voucher (count : Z) (w : t) : t :=
  set_voucher_balance (voucher_balance w + count) w.

Definition use_voucher (w : t) : bool * t :=
  if (0 <? voucher_balance w)%Z
  then (true, set_voucher_balance (voucher_balance w - 1) w)
  else (false, w).

Definition sign_transaction (w : t) (transaction_data : Dict) : string :=
  SHA256.hexdigest (Json.dumps transaction_data ++ private_key w).

Definition verify_signature (w : t) (data : Dict) (signature : string) : bool :=
  String.eqb signature (SHA256.hexdigest (Json.dumps data ++ private_key w)).

End Wallet.

(** ** token_system.py *)

Module Token.

Record t : Type := mk {
  token_id : string;
  value : Z;
  owner_wallet_id : string;
  issued_by : string;
  issue_timestamp : option string
}.

Definition set_owner_wallet_id (o : string) (tk : t) : t :=
  mk (token_id tk) (value tk) o (issued_by tk) (issue_timestamp tk).

Definition post_init_ok (tk : t) : bool :=
  truthy (token_id tk) && (0 <? value tk)%Z && truthy (owner_wallet_id tk).

Definition transfer_ownership (new_owner_wallet_id : string) (tk : t) : bool * t :=
  if truthy new_owner_wallet_id
  then (true, set_owner_wallet_id new_owner_wallet_id tk)
  else (false, tk).

End Token.

(** ** voucher.py *)

Module Voucher.

Record t : Type := mk {
  voucher_id : string;
  signature : string;
  value_limit : Z;
  issued_to_wallet_id : string;
  issued_by : string;
  issue_timestamp : option string;
  is_used : bool;
  used_in_transaction : option string
}.

Definition post_init_ok (v : t) : bool :=
  truthy (voucher_id v) && truthy (signature v) && (0 <? value_limit v)%Z.

Definition can_be_used_for_value (v : t) (value : Z) : bool :=
  negb (is_used v) && (value <=? value_limit v)%Z.

Definition mark_as_used (transaction_id : string) (v : t) : bool * t :=
  if negb (is_used v)
  then (true, mk (voucher_id v) (signature v) (value_limit v) (issued_to_wallet_id v)
                 (issued_by v) (issue_timestamp v) true (Some transaction_id))
  else (false, v).

End Voucher.

(** ** compliance.py: the records *)

Inductive ComplianceStatus : Type := APPROVED | FLAGGED | REJECTED.

Module ComplianceResult.

Record t : Type := mk {
  is_approved : bool;
  status : ComplianceStatus;
  reason : option string;
  risk_score : float;
  requires_escalation : bool
}.

End ComplianceResult.

Module AMLEntry.

Record t : Type := mk {
  transaction_id : string;
  sender_wallet_id : string;
  receiver_wallet_id : string;
  token_id : string;
  amount : Z;
  timestamp : string;
  reason : string;
  risk_score : float;
  escalated : bool;
  authority_notified : bool
}.

Definition set_escalated (b : bool) (e : t) : t :=
  mk (transaction_id e) (sender_wallet_id e) (receiver_wallet_id e) (token_id e)
     (amount e) (timestamp e) (reason e) (risk_score e) b (authority_notified e).

Definition set_authority_notified (b : bool) (e : t) : t :=
  mk (transaction_id e) (sender_wallet_id e) (receiver_wallet_id e) (token_id e)
     (amount e) (timestamp e) (reason e) (risk_score e) (escalated e) b.

End AMLEntry.

(** ** transaction.py: the records *)

Inductive TransactionStatus : Type := PENDING | COMPLETED | FAILED | CANCELLED.

Definition TransactionStatus_value (s : TransactionStatus) : string :=
  match s with
  | PENDING => "pending"
  | COMPLETED => "completed"
  | FAILED => "failed"
  | CANCELLED => "cancelled"
  end.

Definition jopt (o : option string) : jvalue :=
  match o with
  | None => JNull
  | Some s => JStr s
  end.

Module Transaction.

Record t : Type := mk {
  transaction_id : string;
  sender_wallet_id : string;
  receiver_wallet_id : string;
  token_id : string;
  voucher_id : option string;
  is_anonymous : bool;
  status : TransactionStatus;
  timestamp : option string;
  aml_flagged : bool;
  aml_reason : option string;
  signature : option string
}.

Definition set_status (s : TransactionStatus) (x : t) : t :=
  mk (transaction_id x) (sender_wallet_id x) (receiver_wallet_id x) (token_id x)
     (voucher_id x) (is_anonymous x) s (timestamp x) (aml_flagged x) (aml_reason x)
     (signature x).

Definition set_timestamp (ts : option string) (x : t) : t :=
  mk (transaction_id x) (sender_wallet_id x) (receiver_wallet_id x) (token_id x)
     (voucher_id x) (is_anonymous x) (status x) ts (aml_flagged x) (aml_reason x)
     (signature x).

Definition set_aml (flagged : bool) (reason : option string) (x : t) : t :=
  mk (transaction_id x) (sender_wallet_id x) (receiver_wallet_id x) (token_id x)
     (voucher_id x) (is_anonymous x) (status x) (timestamp x) flagged reason
     (signature x).

Definition set_signature (sg : option string) (x : t) : t :=
  mk (transaction_id x) (sender_wallet_id x) (receiver_wallet_id x) (token_id x)
     (voucher_id x) (is_anonymous x) (status x) (timestamp x) (aml_flagged x)
     (aml_reason x) sg.

(** [__post_init__]: a missing timestamp is the current time. *)
Definition post_init (now : string) (x : t) : t :=
  if truthy_opt (timestamp x) then x else set_timestamp (Some now) x.

Definition to_dict (x : t) : Dict :=
  [ ("transaction_id", JStr (transaction_id x));
    ("sender_wallet_id", JStr (sender_wallet_id x));
    ("receiver_wallet_id", JStr (receiver_wallet_id x));
    ("token_id", JStr (token_id x));
    ("voucher_id", jopt (voucher_id x));
    ("is_anonymous", JBool (is_anonymous x));
    ("status", JStr (TransactionStatus_value (status x)));
    ("timestamp", jopt (timestamp x));
    ("aml_flagged", JBool (aml_flagged x));
    ("aml_reason", jopt (aml_reason x));
    ("signature", jopt (signature x)) ].

End Transaction.

(** ** ledger.py: the records *)

Inductive LedgerEntryType : Type := ANONYMOUS | NON_ANONYMOUS | AML_FLAGGED.

#[global] Instance LedgerEntryType_eq_dec : EqDecision LedgerEntryType.
Proof. solve_decision. Defined.

Module LedgerEntry.

(** [metadata] is the dict [{voucher_id, status, aml_reason}] that
    [store_transaction] builds. *)
Record t : Type := mk {
  entry_id : string;
  transaction_id : string;
  sender_wallet_id : string;
  receiver_wallet_id : string;
  token_id : string;
  value : Z;
  is_anonymous : bool;
  entry_type : LedgerEntryType;
  timestamp : string;
  metadata_voucher_id : option string;
  metadata_status : string;
  metadata_aml_reason : option string
}.

End LedgerEntry.

(** ** offline.py: the records *)

Inductive OfflineStatus : Type := OFF_PENDING | OFF_SIGNED | OFF_SYNCED | OFF_FAILED.

#[global] Instance OfflineStatus_eq_dec : EqDecision OfflineStatus.
Proof. solve_decision. Defined.

Module OfflineTransaction.

Record t : Type := mk {
  offline_id : string;
  sender_wallet_id : string;
  receiver_wallet_id : string;
  token_id : string;
  value : Z;
  sender_signature : option string;
  receiver_signature : option string;
  status : OfflineStatus;
  created_timestamp : option string;
  synced_timestamp : option string;
  voucher_id : option string;
  is_anonymous : bool
}.

Definition set_sender_signature (sg : option string) (x : t) : t :=
  mk (offline_id x) (sender_wallet_id x) (receiver_wallet_id x) (token_id x) (value x)
     sg (receiver_signature x) (status x) (created_timestamp x) (synced_timestamp x)
     (voucher_id x) (is_anonymous x).

Definition set_receiver_signature (sg : option string) (x : t) : t :=
  mk (offline_id x) (sender_wallet_id x) (receiver_wallet_id x) (token_id x) (value x)
     (sender_signature x) sg (status x) (created_timestamp x) (synced_timestamp x)
     (voucher_id x) (is_anonymous x).

Definition set_status (s : OfflineStatus) (x : t) : t :=
  mk (offline_id x) (sender_wallet_id x) (receiver_wallet_id x) (token_id x) (value x)
     (sender_signature x) (receiver_signature x) s (created_timestamp x)
     (synced_timestamp x) (voucher_id x) (is_anonymous x).

Definition set_created_timestamp (ts : option string) (x : t) : t :=
  mk (offline_id x) (sender_wallet_id x) (receiver_wallet_id x) (token_id x) (value x)
     (sender_signature x) (receiver_signature x) (status x) ts (synced_timestamp x)
     (voucher_id x) (is_anonymous x).

Definition set_synced_timestamp (ts : option string) (x : t) : t :=
  mk (offline_id x) (sender_wallet_id x) (receiver_wallet_id x) (token_id x) (value x)
     (sender_signature x) (receiver_signature x) (status x) (created_timestamp x) ts
     (voucher_id x) (is_anonymous x).

Definition post_init (now : string) (x : t) : t :=
  if truthy_opt (created_timestamp x) then x else set_created_timestamp (Some now) x.

End OfflineTransaction.

(** ** The assembled system ([PrivacyNetworkSystem.__init__]) *)

Record System : Type := mkSystem {
  wallets : gmap string Wallet.t;                 (* WalletManager.wallets *)
  tokens : gmap string Token.t;                   (* TokenManager.tokens *)
  vouchers : gmap string Voucher.t;               (* VoucherManager.vouchers *)
  aml_registry : list AMLEntry.t;                 (* ComplianceManager.aml_registry *)
  authority_contacted : bool;                     (* ComplianceManager.authority_contacted *)
  entries : gmap string LedgerEntry.t;            (* LedgerManager.entries *)
  entry_counter : N;                              (* LedgerManager.entry_counter *)
  transactions : gmap string Transaction.t;       (* TransactionEngine.transactions *)
  offline_transactions : gmap string OfflineTransaction.t
                                                  (* OfflineManager.offline_transactions *)
}.

Definition set_wallets (m : gmap string Wallet.t) (s : System) : System :=
  mkSystem m (tokens s) (vouchers s) (aml_registry s) (authority_contacted s)
           (entries s) (entry_counter s) (transactions s) (offline_transactions s).

Definition set_tokens (m : gmap string Token.t) (s : System) : System :=
  mkSystem (wallets s) m (vouchers s) (aml_registry s) (authority_contacted s)
           (entries s) (entry_counter s) (transactions s) (offline_transactions s).

Definition set_vouchers (m : gmap string Voucher.t) (s : System) : System :=
  mkSystem (wallets s) (tokens s) m (aml_registry s) (authority_contacted s)
           (entries s) (entry_counter s) (transactions s) (offline_transactions s).

Definition set_aml_registry (l : list AMLEntry.t) (s : System) : System :=
  mkSystem (wallets s) (tokens s) (vouchers s) l (authority_contacted s)
           (entries s) (entry_counter s) (transactions s) (offline_transactions s).

Definition set_authority_contacted (b : bool) (s : System) : System :=
  mkSystem (wallets s) (tokens s) (vouchers s) (aml_registry s) b
           (entries s) (entry_counter s) (transactions s) (offline_transactions s).

Definition set_ledger (m : gmap string LedgerEntry.t) (c : N) (s : System) : System :=
  mkSystem (wallets s) (tokens s) (vouchers s) (aml_registry s) (authority_contacted s)
           m c (transactions s) (offline_transactions s).

Definition set_transactions (m : gmap string Transaction.t) (s : System) : System :=
  mkSystem (wallets s) (tokens s) (vouchers s) (aml_registry s) (authority_contacted s)
           (entries s) (entry_counter s) m (offline_transactions s).

Definition set_offline_transactions (m : gmap string OfflineTransaction.t) (s : System)
  : System :=
  mkSystem (wallets s) (tokens s) (vouchers s) (aml_registry s) (authority_contacted s)
           (entries s) (entry_counter s) (transactions s) m.

(** A fresh process with no ledger file: every store is empty. *)
Definition init : System :=
  mkSystem ∅ ∅ ∅ [] false ∅ 0 ∅ ∅.

(** ** WalletManager *)

Module WalletManager.

(** [wallet_id] is the value of [uuid.uuid4()] and [private_key] that of
    [secrets.token_hex(32)]. *)
Definition create_wallet (wallet_id private_key : string) (s : System)
  : Result Wallet.t * System :=
  let public_key := SHA256.hexdigest private_key in
  let wallet := Wallet.mk wallet_id public_key private_key [] 0 in
  if negb (Wallet.post_init_ok wallet)
  then (Err "Wallet must have valid ID, public key, and private key", s)
  else (Ok wallet, set_wallets (<[wallet_id := wallet]> (wallets s)) s).

Definition get_wallet (wallet_id : string) (s : System) : option Wallet.t :=
  wallets s !! wallet_id.

Definition wallet_exists (wallet_id : string) (s : System) : bool :=
  match wallets s !! wallet_id with
  | Some _ => true
  | None => false
  end.

End WalletManager.

(** ** TokenManager *)

Module TokenManager.

(** [token_id] is the value of [uuid.uuid4()]. *)
Definition issue_token (value : Z) (owner_wallet_id : string) (token_id : string)
  (s : System) : Result Token.t * System :=
  if negb (WalletManager.wallet_exists owner_wallet_id s)
  then (Err ("Wallet " ++ owner_wallet_id ++ " does not exist"), s)
  else
    let token := Token.mk token_id value owner_wallet_id "ECB" None in
    if negb (Token.post_init_ok token)
    then (Err "Token must have valid ID, positive value, and owner", s)
    else
      let s1 := set_tokens (<[token_id := token]> (tokens s)) s in
      let s2 :=
        match WalletManager.get_wallet owner_wallet_id s1 with
        | Some wallet =>
            set_wallets (<[owner_wallet_id := Wallet.add_token token_id wallet]> (wallets s1)) s1
        | None => s1
        end in
      (Ok token, s2).

Definition get_token (token_id : string) (s : System) : option Token.t :=
  tokens s !! token_id.

Definition transfer_token (token_id sender_wallet_id receiver_wallet_id : string)
  (s : System) : bool * System :=
  match get_token token_id s with
  | None => (false, s)
  | Some token =>
      if negb (String.eqb (Token.owner_wallet_id token) sender_wallet_id) then (false, s)
      else if negb (WalletManager.wallet_exists sender_wallet_id s
                    && WalletManager.wallet_exists receiver_wallet_id s) then (false, s)
      else
        let s1 :=
          match WalletManager.get_wallet sender_wallet_id s with
          | Some sender_wallet =>
              set_wallets (<[sender_wallet_id :=
                               snd (Wallet.remove_token token_id sender_wallet)]> (wallets s)) s
          | None => s
          end in
        let s2 :=
          match WalletManager.get_wallet receiver_wallet_id s1 with
          | Some receiver_wallet =>
              set_wallets (<[receiver_wallet_id :=
                               Wallet.add_token token_id receiver_wallet]> (wallets s1)) s1
          | None => s1
          end in
        let s3 :=
          set_tokens (<[token_id :=
                          snd (Token.transfer_ownership receiver_wallet_id token)]> (tokens s2)) s2 in
        (true, s3)
  end.

(** [list(self.tokens.values())]; the order of a [gmap] is not the
    insertion order of the Python dict. *)
Definition list_all_tokens (s : System) : list Token.t := (map_to_list (tokens s)).*2.

Definition get_tokens_by_owner (wallet_id : string) (s : System) : list Token.t :=
  filter (fun token => Token.owner_wallet_id token = wallet_id) (list_all_tokens s).

(** [sum(token.value for token in ...)]. *)
Definition get_total_value_by_owner (wallet_id : string) (s : System) : Z :=
  foldr Z.add 0%Z (Token.value <$> get_tokens_by_owner wallet_id s).

End TokenManager.

(** ** VoucherManager *)

Module VoucherManager.

Definition aml_authority_private_key : string := "aml_authority_secret_key_123".

Definition _generate_aml_signature (voucher_data : Dict) : string :=
  SHA256.hexdigest (Json.dumps voucher_data ++ aml_authority_private_key).

(** [voucher_id] is the value of [uuid.uuid4()] and [now] that of
    [datetime.now().isoformat()]. *)
Definition issue_voucher (wallet_id : string) (value_limit : Z) (voucher_id now : string)
  (s : System) : Result Voucher.t * System :=
  if negb (WalletManager.wallet_exists wallet_id s)
  then (Err ("Wallet " ++ wallet_id ++ " does not exist"), s)
  else
    let voucher_data : Dict :=
      [ ("voucher_id", JStr voucher_id);
        ("value_limit", JInt value_limit);
        ("issued_to_wallet_id", JStr wallet_id);
        ("issued_by", JStr "AMLAuthority");
        ("issue_timestamp", JStr now) ] in
    let signature := _generate_aml_signature voucher_data in
    let voucher :=
      Voucher.mk voucher_id signature value_limit wallet_id "AMLAuthority" (Some now)
                 false None in
    if negb (Voucher.post_init_ok voucher)
    then (Err "Voucher must have valid ID, signature, and positive value limit", s)
    else
      let s1 := set_vouchers (<[voucher_id := voucher]> (vouchers s)) s in
      let s2 :=
        match WalletManager.get_wallet wallet_id s1 with
        | Some wallet =>
            set_wallets (<[wallet_id := Wallet.add_voucher 1 wallet]> (wallets s1)) s1
        | None => s1
        end in
      (Ok voucher, s2).

Definition get_voucher (voucher_id : string) (s : System) : option Voucher.t :=
  vouchers s !! voucher_id.

Definition redeem_voucher (voucher_id transaction_id : string) (transaction_value : Z)
  (s : System) : bool * System :=
  match get_voucher voucher_id s with
  | None => (false, s)
  | Some voucher =>
      if negb (Voucher.can_be_used_for_value voucher transaction_value) then (false, s)
      else
        match Voucher.mark_as_used transaction_id voucher with
        | (true, voucher') =>
            let s1 := set_vouchers (<[voucher_id := voucher']> (vouchers s)) s in
            let s2 :=
              match WalletManager.get_wallet (Voucher.issued_to_wallet_id voucher') s1 with
              | Some wallet =>
                  set_wallets (<[Voucher.issued_to_wallet_id voucher' :=
                                   snd (Wallet.use_voucher wallet)]> (wallets s1)) s1
              | None => s1
              end in
            (true, s2)
        | (false, _) => (false, s)
        end
  end.

(** The dictionary that [verify_voucher_signature] rebuilds from the
    stored voucher. *)
Definition voucher_data_of (voucher : Voucher.t) : Dict :=
  [ ("voucher_id", JStr (Voucher.voucher_id voucher));
    ("value_limit", JInt (Voucher.value_limit voucher));
    ("issued_to_wallet_id", JStr (Voucher.issued_to_wallet_id voucher));
    ("issued_by", JStr (Voucher.issued_by voucher));
    ("issue_timestamp", jopt (Voucher.issue_timestamp voucher)) ].

Definition verify_voucher_signature (voucher_id : string) (s : System) : bool :=
  match get_voucher voucher_id s with
  | None => false
  | Some voucher =>
      let expected_signature := _generate_aml_signature (voucher_data_of voucher) in
      String.eqb (Voucher.signature voucher) expected_signature
  end.

Definition list_all_vouchers (s : System) : list Voucher.t := (map_to_list (vouchers s)).*2.

Definition get_vouchers_by_wallet (wallet_id : string) (s : System) : list Voucher.t :=
  filter (fun voucher => Voucher.issued_to_wallet_id voucher = wallet_id)
         (list_all_vouchers s).

Definition get_available_vouchers_by_wallet (wallet_id : string) (s : System)
  : list Voucher.t :=
  filter (fun voucher => Voucher.is_used voucher = false) (get_vouchers_by_wallet wallet_id s).

Definition get_used_vouchers (s : System) : list Voucher.t :=
  filter (fun voucher => Voucher.is_used voucher = true) (list_all_vouchers s).

Definition get_unused_vouchers (s : System) : list Voucher.t :=
  filter (fun voucher => Voucher.is_used voucher = false) (list_all_vouchers s).

End VoucherManager.

(** ** ComplianceManager *)

Module ComplianceManager.

Definition high_value_threshold : Z := 100.

(** [tx.get('amount', 0)] on a record of the transaction history. *)
Definition amount_of (tx : Dict) : Z :=
  match filter (fun kv => String.eqb (fst kv) "amount") tx with
  | (_, JInt a) :: _ => a
  | _ => 0
  end.

(** The mock implementation: no history is kept. *)
Definition _get_recent_transactions (wallet_id : string) (hours : Z) : list Dict := [].

Definition _check_suspicious_patterns (transaction : Transaction.t) (token : Token.t) : bool :=
  let recent_transactions :=
    _get_recent_transactions (Transaction.sender_wallet_id transaction) 24 in
  let high_value_count :=
    length (filter (fun tx => (50 <? amount_of tx)%Z) recent_transactions) in
  if (3 <? high_value_count)%nat then true else false.

(** The entry appended by [_create_aml_entry] is the object that
    [_escalate_to_authority] then updates: the entry at index [i] of the
    registry. What it prints is not part of the state. *)
Definition _escalate_to_authority (i : nat) (s : System) : System :=
  let s1 :=
    set_aml_registry (alter (AMLEntry.set_authority_notified true) i (aml_registry s)) s in
  set_authority_contacted true s1.

Definition _create_aml_entry (transaction : Transaction.t) (token : Token.t)
  (risk_score : float) (reasons : list string) (now : string) (s : System) : System :=
  let aml_entry :=
    AMLEntry.mk (Transaction.transaction_id transaction)
                (Transaction.sender_wallet_id transaction)
                (Transaction.receiver_wallet_id transaction)
                (Transaction.token_id transaction)
                (Token.value token)
                (opt_or (Transaction.timestamp transaction) now)
                (join "; " reasons)
                risk_score false false in
  let i := length (aml_registry s) in
  let s1 := set_aml_registry (aml_registry s ++ [aml_entry]) s in
  if (0.8 <=? risk_score)%float
  then
    let s2 :=
      set_aml_registry (alter (AMLEntry.set_escalated true) i (aml_registry s1)) s1 in
    _escalate_to_authority i s2
  else s1.

Definition check_transaction (transaction : Transaction.t) (token : Token.t)
  (now : string) (s : System) : ComplianceResult.t * System :=
  let risk_score := 0.0%float in
  let reasons : list string := [] in
  (* Rule 1: high value *)
  let '(risk_score, reasons) :=
    if (high_value_threshold <? Token.value token)%Z
    then ((risk_score + 0.7)%float,
          (reasons ++ [("High value transaction: €" ++ pretty (Token.value token))%string])%list)
    else (risk_score, reasons) in
  (* Rule 2: no voucher used *)
  let '(risk_score, reasons) :=
    if negb (Transaction.is_anonymous transaction)
    then ((risk_score + 0.3)%float, (reasons ++ ["Non-anonymous transaction"])%list)
    else (risk_score, reasons) in
  (* Rule 3: suspicious patterns *)
  let '(risk_score, reasons) :=
    if _check_suspicious_patterns transaction token
    then ((risk_score + 0.5)%float,
          (reasons ++ ["Suspicious transaction pattern detected"])%list)
    else (risk_score, reasons) in
  let '(status, is_approved) :=
    if (0.8 <=? risk_score)%float then (FLAGGED, true)
    else if (0.5 <=? risk_score)%float then (FLAGGED, true)
    else (APPROVED, true) in
  let s' :=
    match status with
    | FLAGGED => _create_aml_entry transaction token risk_score reasons now s
    | _ => s
    end in
  (ComplianceResult.mk is_approved status
     (match reasons with [] => None | _ => Some (join "; " reasons) end)
     risk_score (0.8 <=? risk_score)%float,
   s').

Definition get_aml_entries (s : System) : list AMLEntry.t := aml_registry s.

Definition get_escalated_transactions (s : System) : list AMLEntry.t :=
  filter (fun entry => AMLEntry.escalated entry = true) (aml_registry s).

Definition get_flagged_transactions (s : System) : list AMLEntry.t :=
  filter (fun entry => (0.5 <? AMLEntry.risk_score entry)%float = true) (aml_registry s).

Definition get_high_risk_transactions (s : System) : list AMLEntry.t :=
  filter (fun entry => (0.8 <=? AMLEntry.risk_score entry)%float = true) (aml_registry s).

End ComplianceManager.

(** ** LedgerManager *)

Module LedgerManager.

(** [_save_ledger] rewrites the ledger file from the entries in memory.
    The file is not part of the state. [disk] is what the write does:
    [None] when it succeeds, [Some msg] when [open] or [json.dump] raises,
    [msg] being the text of the exception. *)
Definition _save_ledger (disk : option string) (s : System) : Result unit * System :=
  match disk with
  | None => (Ok tt, s)
  | Some msg => (Err msg, s)
  end.

(** [str(self.entry_counter)] is the decimal numeral. The counter and the
    entry are updated before the file is written: they stay when the
    write raises. *)
Definition store_transaction (transaction : Transaction.t) (now : string)
  (disk : option string) (s : System) : Result string * System :=
  let entry_id := pretty (entry_counter s) in
  let counter' := (entry_counter s + 1)%N in
  let entry_type :=
    if Transaction.aml_flagged transaction then AML_FLAGGED
    else if Transaction.is_anonymous transaction then ANONYMOUS
    else NON_ANONYMOUS in
  let token_value :=
    match TokenManager.get_token (Transaction.token_id transaction) s with
    | Some token => Token.value token
    | None => 0%Z
    end in
  let entry :=
    LedgerEntry.mk entry_id
                   (Transaction.transaction_id transaction)
                   (Transaction.sender_wallet_id transaction)
                   (Transaction.receiver_wallet_id transaction)
                   (Transaction.token_id transaction)
                   token_value
                   (Transaction.is_anonymous transaction)
                   entry_type
                   (opt_or (Transaction.timestamp transaction) now)
                   (Transaction.voucher_id transaction)
                   (TransactionStatus_value (Transaction.status transaction))
                   (Transaction.aml_reason transaction) in
  let s1 := set_ledger (<[entry_id := entry]> (entries s)) counter' s in
  match _save_ledger disk s1 with
  | (Err msg, s2) => (Err msg, s2)
  | (Ok _, s2) => (Ok entry_id, s2)
  end.

Definition get_entries_by_transaction (transaction_id : string) (s : System)
  : list LedgerEntry.t :=
  filter (fun entry => LedgerEntry.transaction_id entry = transaction_id)
         (map_to_list (entries s)).*2.

Definition get_entry (entry_id : string) (s : System) : option LedgerEntry.t :=
  entries s !! entry_id.

(** [self.entries.values()], up to the order. *)
Definition values (s : System) : list LedgerEntry.t := (map_to_list (entries s)).*2.

Definition involves (wallet_id : string) (entry : LedgerEntry.t) : Prop :=
  LedgerEntry.sender_wallet_id entry = wallet_id
  \/ LedgerEntry.receiver_wallet_id entry = wallet_id.

Definition get_entries_by_wallet (wallet_id : string) (s : System) : list LedgerEntry.t :=
  filter (involves wallet_id) (values s).

Definition get_anonymous_entries (s : System) : list LedgerEntry.t :=
  filter (fun entry => LedgerEntry.entry_type entry = ANONYMOUS) (values s).

Definition get_non_anonymous_entries (s : System) : list LedgerEntry.t :=
  filter (fun entry => LedgerEntry.entry_type entry = NON_ANONYMOUS) (values s).

Definition get_aml_flagged_entries (s : System) : list LedgerEntry.t :=
  filter (fun entry => LedgerEntry.entry_type entry = AML_FLAGGED) (values s).

Definition get_entries_by_value_range (min_value max_value : Z) (s : System)
  : list LedgerEntry.t :=
  filter (fun entry => (min_value <= LedgerEntry.value entry <= max_value)%Z) (values s).

(** The entries that [export_aml_loggable_transactions] writes. *)
Definition aml_loggable_entries (s : System) : list LedgerEntry.t :=
  (get_non_anonymous_entries s ++ get_aml_flagged_entries s)%list.

End LedgerManager.

(** ** TransactionEngine *)

Module TransactionEngine.

(** [transaction_id] is the value of [uuid.uuid4()]; [now] is the clock
    read by [Transaction.__post_init__]; [disk] is what the write of the
    ledger file does. An exception raised in the execution phase is
    raised again by the handler, which sets the status of the transaction
    object to failed; that object is not stored. *)
Definition execute_transfer (sender_wallet_id receiver_wallet_id token_id : string)
  (voucher_id : option string) (transaction_id now : string) (disk : option string)
  (s : System) : Result Transaction.t * System :=
  if negb (truthy sender_wallet_id && truthy receiver_wallet_id && truthy token_id)
  then (Err "Sender, receiver, and token ID are required", s)
  else if String.eqb sender_wallet_id receiver_wallet_id
  then (Err "Sender and receiver cannot be the same", s)
  else if negb (WalletManager.wallet_exists sender_wallet_id s
                && WalletManager.wallet_exists receiver_wallet_id s)
  then (Err "One or both wallets do not exist", s)
  else
    match TokenManager.get_token token_id s with
    | None => (Err ("Token " ++ token_id ++ " does not exist"), s)
    | Some token =>
        if negb (String.eqb (Token.owner_wallet_id token) sender_wallet_id)
        then (Err ("Sender does not own token " ++ token_id), s)
        else
          (* Determine if transaction is anonymous *)
          let anonymity : Result bool :=
            match voucher_id with
            | Some vid =>
                if truthy vid then
                  match VoucherManager.get_voucher vid s with
                  | None => Err ("Voucher " ++ vid ++ " does not exist")
                  | Some voucher =>
                      if negb (String.eqb (Voucher.issued_to_wallet_id voucher)
                                          sender_wallet_id)
                      then Err ("Voucher " ++ vid ++ " does not belong to sender")
                      else if negb (Voucher.can_be_used_for_value voucher (Token.value token))
                      then Err ("Voucher " ++ vid ++ " cannot be used for value €"
                                ++ pretty (Token.value token))
                      else Ok true
                  end
                else Ok false
            | None => Ok false
            end in
          match anonymity with
          | Err msg => (Err msg, s)
          | Ok is_anonymous =>
              (* Create transaction *)
              let transaction :=
                Transaction.post_init now
                  (Transaction.mk transaction_id sender_wallet_id receiver_wallet_id
                                  token_id voucher_id is_anonymous PENDING None false None
                                  None) in
              (* Perform compliance check *)
              let '(compliance_result, s1) :=
                ComplianceManager.check_transaction transaction token now s in
              let transaction :=
                Transaction.set_aml
                  (match ComplianceResult.status compliance_result with
                   | FLAGGED => true
                   | _ => false
                   end)
                  (ComplianceResult.reason compliance_result) transaction in
              (* Execute the transfer *)
              let '(transfer_success, s2) :=
                TokenManager.transfer_token token_id sender_wallet_id receiver_wallet_id s1 in
              if negb transfer_success then (Err "Token transfer failed", s2)
              else
                let '(voucher_redeemed, s3) :=
                  match voucher_id with
                  | Some vid =>
                      if truthy vid
                      then VoucherManager.redeem_voucher vid transaction_id
                                                         (Token.value token) s2
                      else (true, s2)
                  | None => (true, s2)
                  end in
                if negb voucher_redeemed then (Err "Voucher redemption failed", s3)
                else
                  (* Sign transaction *)
                  let transaction :=
                    match WalletManager.get_wallet sender_wallet_id s3 with
                    | Some sender_wallet =>
                        Transaction.set_signature
                          (Some (Wallet.sign_transaction sender_wallet
                                   (Transaction.to_dict transaction)))
                          transaction
                    | None => transaction
                    end in
                  (* Mark transaction as completed *)
                  let transaction := Transaction.set_status COMPLETED transaction in
                  (* Store in ledger *)
                  match LedgerManager.store_transaction transaction now disk s3 with
                  | (Err msg, s4) => (Err msg, s4)
                  | (Ok _, s4) =>
                      (* Store transaction *)
                      let s5 :=
                        set_transactions
                          (<[transaction_id := transaction]> (transactions s4)) s4 in
                      (Ok transaction, s5)
                  end
          end
    end.

Definition get_transaction (transaction_id : string) (s : System) : option Transaction.t :=
  transactions s !! transaction_id.

(** [self.transactions.values()]; the order of a [gmap] is not the
    insertion order of the Python dict. *)
Definition values (s : System) : list Transaction.t := (map_to_list (transactions s)).*2.

Definition status_eqb (a b : TransactionStatus) : bool :=
  match a, b with
  | PENDING, PENDING | COMPLETED, COMPLETED | FAILED, FAILED | CANCELLED, CANCELLED => true
  | _, _ => false
  end.

Definition get_transactions_by_wallet (wallet_id : string) (s : System) : list Transaction.t :=
  List.filter (fun tx => String.eqb (Transaction.sender_wallet_id tx) wallet_id
                         || String.eqb (Transaction.receiver_wallet_id tx) wallet_id)
              (values s).

Definition get_anonymous_transactions (s : System) : list Transaction.t :=
  List.filter Transaction.is_anonymous (values s).

Definition get_non_anonymous_transactions (s : System) : list Transaction.t :=
  List.filter (fun tx => negb (Transaction.is_anonymous tx)) (values s).

Definition get_aml_flagged_transactions (s : System) : list Transaction.t :=
  List.filter Transaction.aml_flagged (values s).

Definition get_completed_transactions (s : System) : list Transaction.t :=
  List.filter (fun tx => status_eqb (Transaction.status tx) COMPLETED) (values s).

Definition get_failed_transactions (s : System) : list Transaction.t :=
  List.filter (fun tx => status_eqb (Transaction.status tx) FAILED) (values s).

Definition list_all_transactions (s : System) : list Transaction.t := values s.

Definition verify_transaction_signature (transaction_id : string) (s : System) : bool :=
  match get_transaction transaction_id s with
  | None => false
  | Some transaction =>
      match Transaction.signature transaction with
      | None => false
      | Some signature =>
          if negb (truthy signature) then false
          else
            match WalletManager.get_wallet (Transaction.sender_wallet_id transaction) s with
            | None => false
            | Some sender_wallet =>
                (* transaction data without signature *)
                let transaction_data :=
                  dict_pop "signature" (Transaction.to_dict transaction) in
                Wallet.verify_signature sender_wallet transaction_data signature
            end
      end
  end.

End TransactionEngine.

(** ** OfflineManager *)

Module OfflineManager.

(** [offline_id] is the value of [uuid.uuid4()]; [now] is the clock read
    by [OfflineTransaction.__post_init__]. *)
Definition create_offline_transaction (sender_wallet_id receiver_wallet_id token_id : string)
  (voucher_id : option string) (offline_id now : string) (s : System)
  : Result OfflineTransaction.t * System :=
  if negb (truthy sender_wallet_id && truthy receiver_wallet_id && truthy token_id)
  then (Err "Sender, receiver, and token ID are required", s)
  else if String.eqb sender_wallet_id receiver_wallet_id
  then (Err "Sender and receiver cannot be the same", s)
  else if negb (WalletManager.wallet_exists sender_wallet_id s
                && WalletManager.wallet_exists receiver_wallet_id s)
  then (Err "One or both wallets do not exist", s)
  else
    match TokenManager.get_token token_id s with
    | None => (Err ("Token " ++ token_id ++ " does not exist"), s)
    | Some token =>
        if negb (String.eqb (Token.owner_wallet_id token) sender_wallet_id)
        then (Err ("Sender does not own token " ++ token_id), s)
        else
          (* Check voucher if provided *)
          let anonymity : Result bool :=
            match voucher_id with
            | Some vid =>
                if truthy vid then
                  match VoucherManager.get_voucher vid s with
                  | None => Err ("Voucher " ++ vid ++ " does not exist")
                  | Some voucher =>
                      if negb (String.eqb (Voucher.issued_to_wallet_id voucher)
                                          sender_wallet_id)
                      then Err ("Voucher " ++ vid ++ " does not belong to sender")
                      else if negb (Voucher.can_be_used_for_value voucher (Token.value token))
                      then Err ("Voucher " ++ vid ++ " cannot be used for value €"
                                ++ pretty (Token.value token))
                      else Ok true
                  end
                else Ok false
            | None => Ok false
            end in
          match anonymity with
          | Err msg => (Err msg, s)
          | Ok is_anonymous =>
              let offline_tx :=
                OfflineTransaction.post_init now
                  (OfflineTransaction.mk offline_id sender_wallet_id receiver_wallet_id
                                         token_id (Token.value token) None None OFF_PENDING
                                         None None voucher_id is_anonymous) in
              (Ok offline_tx,
               set_offline_transactions
                 (<[offline_id := offline_tx]> (offline_transactions s)) s)
          end
    end.

(** The data that both parties sign. *)
Definition tx_data (offline_tx : OfflineTransaction.t) : Dict :=
  [ ("offline_id", JStr (OfflineTransaction.offline_id offline_tx));
    ("sender_wallet_id", JStr (OfflineTransaction.sender_wallet_id offline_tx));
    ("receiver_wallet_id", JStr (OfflineTransaction.receiver_wallet_id offline_tx));
    ("token_id", JStr (OfflineTransaction.token_id offline_tx));
    ("value", JInt (OfflineTransaction.value offline_tx));
    ("voucher_id", jopt (OfflineTransaction.voucher_id offline_tx));
    ("is_anonymous", JBool (OfflineTransaction.is_anonymous offline_tx)) ].

Definition _verify_offline_signature (offline_tx : OfflineTransaction.t)
  (wallet_id signature : string) (s : System) : bool :=
  match WalletManager.get_wallet wallet_id s with
  | None => false
  | Some wallet =>
      let expected_signature := Wallet.sign_transaction wallet (tx_data offline_tx) in
      String.eqb signature expected_signature
  end.

Definition sign_offline_transaction (offline_id wallet_id signature : string) (s : System)
  : bool * System :=
  match offline_transactions s !! offline_id with
  | None => (false, s)
  | Some offline_tx =>
      if negb (_verify_offline_signature offline_tx wallet_id signature s) then (false, s)
      else
        (* Apply signature based on wallet role *)
        let role : option OfflineTransaction.t :=
          if String.eqb wallet_id (OfflineTransaction.sender_wallet_id offline_tx)
          then Some (OfflineTransaction.set_sender_signature (Some signature) offline_tx)
          else if String.eqb wallet_id (OfflineTransaction.receiver_wallet_id offline_tx)
          then Some (OfflineTransaction.set_receiver_signature (Some signature) offline_tx)
          else None in
        match role with
        | None => (false, s)
        | Some offline_tx =>
            (* Check if both signatures are present *)
            let offline_tx :=
              if truthy_opt (OfflineTransaction.sender_signature offline_tx)
                 && truthy_opt (OfflineTransaction.receiver_signature offline_tx)
              then OfflineTransaction.set_status OFF_SIGNED offline_tx
              else offline_tx in
            (true,
             set_offline_transactions
               (<[offline_id := offline_tx]> (offline_transactions s)) s)
        end
  end.

Definition OfflineStatus_eqb (a b : OfflineStatus) : bool :=
  match a, b with
  | OFF_PENDING, OFF_PENDING | OFF_SIGNED, OFF_SIGNED
  | OFF_SYNCED, OFF_SYNCED | OFF_FAILED, OFF_FAILED => true
  | _, _ => false
  end.

(** [MockTransaction(offline_tx)]: the object handed to the ledger, with
    the fields that [store_transaction] reads. Its [status] has the value
    ["completed"]. *)
Definition MockTransaction (offline_tx : OfflineTransaction.t) : Transaction.t :=
  Transaction.mk (OfflineTransaction.offline_id offline_tx)
                 (OfflineTransaction.sender_wallet_id offline_tx)
                 (OfflineTransaction.receiver_wallet_id offline_tx)
                 (OfflineTransaction.token_id offline_tx)
                 (OfflineTransaction.voucher_id offline_tx)
                 (OfflineTransaction.is_anonymous offline_tx)
                 COMPLETED
                 (OfflineTransaction.created_timestamp offline_tx)
                 false None None.

(** [offline_tx.status = OfflineStatus.FAILED] on the stored object. *)
Definition mark_failed (offline_id : string) (offline_tx : OfflineTransaction.t)
  (s : System) : System :=
  set_offline_transactions
    (<[offline_id := OfflineTransaction.set_status OFF_FAILED offline_tx]>
       (offline_transactions s)) s.

(** [now] is the clock read for [synced_timestamp]; [disk] is what the
    write of the ledger file does. An exception raised by the ledger is
    caught: the record is marked failed and the call returns false. *)
Definition sync_with_ledger (offline_id : string) (now : string) (disk : option string)
  (s : System) : bool * System :=
  match offline_transactions s !! offline_id with
  | None => (false, s)
  | Some offline_tx =>
      (* Check if transaction is fully signed *)
      if negb (OfflineStatus_eqb (OfflineTransaction.status offline_tx) OFF_SIGNED)
      then (false, s)
      else
        (* Transfer token ownership *)
        let '(transfer_success, s1) :=
          TokenManager.transfer_token (OfflineTransaction.token_id offline_tx)
                                      (OfflineTransaction.sender_wallet_id offline_tx)
                                      (OfflineTransaction.receiver_wallet_id offline_tx) s in
        if negb transfer_success
        then (false, mark_failed offline_id offline_tx s1)
        else
          (* Redeem voucher if used *)
          let '(voucher_redeemed, s2) :=
            match OfflineTransaction.voucher_id offline_tx with
            | Some vid =>
                if truthy vid
                then VoucherManager.redeem_voucher vid
                                                   (OfflineTransaction.offline_id offline_tx)
                                                   (OfflineTransaction.value offline_tx) s1
                else (true, s1)
            | None => (true, s1)
            end in
          if negb voucher_redeemed
          then (false, mark_failed offline_id offline_tx s2)
          else
            (* Create ledger entry *)
            let mock_tx := MockTransaction offline_tx in
            match LedgerManager.store_transaction mock_tx now disk s2 with
            | (Err _, s3) => (false, mark_failed offline_id offline_tx s3)
            | (Ok _, s3) =>
                (* Mark as synced *)
                let offline_tx :=
                  OfflineTransaction.set_synced_timestamp (Some now)
                    (OfflineTransaction.set_status OFF_SYNCED offline_tx) in
                (true,
                 set_offline_transactions
                   (<[offline_id := offline_tx]> (offline_transactions s3)) s3)
            end
  end.

Definition get_offline_transaction (offline_id : string) (s : System)
  : option OfflineTransaction.t :=
  offline_transactions s !! offline_id.

Definition list_all_offline_transactions (s : System) : list OfflineTransaction.t :=
  (map_to_list (offline_transactions s)).*2.

Definition get_pending_offline_transactions (s : System) : list OfflineTransaction.t :=
  filter (fun tx => OfflineTransaction.status tx = OFF_PENDING)
         (list_all_offline_transactions s).

Definition get_signed_offline_transactions (s : System) : list OfflineTransaction.t :=
  filter (fun tx => OfflineTransaction.status tx = OFF_SIGNED)
         (list_all_offline_transactions s).

Definition get_synced_offline_transactions (s : System) : list OfflineTransaction.t :=
  filter (fun tx => OfflineTransaction.status tx = OFF_SYNCED)
         (list_all_offline_transactions s).

Definition get_failed_offline_transactions (s : System) : list OfflineTransaction.t :=
  filter (fun tx => OfflineTransaction.status tx = OFF_FAILED)
         (list_all_offline_transactions s).

End OfflineManager.

(** ** Runs of the system

    The calls that change the state, as the command surface and the
    pipeline make them. The identifiers drawn by [uuid.uuid4()], the key
    drawn by [secrets.token_hex], the clock value and what the write of
    the ledger file does are arguments. *)

Inductive op : Type :=
  | op_create_wallet (wallet_id private_key : string)
  | op_issue_token (value : Z) (owner_wallet_id token_id : string)
  | op_transfer_token (token_id sender_wallet_id receiver_wallet_id : string)
  | op_issue_voucher (wallet_id : string) (value_limit : Z) (voucher_id now : string)
  | op_redeem_voucher (voucher_id transaction_id : string) (transaction_value : Z)
  | op_execute_transfer (sender_wallet_id receiver_wallet_id token_id : string)
      (voucher_id : option string) (transaction_id now : string) (disk : option string)
  | op_create_offline_transaction (sender_wallet_id receiver_wallet_id token_id : string)
      (voucher_id : option string) (offline_id now : string)
  | op_sign_offline_transaction (offline_id wallet_id signature : string)
  | op_sync_with_ledger (offline_id now : string) (disk : option string).

Definition step (o : op) (s : System) : System :=
  match o with
  | op_create_wallet w k => snd (WalletManager.create_wallet w k s)
  | op_issue_token v w t => snd (TokenManager.issue_token v w t s)
  | op_transfer_token t a b => snd (TokenManager.transfer_token t a b s)
  | op_issue_voucher w l v now => snd (VoucherManager.issue_voucher w l v now s)
  | op_redeem_voucher v x n => snd (VoucherManager.redeem_voucher v x n s)
  | op_execute_transfer a b t v x now disk =>
      snd (TransactionEngine.execute_transfer a b t v x now disk s)
  | op_create_offline_transaction a b t v x now =>
      snd (OfflineManager.create_offline_transaction a b t v x now s)
  | op_sign_offline_transaction x w sg =>
      snd (OfflineManager.sign_offline_transaction x w sg s)
  | op_sync_with_ledger x now disk => snd (OfflineManager.sync_with_ledger x now disk s)
  end.

Definition is_None {A : Type} (o : option A) : bool :=
  match o with
  | None => true
  | Some _ => false
  end.

(** What the environment guarantees: a drawn identifier is not in use in
    the store it is drawn for, and the clock value is not empty. A write
    of the ledger file may succeed or fail. *)
Definition env_ok (o : op) (s : System) : bool :=
  match o with
  | op_create_wallet w _ => is_None (wallets s !! w)
  | op_issue_token _ _ t => is_None (tokens s !! t)
  | op_issue_voucher _ _ v now => is_None (vouchers s !! v) && truthy now
  | op_execute_transfer _ _ _ _ x now _ => is_None (transactions s !! x) && truthy now
  | op_create_offline_transaction _ _ _ _ x now =>
      is_None (offline_transactions s !! x) && truthy now
  | op_sync_with_ledger _ now _ => truthy now
  | op_transfer_token _ _ _ | op_redeem_voucher _ _ _
  | op_sign_offline_transaction _ _ _ => true
  end.

Fixpoint run (ops : list op) (s : System) : option System :=
  match ops with
  | [] => Some s
  | o :: rest => if env_ok o s then run rest (step o s) else None
  end.

(** The states of a process started on an empty ledger. *)
Definition reachable (s : System) : Prop := exists ops, run ops init = Some s.

(** * Properties *)

(** From here on [++] is the concatenation of lists. *)
Open Scope list_scope.

(** ** The library functions agree with their reference values *)

(** The digests of the standard one-block and two-block test messages. *)
Example sha256_abc :
  SHA256.hexdigest "abc"
  = "ba7816bf8f01cfea414140de5dae2223b00361a396177a9cb410ff61f20015ad".
Proof. vm_compute. reflexivity. Qed.

Example sha256_two_blocks :
  SHA256.hexdigest "abcdbcdecdefdefgefghfghighijhijkijkljklmklmnlmnomnopnopq"
  = "248d6a61d20638b8e5c026930c3e6039a33ce45964ff2167f6ecedd419db06c1".
Proof. vm_compute. reflexivity. Qed.

Example sha256_empty :
  SHA256.hexdigest ""
  = "e3b0c44298fc1c149afbf4c8996fb92427ae41e4649b934ca495991b7852b855".
Proof. vm_compute. reflexivity. Qed.

(** Expected documents are written with ' for the double quote. *)
Definition qq (s : string) : string :=
  string_of_list_ascii
    (map (fun c => if Ascii.eqb c "'" then Json.dquote else c) (list_ascii_of_string s)).

Example dumps_sorted :
  Json.dumps [("b", JInt 2); ("a", JStr "x\y"); ("c", JNull); ("ab", JBool true)]
  = qq "{'a': 'x\\y', 'ab': true, 'b': 2, 'c': null}".
Proof. vm_compute. reflexivity. Qed.

Example dumps_non_ascii :
  Json.dumps [("reason", JStr "High value transaction: €150")]
  = qq "{'reason': 'High value transaction: \u20ac150'}".
Proof. vm_compute. reflexivity. Qed.

(** ** General facts *)

Lemma run_app ops1 ops2 s :
  run (ops1 ++ ops2) s = match run ops1 s with Some s' => run ops2 s' | None => None end.
Proof.
  revert s. induction ops1 as [|o ops1 IH]; intros s; simpl; [reflexivity|].
  destruct (env_ok o s); [apply IH | reflexivity].
Qed.

Lemma reachable_init : reachable init.
Proof. exists []. reflexivity. Qed.

Lemma reachable_step o s : reachable s -> env_ok o s = true -> reachable (step o s).
Proof.
  intros [ops Hops] Hok. exists (ops ++ [o]).
  rewrite run_app, Hops. simpl. rewrite Hok. reflexivity.
Qed.

(** An invariant of the initial state that every admissible call keeps
    holds in every reachable state. *)
Lemma run_invariant (I : System -> Prop) :
  (forall o s, I s -> env_ok o s = true -> I (step o s)) ->
  forall ops s s', I s -> run ops s = Some s' -> I s'.
Proof.
  intros Hstep ops. induction ops as [|o ops IH]; intros s s' Hs Hrun; simpl in Hrun.
  - congruence.
  - destruct (env_ok o s) eqn:Hok; [|discriminate].
    eapply IH; [|exact Hrun]. apply Hstep; assumption.
Qed.

Lemma reachable_invariant (I : System -> Prop) :
  I init ->
  (forall o s, I s -> env_ok o s = true -> I (step o s)) ->
  forall s, reachable s -> I s.
Proof.
  intros Hinit Hstep s [ops Hops]. eapply run_invariant; eauto.
Qed.

Lemma is_None_true {A : Type} (o : option A) : is_None o = true -> o = None.
Proof. destruct o; [discriminate | reflexivity]. Qed.

Lemma truthy_nonempty (a : string) : truthy a = true -> a <> "".
Proof. destruct a; [discriminate | discriminate]. Qed.

Lemma alter_last {A : Type} (f : A -> A) (l : list A) (e : A) :
  alter f (length l) (l ++ [e]) = l ++ [f e].
Proof.
  induction l as [|x l IH]; simpl; [reflexivity|].
  f_equal. exact IH.
Qed.

(** ** Compliance scoring (compliance.py) *)


Lemma check_transaction_cases transaction token now s :
  let hv := (ComplianceManager.high_value_threshold <? Token.value token)%Z in
  let anon := Transaction.is_anonymous transaction in
  let r := ComplianceManager.check_transaction transaction token now s in
  ComplianceResult.risk_score (fst r)
  = (if hv then if anon then 0.7 else 1.0 else if anon then 0.0 else 0.3)%float.
Proof.
  unfold ComplianceManager.check_transaction.
  destruct (ComplianceManager.high_value_threshold <? Token.value token)%Z;
    destruct (Transaction.is_anonymous transaction); reflexivity.
Qed.



(** Scenario A of the specification, end to end: the transfer of a token
    of value 50 without a voucher completes, is not flagged and leaves the
    registry empty. *)
Definition scenario_A : Result Transaction.t * System :=
  let s := init in
  let s := snd (WalletManager.create_wallet "W1" "key-of-W1" s) in
  let s := snd (WalletManager.create_wallet "W2" "key-of-W2" s) in
  let s := snd (TokenManager.issue_token 50 "W1" "T1" s) in
  TransactionEngine.execute_transfer "W1" "W2" "T1" None "X1" "2025-01-01T12:00:00" None s.

Example scenario_A_approved :
  match fst scenario_A with
  | Ok x =>
      Transaction.status x = COMPLETED
      /\ Transaction.is_anonymous x = false
      /\ Transaction.aml_flagged x = false
  | Err _ => False
  end
  /\ aml_registry (snd scenario_A) = [].
Proof. vm_compute. repeat split. Qed.


(** Scenario B of the specification, end to end: the transfer of a token
    of value 150 without a voucher completes although it is flagged, and
    the registry holds one escalated entry. *)
Definition scenario_B : Result Transaction.t * System :=
  let s := init in
  let s := snd (WalletManager.create_wallet "W1" "key-of-W1" s) in
  let s := snd (WalletManager.create_wallet "W2" "key-of-W2" s) in
  let s := snd (TokenManager.issue_token 150 "W1" "T1" s) in
  TransactionEngine.execute_transfer "W1" "W2" "T1" None "X1" "2025-01-01T12:00:00" None s.

Example scenario_B_flagged :
  match fst scenario_B with
  | Ok x => Transaction.status x = COMPLETED /\ Transaction.aml_flagged x = true
  | Err _ => False
  end
  /\ map AMLEntry.escalated (aml_registry (snd scenario_B)) = [true]
  /\ map AMLEntry.risk_score (aml_registry (snd scenario_B)) = [1.0%float]
  /\ (Token.owner_wallet_id <$> tokens (snd scenario_B) !! "T1") = Some "W2".
Proof. vm_compute. repeat split. Qed.

(** ** What each manager call leaves untouched *)

Ltac case_ifs :=
  repeat match goal with
         | |- context [match ?x with _ => _ end] => destruct x eqn:?
         end.

Ltac frame := intros; cbv zeta; case_ifs; cbn; repeat split; reflexivity.

Lemma create_wallet_frame w k s :
  let s' := snd (WalletManager.create_wallet w k s) in
  tokens s' = tokens s /\ vouchers s' = vouchers s
  /\ aml_registry s' = aml_registry s /\ authority_contacted s' = authority_contacted s
  /\ entries s' = entries s /\ entry_counter s' = entry_counter s
  /\ transactions s' = transactions s
  /\ offline_transactions s' = offline_transactions s.
Proof. unfold WalletManager.create_wallet. frame. Qed.

Lemma issue_token_frame v w t s :
  let s' := snd (TokenManager.issue_token v w t s) in
  vouchers s' = vouchers s
  /\ aml_registry s' = aml_registry s /\ authority_contacted s' = authority_contacted s
  /\ entries s' = entries s /\ entry_counter s' = entry_counter s
  /\ transactions s' = transactions s
  /\ offline_transactions s' = offline_transactions s.
Proof.
  unfold TokenManager.issue_token, WalletManager.get_wallet. frame.
Qed.

Lemma transfer_token_frame t a b s :
  let s' := snd (TokenManager.transfer_token t a b s) in
  vouchers s' = vouchers s
  /\ aml_registry s' = aml_registry s /\ authority_contacted s' = authority_contacted s
  /\ entries s' = entries s /\ entry_counter s' = entry_counter s
  /\ transactions s' = transactions s
  /\ offline_transactions s' = offline_transactions s.
Proof.
  unfold TokenManager.transfer_token, TokenManager.get_token, WalletManager.get_wallet.
  frame.
Qed.

Lemma issue_voucher_frame w l v now s :
  let s' := snd (VoucherManager.issue_voucher w l v now s) in
  tokens s' = tokens s
  /\ aml_registry s' = aml_registry s /\ authority_contacted s' = authority_contacted s
  /\ entries s' = entries s /\ entry_counter s' = entry_counter s
  /\ transactions s' = transactions s
  /\ offline_transactions s' = offline_transactions s.
Proof.
  unfold VoucherManager.issue_voucher, WalletManager.get_wallet. frame.
Qed.

Lemma redeem_voucher_frame v x n s :
  let s' := snd (VoucherManager.redeem_voucher v x n s) in
  tokens s' = tokens s
  /\ aml_registry s' = aml_registry s /\ authority_contacted s' = authority_contacted s
  /\ entries s' = entries s /\ entry_counter s' = entry_counter s
  /\ transactions s' = transactions s
  /\ offline_transactions s' = offline_transactions s.
Proof.
  unfold VoucherManager.redeem_voucher, VoucherManager.get_voucher,
    WalletManager.get_wallet.
  frame.
Qed.

Lemma check_transaction_frame x tk now s :
  let s' := snd (ComplianceManager.check_transaction x tk now s) in
  wallets s' = wallets s /\ tokens s' = tokens s /\ vouchers s' = vouchers s
  /\ entries s' = entries s /\ entry_counter s' = entry_counter s
  /\ transactions s' = transactions s
  /\ offline_transactions s' = offline_transactions s.
Proof.
  unfold ComplianceManager.check_transaction, ComplianceManager._create_aml_entry,
    ComplianceManager._escalate_to_authority.
  intros; cbv zeta.
  destruct (ComplianceManager.high_value_threshold <? Token.value tk)%Z;
    destruct (Transaction.is_anonymous x); cbn; repeat split; reflexivity.
Qed.

Lemma store_transaction_frame x now dk s :
  let s' := snd (LedgerManager.store_transaction x now dk s) in
  wallets s' = wallets s /\ tokens s' = tokens s /\ vouchers s' = vouchers s
  /\ aml_registry s' = aml_registry s /\ authority_contacted s' = authority_contacted s
  /\ transactions s' = transactions s
  /\ offline_transactions s' = offline_transactions s.
Proof.
  unfold LedgerManager.store_transaction. destruct dk; cbn; repeat split; reflexivity.
Qed.

(** A write that raises leaves the ledger in memory as a write that
    succeeds does. *)
Lemma store_transaction_state x now dk s :
  snd (LedgerManager.store_transaction x now dk s)
  = snd (LedgerManager.store_transaction x now None s).
Proof. unfold LedgerManager.store_transaction. destruct dk; reflexivity. Qed.


Lemma store_transaction_result x now dk s :
  fst (LedgerManager.store_transaction x now dk s)
  = match dk with
    | None => Ok (pretty (entry_counter s))
    | Some msg => Err msg
    end.
Proof. unfold LedgerManager.store_transaction. destruct dk; reflexivity. Qed.

Lemma create_offline_transaction_frame a b t v x now s :
  let s' := snd (OfflineManager.create_offline_transaction a b t v x now s) in
  wallets s' = wallets s /\ tokens s' = tokens s /\ vouchers s' = vouchers s
  /\ aml_registry s' = aml_registry s /\ authority_contacted s' = authority_contacted s
  /\ entries s' = entries s /\ entry_counter s' = entry_counter s
  /\ transactions s' = transactions s.
Proof.
  unfold OfflineManager.create_offline_transaction, TokenManager.get_token,
    VoucherManager.get_voucher.
  frame.
Qed.

Lemma sign_offline_transaction_frame x w sg s :
  let s' := snd (OfflineManager.sign_offline_transaction x w sg s) in
  wallets s' = wallets s /\ tokens s' = tokens s /\ vouchers s' = vouchers s
  /\ aml_registry s' = aml_registry s /\ authority_contacted s' = authority_contacted s
  /\ entries s' = entries s /\ entry_counter s' = entry_counter s
  /\ transactions s' = transactions s.
Proof. unfold OfflineManager.sign_offline_transaction. frame. Qed.

(** ** The elementary updates

    Every call of a run is a sequence of the updates below: the calls of
    the wallet, token, voucher, compliance and ledger managers, the
    recording of a completed transaction, and the updates of the offline
    store. An invariant is proved once for each of them. *)

Inductive prim (s : System) : System -> Prop :=
  | prim_create_wallet w k :
      wallets s !! w = None ->
      prim s (snd (WalletManager.create_wallet w k s))
  | prim_issue_token v w t :
      tokens s !! t = None ->
      prim s (snd (TokenManager.issue_token v w t s))
  | prim_transfer_token t a b :
      prim s (snd (TokenManager.transfer_token t a b s))
  | prim_issue_voucher w l v now :
      vouchers s !! v = None ->
      prim s (snd (VoucherManager.issue_voucher w l v now s))
  | prim_redeem_voucher v x n :
      prim s (snd (VoucherManager.redeem_voucher v x n s))
  | prim_check_transaction x tk now :
      prim s (snd (ComplianceManager.check_transaction x tk now s))
  | prim_store_transaction x now dk :
      prim s (snd (LedgerManager.store_transaction x now dk s))
  | prim_record_transaction tid x :
      Transaction.status x = COMPLETED ->
      prim s (set_transactions (<[tid := x]> (transactions s)) s)
  | prim_create_offline a b t v x now :
      offline_transactions s !! x = None ->
      truthy now = true ->
      prim s (snd (OfflineManager.create_offline_transaction a b t v x now s))
  | prim_sign_offline x w sg :
      prim s (snd (OfflineManager.sign_offline_transaction x w sg s))
  | prim_mark_failed x otx :
      offline_transactions s !! x = Some otx ->
      prim s (OfflineManager.mark_failed x otx s)
  | prim_mark_synced x otx now :
      offline_transactions s !! x = Some otx ->
      prim s (set_offline_transactions
                (<[x := OfflineTransaction.set_synced_timestamp (Some now)
                          (OfflineTransaction.set_status OFF_SYNCED otx)]>
                   (offline_transactions s)) s).

Lemma prim_check x tk now s r s' :
  ComplianceManager.check_transaction x tk now s = (r, s') -> prim s s'.
Proof. intros E. change s' with (snd (r, s')). rewrite <- E. constructor. Qed.

Lemma prim_transfer t a b s r s' :
  TokenManager.transfer_token t a b s = (r, s') -> prim s s'.
Proof. intros E. change s' with (snd (r, s')). rewrite <- E. constructor. Qed.

Lemma prim_redeem v x n s r s' :
  VoucherManager.redeem_voucher v x n s = (r, s') -> prim s s'.
Proof. intros E. change s' with (snd (r, s')). rewrite <- E. constructor. Qed.

Lemma prim_store x now dk s r s' :
  LedgerManager.store_transaction x now dk s = (r, s') -> prim s s'.
Proof. intros E. change s' with (snd (r, s')). rewrite <- E. constructor. Qed.

Lemma redeem_if_present_prims (v : option string) x n s r s' :
  match v with
  | Some vid => if truthy vid then VoucherManager.redeem_voucher vid x n s else (true, s)
  | None => (true, s)
  end = (r, s') ->
  rtc prim s s'.
Proof.
  destruct v as [vid|].
  - destruct (truthy vid).
    + intros E. apply rtc_once. eapply prim_redeem, E.
    + intros E. injection E as _ <-. apply rtc_refl.
  - intros E. injection E as _ <-. apply rtc_refl.
Qed.

Lemma execute_transfer_prims a b t v x now dk s :
  rtc prim s (snd (TransactionEngine.execute_transfer a b t v x now dk s)).
Proof.
  unfold TransactionEngine.execute_transfer.
  repeat lazymatch goal with
         | |- rtc prim ?s (snd (?e, ?s)) => apply rtc_refl
         | |- rtc prim _ (snd (if ?c then _ else _)) => destruct c
         | |- rtc prim _ (snd (match ?c with Some _ => _ | None => _ end)) => destruct c
         | |- rtc prim _ (snd (match ?c with Ok _ => _ | Err _ => _ end)) => destruct c
         end.
  destruct (ComplianceManager.check_transaction _ _ _ _) as [cr s1] eqn:E1.
  destruct (TokenManager.transfer_token _ _ _ _) as [ok s2] eqn:E2.
  eapply rtc_l; [eapply prim_check, E1|].
  eapply rtc_l; [eapply prim_transfer, E2|].
  destruct (negb ok); [apply rtc_refl|].
  match goal with
  | |- context [match ?e with (_, _) => _ end] => destruct e as [red s3] eqn:E3
  end.
  eapply rtc_trans; [eapply redeem_if_present_prims, E3|].
  destruct (negb red); [apply rtc_refl|].
  match goal with
  | |- context [LedgerManager.store_transaction ?x ?n ?d ?s] =>
      destruct (LedgerManager.store_transaction x n d s) as [[eid|msg] s4] eqn:E4
  end.
  - eapply rtc_l; [eapply prim_store, E4|].
    apply rtc_once. cbn [snd]. apply prim_record_transaction. reflexivity.
  - apply rtc_once. eapply prim_store, E4.
Qed.

Lemma sync_with_ledger_prims x now dk s :
  rtc prim s (snd (OfflineManager.sync_with_ledger x now dk s)).
Proof.
  unfold OfflineManager.sync_with_ledger.
  destruct (offline_transactions s !! x) as [otx|] eqn:Hx; [|apply rtc_refl].
  destruct (negb _); [apply rtc_refl|].
  destruct (TokenManager.transfer_token _ _ _ _) as [ok s1] eqn:E1.
  assert (offline_transactions s1 = offline_transactions s) as F1.
  { pose proof (transfer_token_frame (OfflineTransaction.token_id otx)
                  (OfflineTransaction.sender_wallet_id otx)
                  (OfflineTransaction.receiver_wallet_id otx) s) as F.
    rewrite E1 in F. apply F. }
  eapply rtc_l; [eapply prim_transfer, E1|].
  destruct (negb ok).
  { apply rtc_once. cbn [snd]. apply prim_mark_failed. rewrite F1. exact Hx. }
  match goal with
  | |- context [match ?e with (_, _) => _ end] => destruct e as [red s2] eqn:E2
  end.
  assert (offline_transactions s2 = offline_transactions s1) as F2.
  { destruct (OfflineTransaction.voucher_id otx) as [vid|];
      [destruct (truthy vid)|]; try (injection E2 as _ <-; reflexivity).
    pose proof (redeem_voucher_frame vid (OfflineTransaction.offline_id otx)
                  (OfflineTransaction.value otx) s1) as F.
    rewrite E2 in F. apply F. }
  eapply rtc_trans; [eapply redeem_if_present_prims, E2|].
  destruct (negb red).
  { apply rtc_once. cbn [snd]. apply prim_mark_failed. rewrite F2, F1. exact Hx. }
  destruct (LedgerManager.store_transaction _ _ _ _) as [r3 s3] eqn:E3.
  assert (offline_transactions s3 = offline_transactions s2) as F3.
  { pose proof (store_transaction_frame (OfflineManager.MockTransaction otx) now dk s2) as F.
    rewrite E3 in F. apply F. }
  eapply rtc_l; [eapply prim_store, E3|].
  destruct r3 as [eid|msg]; apply rtc_once; cbn [snd].
  - apply prim_mark_synced. rewrite F3, F2, F1. exact Hx.
  - apply prim_mark_failed. rewrite F3, F2, F1. exact Hx.
Qed.

Lemma step_prims o s : env_ok o s = true -> rtc prim s (step o s).
Proof.
  destruct o; cbn [step env_ok]; intros Hok.
  - apply rtc_once, prim_create_wallet, is_None_true, Hok.
  - apply rtc_once, prim_issue_token, is_None_true, Hok.
  - apply rtc_once, prim_transfer_token.
  - apply andb_true_iff in Hok as [Hf _].
    apply rtc_once, prim_issue_voucher, is_None_true, Hf.
  - apply rtc_once, prim_redeem_voucher.
  - apply execute_transfer_prims.
  - apply andb_true_iff in Hok as [Hf Hn].
    apply rtc_once, prim_create_offline; [apply is_None_true, Hf | exact Hn].
  - apply rtc_once, prim_sign_offline.
  - apply sync_with_ledger_prims.
Qed.

(** An invariant kept by every elementary update holds along every run. *)
Lemma prims_invariant (I : System -> Prop) :
  (forall s s', I s -> prim s s' -> I s') ->
  forall s s', rtc prim s s' -> I s -> I s'.
Proof.
  intros Hp s s' Hrtc. induction Hrtc as [|s s1 s' H1 _ IH]; [tauto|].
  intros Hs. apply IH. eapply Hp; eassumption.
Qed.

Lemma run_prims ops : forall s s', run ops s = Some s' -> rtc prim s s'.
Proof.
  induction ops as [|o ops IH]; intros s s' Hrun; simpl in Hrun.
  - injection Hrun as <-. apply rtc_refl.
  - destruct (env_ok o s) eqn:Hok; [|discriminate].
    eapply rtc_trans; [apply step_prims, Hok | apply IH, Hrun].
Qed.

Lemma reachable_prims_invariant (I : System -> Prop) :
  I init ->
  (forall s s', I s -> prim s s' -> I s') ->
  forall s, reachable s -> I s.
Proof.
  intros Hinit Hp s [ops Hops].
  eapply prims_invariant; [exact Hp | eapply run_prims, Hops | exact Hinit].
Qed.

(** ** Vouchers are used once (voucher.py) *)

Lemma issue_voucher_vouchers w l v now s :
  vouchers (snd (VoucherManager.issue_voucher w l v now s)) = vouchers s
  \/ exists V,
       Voucher.is_used V = false /\ Voucher.issued_to_wallet_id V = w
       /\ is_Some (wallets s !! w)
       /\ vouchers (snd (VoucherManager.issue_voucher w l v now s)) = <[v := V]> (vouchers s).
Proof.
  unfold VoucherManager.issue_voucher, WalletManager.wallet_exists,
    WalletManager.get_wallet.
  destruct (wallets s !! w) as [W|] eqn:Hw; cbn; [|left; reflexivity].
  destruct (negb (Voucher.post_init_ok _)); [left; reflexivity|].
  cbn. rewrite Hw. cbn. right. eexists. repeat apply conj.
  4: reflexivity.
  all: cbn; eauto.
Qed.

Lemma redeem_voucher_fails_when_used vid tid v s V :
  vouchers s !! vid = Some V -> Voucher.is_used V = true ->
  VoucherManager.redeem_voucher vid tid v s = (false, s).
Proof.
  intros HV Hu. unfold VoucherManager.redeem_voucher, VoucherManager.get_voucher.
  rewrite HV. unfold Voucher.can_be_used_for_value. rewrite Hu. reflexivity.
Qed.

(** What a successful redemption does to the voucher store. *)
Lemma redeem_voucher_true vid tid v s s' :
  VoucherManager.redeem_voucher vid tid v s = (true, s') ->
  exists V,
    vouchers s !! vid = Some V
    /\ Voucher.can_be_used_for_value V v = true
    /\ vouchers s' = <[vid := snd (Voucher.mark_as_used tid V)]> (vouchers s)
    /\ snd (Voucher.mark_as_used tid V)
       = Voucher.mk (Voucher.voucher_id V) (Voucher.signature V) (Voucher.value_limit V)
                    (Voucher.issued_to_wallet_id V) (Voucher.issued_by V)
                    (Voucher.issue_timestamp V) true (Some tid).
Proof.
  unfold VoucherManager.redeem_voucher, VoucherManager.get_voucher,
    WalletManager.get_wallet.
  destruct (vouchers s !! vid) as [V|] eqn:HV; [|discriminate].
  unfold Voucher.can_be_used_for_value, Voucher.mark_as_used.
  destruct (Voucher.is_used V) eqn:Hu; cbn; [discriminate|].
  destruct (v <=? Voucher.value_limit V)%Z eqn:Hv; cbn; [|discriminate].
  intros E. injection E as <-. exists V.
  split; [reflexivity|]. split; [rewrite Hu, Hv; reflexivity|].
  rewrite Hu. cbn. split; [|reflexivity].
  destruct (wallets s !! Voucher.issued_to_wallet_id V); reflexivity.
Qed.

Lemma redeem_voucher_false vid tid v s s' :
  VoucherManager.redeem_voucher vid tid v s = (false, s') -> s' = s.
Proof.
  unfold VoucherManager.redeem_voucher, VoucherManager.get_voucher.
  destruct (vouchers s !! vid) as [V|]; [|intros E; injection E as <-; reflexivity].
  destruct (negb (Voucher.can_be_used_for_value V v)) eqn:Hc;
    [intros E; injection E as <-; reflexivity|].
  unfold Voucher.mark_as_used.
  destruct (negb (Voucher.is_used V)); [discriminate|].
  intros E; injection E as <-; reflexivity.
Qed.

Ltac use_frame F :=
  let H := fresh "F" in
  pose proof F as H; cbv zeta in H;
  repeat match type of H with _ /\ _ => let H1 := fresh "F" in destruct H as [H1 H] end.

(** A used voucher stays as it is, whatever happens next. *)
Lemma prim_used_voucher s s' vid V :
  prim s s' ->
  vouchers s !! vid = Some V -> Voucher.is_used V = true ->
  vouchers s' !! vid = Some V.
Proof.
  intros Hp HV Hu.
  destruct Hp as [w k Hf|v w t Hf|t a b|w l v now Hf|v x n|x tk now|x now dk|tid x Hc
                 |a b t v x now Hf Hn|x w sg|x otx Hx|x otx now Hx].
  - use_frame (create_wallet_frame w k s). congruence.
  - use_frame (issue_token_frame v w t s). congruence.
  - use_frame (transfer_token_frame t a b s). congruence.
  - destruct (issue_voucher_vouchers w l v now s) as [E|(V' & _ & _ & _ & E)];
      rewrite E; [exact HV|].
    rewrite lookup_insert_ne; [exact HV | congruence].
  - destruct (VoucherManager.redeem_voucher v x n s) as [[|] s1] eqn:E; cbn [snd].
    + apply redeem_voucher_true in E as (V' & HV' & Hc & E & _). rewrite E.
      destruct (decide (v = vid)) as [->|Hne].
      * unfold Voucher.can_be_used_for_value in Hc.
        assert (V' = V) as -> by congruence. rewrite Hu in Hc. discriminate.
      * rewrite lookup_insert_ne; [exact HV | exact Hne].
    + apply redeem_voucher_false in E. subst s1. exact HV.
  - use_frame (check_transaction_frame x tk now s). congruence.
  - use_frame (store_transaction_frame x now dk s). congruence.
  - exact HV.
  - use_frame (create_offline_transaction_frame a b t v x now s). congruence.
  - use_frame (sign_offline_transaction_frame x w sg s). congruence.
  - exact HV.
  - exact HV.
Qed.

(** C4. Voucher single use. After a successful [redeem_voucher], at any
    later point of any run, a further [redeem_voucher] on the same voucher
    id returns false for every transaction id and value and returns the
    state it was given, so that the voucher (still used, still naming the
    first consuming transaction) and all other state are unchanged. *)
Theorem redeem_voucher_single_use
  (voucher_id transaction_id : string) (transaction_value : Z) (s s' : System) :
  VoucherManager.redeem_voucher voucher_id transaction_id transaction_value s = (true, s') ->
  forall (later : list op) (s'' : System),
    run later s' = Some s'' ->
    forall (transaction_id' : string) (transaction_value' : Z),
      VoucherManager.redeem_voucher voucher_id transaction_id' transaction_value' s''
      = (false, s'')
      /\ (Voucher.is_used <$> vouchers s'' !! voucher_id) = Some true
      /\ (Voucher.used_in_transaction <$> vouchers s'' !! voucher_id)
         = Some (Some transaction_id).
Proof.
  intros E later s'' Hrun tid' v'.
  apply redeem_voucher_true in E as (V & HV & Hc & E & Hm).
  set (V' := snd (Voucher.mark_as_used transaction_id V)) in *.
  assert (vouchers s' !! voucher_id = Some V') as HV'
    by (rewrite E; apply lookup_insert_eq).
  assert (Voucher.is_used V' = true) as Hu by (rewrite Hm; reflexivity).
  assert (vouchers s'' !! voucher_id = Some V') as HV''.
  { apply run_prims in Hrun.
    revert HV'. apply (prims_invariant (fun st => vouchers st !! voucher_id = Some V'));
      [|exact Hrun].
    intros st st' Hst Hp. eapply prim_used_voucher; eassumption. }
  split; [|split].
  - eapply redeem_voucher_fails_when_used; eassumption.
  - rewrite HV''. cbn. rewrite Hu. reflexivity.
  - rewrite HV''. cbn. rewrite Hm. reflexivity.
Qed.

(** Scenario E of the specification: a voucher of limit 100 redeemed twice
    for a value of 10. *)
Definition scenario_E_issued : System :=
  snd (VoucherManager.issue_voucher "W1" 100 "V1" "2025-01-01T12:00:00"
         (snd (WalletManager.create_wallet "W1" "key-of-W1" init))).

Definition scenario_E_redeemed : System :=
  snd (VoucherManager.redeem_voucher "V1" "X1" 10 scenario_E_issued).

Lemma redeem_voucher_single_use_witness :
  VoucherManager.redeem_voucher "V1" "X2" 10 scenario_E_redeemed
  = (false, scenario_E_redeemed)
  /\ (Voucher.is_used <$> vouchers scenario_E_redeemed !! "V1") = Some true
  /\ (Voucher.used_in_transaction <$> vouchers scenario_E_redeemed !! "V1")
     = Some (Some "X1").
Proof.
  apply (redeem_voucher_single_use "V1" "X1" 10 scenario_E_issued scenario_E_redeemed)
    with (later := []).
  - vm_compute. reflexivity.
  - reflexivity.
Defined.

(** ** Redemption and the voucher count move together (voucher.py, wallet.py) *)

(** The voucher under [kv] was issued to [w] and is not used yet. *)
Definition unused_of (w : string) (kv : string * Voucher.t) : Prop :=
  Voucher.issued_to_wallet_id kv.2 = w /\ Voucher.is_used kv.2 = false.

#[local] Instance unused_of_dec w kv : Decision (unused_of w kv).
Proof. unfold unused_of. apply _. Defined.

Definition unused_count (w : string) (s : System) : nat :=
  size (filter (unused_of w) (vouchers s)).

Definition voucher_balance_of (s : System) (w : string) : option Z :=
  Wallet.voucher_balance <$> wallets s !! w.

(** The count kept in a wallet is the number of unused vouchers issued
    to it, and every voucher was issued to a wallet of the registry. *)
Definition voucher_inv (s : System) : Prop :=
  (forall w n, voucher_balance_of s w = Some n -> n = Z.of_nat (unused_count w s))
  /\ (forall vid V, vouchers s !! vid = Some V ->
        is_Some (voucher_balance_of s (Voucher.issued_to_wallet_id V))).

Lemma create_wallet_effect w k s :
  snd (WalletManager.create_wallet w k s) = s
  \/ exists W,
       truthy w = true /\ Wallet.token_balance W = [] /\ Wallet.voucher_balance W = 0%Z
       /\ wallets (snd (WalletManager.create_wallet w k s)) = <[w := W]> (wallets s).
Proof.
  unfold WalletManager.create_wallet, Wallet.post_init_ok. cbn.
  destruct (truthy w); cbn; [|left; reflexivity].
  destruct (truthy (SHA256.hexdigest k) && truthy k); cbn; [|left; reflexivity].
  right. eexists. repeat apply conj. 4: reflexivity. all: reflexivity.
Qed.

Lemma issue_token_voucher_balance v w t s w' :
  voucher_balance_of (snd (TokenManager.issue_token v w t s)) w' = voucher_balance_of s w'.
Proof.
  unfold TokenManager.issue_token, WalletManager.wallet_exists, WalletManager.get_wallet,
    voucher_balance_of.
  destruct (wallets s !! w) as [W|] eqn:Hw; cbn; [|reflexivity].
  destruct (negb (Token.post_init_ok _)); cbn; [reflexivity|].
  rewrite Hw. cbn.
  destruct (decide (w = w')) as [<-|Hne].
  - rewrite lookup_insert_eq, Hw. unfold Wallet.add_token.
    destruct (bool_decide _); reflexivity.
  - rewrite lookup_insert_ne; [reflexivity | exact Hne].
Qed.

Lemma transfer_token_voucher_balance t a b s w' :
  voucher_balance_of (snd (TokenManager.transfer_token t a b s)) w' = voucher_balance_of s w'.
Proof.
  unfold TokenManager.transfer_token, TokenManager.get_token, WalletManager.wallet_exists,
    WalletManager.get_wallet, voucher_balance_of.
  destruct (tokens s !! t) as [tk|]; [|reflexivity].
  destruct (negb (String.eqb _ a)); [reflexivity|].
  destruct (wallets s !! a) as [A|] eqn:Ha; cbn; [|reflexivity].
  destruct (wallets s !! b) as [B|] eqn:Hb; cbn; [|reflexivity].
  destruct (decide (a = b)) as [<-|Hab].
  - rewrite lookup_insert_eq. cbn. rewrite insert_insert_eq.
    destruct (decide (a = w')) as [<-|Hne].
    + rewrite lookup_insert_eq, Ha. unfold Wallet.add_token, Wallet.remove_token.
      destruct (bool_decide (t ∈ Wallet.token_balance A)); cbn;
        destruct (bool_decide _); reflexivity.
    + rewrite lookup_insert_ne; [reflexivity | exact Hne].
  - rewrite lookup_insert_ne, Hb by exact Hab. cbn.
    destruct (decide (b = w')) as [<-|Hbw].
    + rewrite lookup_insert_eq, Hb. unfold Wallet.add_token.
      destruct (bool_decide _); reflexivity.
    + rewrite lookup_insert_ne by exact Hbw.
      destruct (decide (a = w')) as [<-|Haw].
      * rewrite lookup_insert_eq, Ha. unfold Wallet.remove_token.
        destruct (bool_decide _); reflexivity.
      * rewrite lookup_insert_ne; [reflexivity | exact Haw].
Qed.

Lemma issue_voucher_effect w l v now s :
  snd (VoucherManager.issue_voucher w l v now s) = s
  \/ exists V W,
       Voucher.is_used V = false /\ Voucher.issued_to_wallet_id V = w
       /\ wallets s !! w = Some W
       /\ vouchers (snd (VoucherManager.issue_voucher w l v now s)) = <[v := V]> (vouchers s)
       /\ wallets (snd (VoucherManager.issue_voucher w l v now s))
          = <[w := Wallet.add_voucher 1 W]> (wallets s).
Proof.
  unfold VoucherManager.issue_voucher, WalletManager.wallet_exists,
    WalletManager.get_wallet.
  destruct (wallets s !! w) as [W|] eqn:Hw; cbn; [|left; reflexivity].
  destruct (negb (Voucher.post_init_ok _)); [left; reflexivity|].
  cbn. rewrite Hw. cbn. right. eexists. exists W. repeat apply conj.
  4: reflexivity. all: reflexivity.
Qed.

Lemma redeem_voucher_wallets vid tid v s s' V :
  VoucherManager.redeem_voucher vid tid v s = (true, s') ->
  vouchers s !! vid = Some V ->
  wallets s'
  = match wallets s !! Voucher.issued_to_wallet_id V with
    | Some W => <[Voucher.issued_to_wallet_id V := snd (Wallet.use_voucher W)]> (wallets s)
    | None => wallets s
    end.
Proof.
  unfold VoucherManager.redeem_voucher, VoucherManager.get_voucher,
    WalletManager.get_wallet.
  intros E HV. rewrite HV in E.
  unfold Voucher.can_be_used_for_value, Voucher.mark_as_used in E.
  destruct (Voucher.is_used V); cbn in E; [discriminate|].
  destruct (v <=? Voucher.value_limit V)%Z; cbn in E; [|discriminate].
  injection E as <-.
  destruct (wallets s !! Voucher.issued_to_wallet_id V); reflexivity.
Qed.

Lemma unused_count_insert_other w vid V (m : gmap string Voucher.t) :
  (forall V0, m !! vid = Some V0 -> ~ unused_of w (vid, V0)) ->
  ~ unused_of w (vid, V) ->
  size (filter (unused_of w) (<[vid := V]> m)) = size (filter (unused_of w) m).
Proof.
  intros Hold Hnew.
  rewrite map_filter_insert_False by exact Hnew.
  rewrite map_filter_delete. rewrite map_size_delete_None; [reflexivity|].
  apply map_lookup_filter_None. destruct (m !! vid) as [V0|] eqn:E; [right|left; reflexivity].
  intros V1 [= <-]. apply Hold. reflexivity.
Qed.

Lemma voucher_inv_init : voucher_inv init.
Proof.
  split.
  - intros w n. unfold voucher_balance_of. cbn. rewrite lookup_empty. discriminate.
  - intros vid V. cbn. rewrite lookup_empty. discriminate.
Qed.

Lemma voucher_inv_frame s s' :
  (forall w, voucher_balance_of s' w = voucher_balance_of s w) ->
  vouchers s' = vouchers s ->
  voucher_inv s -> voucher_inv s'.
Proof.
  intros Hb Hv [I1 I2]. split.
  - intros w n. rewrite Hb. unfold unused_count. rewrite Hv. apply I1.
  - intros vid V. rewrite Hv, Hb. apply I2.
Qed.

Lemma voucher_inv_same_wallets s s' :
  wallets s' = wallets s -> vouchers s' = vouchers s ->
  voucher_inv s -> voucher_inv s'.
Proof.
  intros Hw Hv. apply voucher_inv_frame; [|exact Hv].
  intros w. unfold voucher_balance_of. rewrite Hw. reflexivity.
Qed.

Lemma voucher_inv_create_wallet w k s :
  wallets s !! w = None -> voucher_inv s ->
  voucher_inv (snd (WalletManager.create_wallet w k s)).
Proof.
  intros Hf [I1 I2].
  destruct (create_wallet_effect w k s) as [->|(W & _ & _ & Hvb & Hw)]; [split; assumption|].
  assert (vouchers (snd (WalletManager.create_wallet w k s)) = vouchers s) as Hv
    by apply create_wallet_frame.
  split.
  - intros w' n. unfold voucher_balance_of, unused_count. rewrite Hw, Hv.
    destruct (decide (w = w')) as [<-|Hne].
    + rewrite lookup_insert_eq. cbn. intros [= <-]. rewrite Hvb.
      replace (filter (unused_of w) (vouchers s)) with (∅ : gmap string Voucher.t);
        [reflexivity|].
      symmetry. apply map_empty. intros vid. apply map_lookup_filter_None.
      destruct (vouchers s !! vid) as [V|] eqn:HV; [right | left; reflexivity].
      intros V1 [= <-] [Hto _]. cbn in Hto.
      destruct (I2 vid V HV) as [n Hn]. unfold voucher_balance_of in Hn.
      rewrite Hto, Hf in Hn. discriminate.
    + rewrite lookup_insert_ne by exact Hne. apply I1.
  - intros vid V. rewrite Hv. intros HV. unfold voucher_balance_of. rewrite Hw.
    destruct (decide (w = Voucher.issued_to_wallet_id V)) as [<-|Hne].
    + rewrite lookup_insert_eq. eexists; reflexivity.
    + rewrite lookup_insert_ne by exact Hne. apply (I2 vid V HV).
Qed.

Lemma voucher_inv_issue_voucher w l v now s :
  vouchers s !! v = None -> voucher_inv s ->
  voucher_inv (snd (VoucherManager.issue_voucher w l v now s)).
Proof.
  intros Hf [I1 I2].
  destruct (issue_voucher_effect w l v now s) as [->|(V & W & Hu & Hto & HW & Hv & Hw)];
    [split; assumption|].
  split.
  - intros w' n. unfold voucher_balance_of, unused_count. rewrite Hw, Hv.
    destruct (decide (w = w')) as [<-|Hne].
    + rewrite lookup_insert_eq. cbn. intros [= <-].
      rewrite map_filter_insert_True by (split; assumption).
      rewrite map_size_insert_None
        by (apply map_lookup_filter_None; left; exact Hf).
      rewrite (I1 w (Wallet.voucher_balance W))
        by (unfold voucher_balance_of; rewrite HW; reflexivity).
      unfold unused_count. lia.
    + rewrite lookup_insert_ne by exact Hne.
      rewrite unused_count_insert_other.
      * apply I1.
      * intros V0 HV0. congruence.
      * intros [Hto' _]. cbn in Hto'. congruence.
  - intros vid V0. rewrite Hv. unfold voucher_balance_of. rewrite Hw. intros HV0.
    assert (is_Some (wallets s !! Voucher.issued_to_wallet_id V0)) as [W0 HW0].
    { destruct (decide (v = vid)) as [<-|Hne].
      - rewrite lookup_insert_eq in HV0. injection HV0 as <-. rewrite Hto. eauto.
      - rewrite lookup_insert_ne in HV0 by exact Hne.
        destruct (I2 vid V0 HV0) as [n Hn]. unfold voucher_balance_of in Hn.
        destruct (wallets s !! Voucher.issued_to_wallet_id V0); [eauto | discriminate]. }
    destruct (decide (w = Voucher.issued_to_wallet_id V0)) as [<-|Hne].
    + rewrite lookup_insert_eq. eexists; reflexivity.
    + rewrite lookup_insert_ne by exact Hne. rewrite HW0. eexists; reflexivity.
Qed.

(** In a state that satisfies the invariant, a successful redemption
    finds the wallet of the voucher with a positive count. *)
Lemma redeem_voucher_wallet_ready vid V s :
  voucher_inv s -> vouchers s !! vid = Some V -> Voucher.is_used V = false ->
  exists W,
    wallets s !! Voucher.issued_to_wallet_id V = Some W
    /\ (0 < Wallet.voucher_balance W)%Z
    /\ Wallet.voucher_balance W
       = Z.of_nat (S (size (delete vid (filter (unused_of (Voucher.issued_to_wallet_id V))
                                               (vouchers s))))).
Proof.
  intros [I1 I2] HV Hu.
  destruct (I2 vid V HV) as [n Hn]. pose proof (I1 _ _ Hn) as Hcount.
  unfold voucher_balance_of in Hn.
  destruct (wallets s !! Voucher.issued_to_wallet_id V) as [W|]; [|discriminate].
  injection Hn as <-. exists W. split; [reflexivity|].
  assert (filter (unused_of (Voucher.issued_to_wallet_id V)) (vouchers s) !! vid = Some V)
    as Hin by (apply map_lookup_filter_Some; repeat split; assumption).
  unfold unused_count in Hcount.
  rewrite map_size_delete, Hin.
  assert (size (filter (unused_of (Voucher.issued_to_wallet_id V)) (vouchers s)) <> 0%nat)
    as Hne by (apply map_size_ne_0_lookup; exists vid; eauto).
  destruct (size (filter (unused_of (Voucher.issued_to_wallet_id V)) (vouchers s)));
    [congruence|].
  cbn [Nat.pred]. split; lia.
Qed.

Lemma voucher_inv_redeem_voucher vid tid v s :
  voucher_inv s -> voucher_inv (snd (VoucherManager.redeem_voucher vid tid v s)).
Proof.
  intros I.
  destruct (VoucherManager.redeem_voucher vid tid v s) as [[|] s'] eqn:E; cbn [snd].
  2:{ apply redeem_voucher_false in E. subst s'. exact I. }
  pose proof E as E'.
  apply redeem_voucher_true in E' as (V & HV & Hc & Hv & Hm).
  pose proof (redeem_voucher_wallets _ _ _ _ _ _ E HV) as Hw.
  assert (Voucher.is_used V = false) as Hu.
  { unfold Voucher.can_be_used_for_value in Hc. destruct (Voucher.is_used V);
      [discriminate | reflexivity]. }
  destruct (redeem_voucher_wallet_ready vid V s I HV Hu) as (W & HW & Hpos & Hcount).
  rewrite HW in Hw. destruct I as [I1 I2].
  set (V' := snd (Voucher.mark_as_used tid V)) in *.
  assert (Voucher.issued_to_wallet_id V' = Voucher.issued_to_wallet_id V) as Hto
    by (rewrite Hm; reflexivity).
  assert (Voucher.is_used V' = true) as Hu' by (rewrite Hm; reflexivity).
  split.
  - intros w' n. unfold voucher_balance_of, unused_count. rewrite Hw, Hv.
    destruct (decide (Voucher.issued_to_wallet_id V = w')) as [<-|Hne].
    + rewrite lookup_insert_eq. cbn. intros [= <-].
      unfold Wallet.use_voucher.
      destruct (0 <? Wallet.voucher_balance W)%Z eqn:Hlt; [|lia]. cbn.
      rewrite map_filter_insert_False
        by (intros [_ Hf]; cbn in Hf; congruence).
      rewrite map_filter_delete. lia.
    + rewrite lookup_insert_ne by exact Hne.
      rewrite unused_count_insert_other.
      * apply I1.
      * intros V0 HV0 [Hto0 _]. cbn in Hto0. congruence.
      * intros [_ Hf]. cbn in Hf. congruence.
  - intros vid0 V0. rewrite Hv. unfold voucher_balance_of. rewrite Hw. intros HV0.
    assert (is_Some (wallets s !! Voucher.issued_to_wallet_id V0)) as [W0 HW0].
    { destruct (decide (vid = vid0)) as [<-|Hne].
      - rewrite lookup_insert_eq in HV0. injection HV0 as <-. rewrite Hto. eauto.
      - rewrite lookup_insert_ne in HV0 by exact Hne.
        destruct (I2 vid0 V0 HV0) as [n Hn]. unfold voucher_balance_of in Hn.
        destruct (wallets s !! Voucher.issued_to_wallet_id V0); [eauto | discriminate]. }
    destruct (decide (Voucher.issued_to_wallet_id V = Voucher.issued_to_wallet_id V0))
      as [<-|Hne].
    + rewrite lookup_insert_eq. eexists; reflexivity.
    + rewrite lookup_insert_ne by exact Hne. rewrite HW0. eexists; reflexivity.
Qed.

Lemma voucher_inv_prim s s' : voucher_inv s -> prim s s' -> voucher_inv s'.
Proof.
  intros I Hp.
  destruct Hp as [w k Hf|v w t Hf|t a b|w l v now Hf|v x n|x tk now|x now dk|tid x Hc
                 |a b t v x now Hf Hn|x w sg|x otx Hx|x otx now Hx].
  - apply voucher_inv_create_wallet; assumption.
  - eapply voucher_inv_frame; [apply issue_token_voucher_balance | | exact I].
    apply issue_token_frame.
  - eapply voucher_inv_frame; [apply transfer_token_voucher_balance | | exact I].
    apply transfer_token_frame.
  - apply voucher_inv_issue_voucher; assumption.
  - apply voucher_inv_redeem_voucher; assumption.
  - eapply voucher_inv_same_wallets; [| | exact I]; apply check_transaction_frame.
  - eapply voucher_inv_same_wallets; [| | exact I]; apply store_transaction_frame.
  - exact I.
  - eapply voucher_inv_same_wallets; [| | exact I];
      apply create_offline_transaction_frame.
  - eapply voucher_inv_same_wallets; [| | exact I]; apply sign_offline_transaction_frame.
  - exact I.
  - exact I.
Qed.

Lemma reachable_voucher_inv s : reachable s -> voucher_inv s.
Proof.
  apply reachable_prims_invariant; [apply voucher_inv_init | apply voucher_inv_prim].
Qed.

(** C9. Voucher redemption atomicity. In every reachable state a call of
    [redeem_voucher] either returns true, marks the voucher used with the
    consuming transaction id recorded and decrements by one the (positive)
    voucher count of the wallet the voucher was issued to, or returns false
    and changes nothing. *)
Theorem redeem_voucher_atomic
  (voucher_id transaction_id : string) (transaction_value : Z) (s : System) :
  reachable s ->
  let r := VoucherManager.redeem_voucher voucher_id transaction_id transaction_value s in
  (fst r = true
   /\ exists V W,
        vouchers s !! voucher_id = Some V
        /\ Voucher.is_used V = false
        /\ wallets s !! Voucher.issued_to_wallet_id V = Some W
        /\ (0 < Wallet.voucher_balance W)%Z
        /\ (Voucher.is_used <$> vouchers (snd r) !! voucher_id) = Some true
        /\ (Voucher.used_in_transaction <$> vouchers (snd r) !! voucher_id)
           = Some (Some transaction_id)
        /\ (Wallet.voucher_balance <$> wallets (snd r) !! Voucher.issued_to_wallet_id V)
           = Some (Wallet.voucher_balance W - 1)%Z)
  \/ (fst r = false /\ snd r = s).
Proof.
  intros Hreach. cbv zeta.
  destruct (VoucherManager.redeem_voucher voucher_id transaction_id transaction_value s)
    as [[|] s'] eqn:E; cbn [fst snd].
  2:{ right. split; [reflexivity|]. eapply redeem_voucher_false, E. }
  left. split; [reflexivity|].
  pose proof E as E'.
  apply redeem_voucher_true in E' as (V & HV & Hc & Hv & Hm).
  pose proof (redeem_voucher_wallets _ _ _ _ _ _ E HV) as Hw.
  assert (Voucher.is_used V = false) as Hu.
  { unfold Voucher.can_be_used_for_value in Hc. destruct (Voucher.is_used V);
      [discriminate | reflexivity]. }
  destruct (redeem_voucher_wallet_ready voucher_id V s (reachable_voucher_inv s Hreach)
              HV Hu) as (W & HW & Hpos & _).
  rewrite HW in Hw. exists V, W. repeat apply conj; try assumption.
  - rewrite Hv, lookup_insert_eq. cbn. rewrite Hm. reflexivity.
  - rewrite Hv, lookup_insert_eq. cbn. rewrite Hm. reflexivity.
  - rewrite Hw, lookup_insert_eq. cbn. unfold Wallet.use_voucher.
    destruct (0 <? Wallet.voucher_balance W)%Z eqn:Hlt; [reflexivity | lia].
Qed.

Lemma redeem_voucher_atomic_witness :
  let r := VoucherManager.redeem_voucher "V1" "X1" 10 scenario_E_issued in
  (fst r = true
   /\ exists V W,
        vouchers scenario_E_issued !! "V1" = Some V
        /\ Voucher.is_used V = false
        /\ wallets scenario_E_issued !! Voucher.issued_to_wallet_id V = Some W
        /\ (0 < Wallet.voucher_balance W)%Z
        /\ (Voucher.is_used <$> vouchers (snd r) !! "V1") = Some true
        /\ (Voucher.used_in_transaction <$> vouchers (snd r) !! "V1") = Some (Some "X1")
        /\ (Wallet.voucher_balance <$> wallets (snd r) !! Voucher.issued_to_wallet_id V)
           = Some (Wallet.voucher_balance W - 1)%Z)
  \/ (fst r = false /\ snd r = scenario_E_issued).
Proof.
  apply (redeem_voucher_atomic "V1" "X1" 10 scenario_E_issued).
  exists [op_create_wallet "W1" "key-of-W1";
          op_issue_voucher "W1" 100 "V1" "2025-01-01T12:00:00"].
  vm_compute. reflexivity.
Defined.

(** The redemption of the witness is the successful one. *)
Example scenario_E_first_redeem :
  fst (VoucherManager.redeem_voucher "V1" "X1" 10 scenario_E_issued) = true
  /\ (Wallet.voucher_balance <$> wallets scenario_E_issued !! "W1") = Some 1%Z
  /\ (Wallet.voucher_balance <$> wallets scenario_E_redeemed !! "W1") = Some 0%Z.
Proof. vm_compute. repeat split. Qed.

(** ** Ownership (token_system.py, wallet.py) *)

Definition token_balance_of (s : System) (w : string) : option (list string) :=
  Wallet.token_balance <$> wallets s !! w.

Definition owner_of (s : System) (t : string) : option string :=
  Token.owner_wallet_id <$> tokens s !! t.

Lemma list_remove_spec (t : string) (l : list string) :
  NoDup l ->
  NoDup (list_remove t l) /\ forall x, x ∈ list_remove t l <-> x ∈ l /\ x <> t.
Proof.
  induction l as [|y l IH]; intros Hnd; simpl.
  - split; [constructor|]. intros x. split; [intros H; inversion H | intros [H _]; exact H].
  - apply NoDup_cons in Hnd as [Hy Hnd]. destruct (String.eqb_spec t y) as [<-|Hne].
    + split; [exact Hnd|]. intros x. rewrite elem_of_cons. split.
      * intros Hx. split; [right; exact Hx | intros ->; contradiction].
      * intros [[->|Hx] Hxt]; [contradiction | exact Hx].
    + destruct (IH Hnd) as [IH1 IH2]. split.
      * apply NoDup_cons. split; [|exact IH1]. rewrite IH2. tauto.
      * intros x. rewrite !elem_of_cons, IH2. split.
        -- intros [->|[Hx Hxt]]; [split; [left; reflexivity | congruence] | tauto].
        -- intros [[->|Hx] Hxt]; [left; reflexivity | right; tauto].
Qed.

Lemma remove_token_spec (t : string) (W : Wallet.t) :
  NoDup (Wallet.token_balance W) ->
  NoDup (Wallet.token_balance (snd (Wallet.remove_token t W)))
  /\ forall x, x ∈ Wallet.token_balance (snd (Wallet.remove_token t W))
               <-> x ∈ Wallet.token_balance W /\ x <> t.
Proof.
  intros Hnd. unfold Wallet.remove_token.
  destruct (bool_decide (t ∈ Wallet.token_balance W)) eqn:Hin; cbn.
  - apply list_remove_spec, Hnd.
  - apply bool_decide_eq_false in Hin. split; [exact Hnd|].
    intros x. split; [intros Hx; split; [exact Hx | congruence] | tauto].
Qed.

Lemma add_token_spec (t : string) (W : Wallet.t) :
  NoDup (Wallet.token_balance W) ->
  NoDup (Wallet.token_balance (Wallet.add_token t W))
  /\ forall x, x ∈ Wallet.token_balance (Wallet.add_token t W)
               <-> x ∈ Wallet.token_balance W \/ x = t.
Proof.
  intros Hnd. unfold Wallet.add_token.
  destruct (bool_decide (t ∈ Wallet.token_balance W)) eqn:Hin; cbn.
  - apply bool_decide_eq_true in Hin. split; [exact Hnd|].
    intros x. split; [tauto | intros [Hx| ->]; assumption].
  - apply bool_decide_eq_false in Hin. split.
    + apply NoDup_app. repeat split; [exact Hnd | | apply NoDup_singleton].
      intros x Hx Hx'. apply list_elem_of_singleton in Hx'. congruence.
    + intros x. rewrite elem_of_app, list_elem_of_singleton. tauto.
Qed.

Lemma transfer_token_false t a b s s' :
  TokenManager.transfer_token t a b s = (false, s') -> s' = s.
Proof.
  unfold TokenManager.transfer_token.
  destruct (TokenManager.get_token t s); [|intros [= <-]; reflexivity].
  destruct (negb (String.eqb _ a)); [intros [= <-]; reflexivity|].
  destruct (negb _); [intros [= <-]; reflexivity | discriminate].
Qed.

(** How the token sets change in a successful transfer: the receiver
    gains the token, the sender (when it is another wallet) loses it, and
    no other wallet changes. *)
Definition moved (t a b w : string) (l l' : list string) : Prop :=
  NoDup l ->
  NoDup l'
  /\ forall x, x ∈ l' <->
       if decide (w = b) then x ∈ l \/ x = t
       else if decide (w = a) then x ∈ l /\ x <> t
       else x ∈ l.

Lemma transfer_token_true t a b s s' :
  TokenManager.transfer_token t a b s = (true, s') ->
  exists T,
    tokens s !! t = Some T
    /\ Token.owner_wallet_id T = a
    /\ is_Some (wallets s !! a) /\ is_Some (wallets s !! b)
    /\ tokens s' = <[t := snd (Token.transfer_ownership b T)]> (tokens s)
    /\ forall w,
         match token_balance_of s w with
         | None => token_balance_of s' w = None
         | Some l => exists l', token_balance_of s' w = Some l' /\ moved t a b w l l'
         end.
Proof.
  unfold TokenManager.transfer_token, TokenManager.get_token, WalletManager.wallet_exists,
    WalletManager.get_wallet.
  destruct (tokens s !! t) as [T|] eqn:HT; [|discriminate].
  destruct (String.eqb_spec (Token.owner_wallet_id T) a) as [Ho|Ho]; cbn; [|discriminate].
  destruct (wallets s !! a) as [A|] eqn:Ha; cbn; [|discriminate].
  destruct (wallets s !! b) as [B|] eqn:Hb; cbn; [|discriminate].
  intros E. injection E as <-. exists T. repeat apply conj; try eauto.
  - cbn.
    match goal with
    | |- context [match ?e with Some _ => _ | None => _ end] => destruct e
    end; reflexivity.
  - intros w. unfold token_balance_of.
    destruct (decide (a = b)) as [<-|Hab].
    + (* the sender is the receiver *)
      cbn. rewrite lookup_insert_eq. cbn. rewrite insert_insert_eq.
      destruct (decide (w = a)) as [->|Hwa].
      * rewrite Ha, lookup_insert_eq. cbn. eexists. split; [reflexivity|].
        intros Hnd. destruct (remove_token_spec t A Hnd) as [R1 R2].
        destruct (add_token_spec t _ R1) as [A1 A2]. split; [exact A1|].
        intros x. rewrite A2, R2. rewrite decide_True by reflexivity.
        destruct (decide (x = t)); tauto.
      * rewrite lookup_insert_ne by congruence.
        destruct (wallets s !! w) as [W|]; cbn; [|reflexivity].
        eexists. split; [reflexivity|]. intros Hnd. split; [exact Hnd|].
        intros x. rewrite !decide_False by exact Hwa. reflexivity.
    + cbn. rewrite lookup_insert_ne, Hb by exact Hab. cbn.
      destruct (decide (w = b)) as [->|Hwb].
      * rewrite Hb, lookup_insert_eq. cbn. eexists. split; [reflexivity|].
        intros Hnd. destruct (add_token_spec t B Hnd) as [A1 A2]. split; [exact A1|].
        intros x. rewrite A2. rewrite decide_True by reflexivity. reflexivity.
      * rewrite lookup_insert_ne by congruence.
        destruct (decide (w = a)) as [->|Hwa].
        -- rewrite Ha, lookup_insert_eq. cbn. eexists. split; [reflexivity|].
           intros Hnd. destruct (remove_token_spec t A Hnd) as [R1 R2].
           split; [exact R1|]. intros x. rewrite R2.
           rewrite decide_False by exact Hwb. rewrite decide_True by reflexivity.
           reflexivity.
        -- rewrite lookup_insert_ne by congruence.
           destruct (wallets s !! w) as [W|]; cbn; [|reflexivity].
           eexists. split; [reflexivity|]. intros Hnd. split; [exact Hnd|].
           intros x. rewrite decide_False by exact Hwb.
           rewrite decide_False by exact Hwa. reflexivity.
Qed.

(** Every token of a wallet's set is owned by that wallet, a set lists a
    token once, and the owner of a token holds it in its set. *)
Definition ownership_inv (s : System) : Prop :=
  (forall w l, token_balance_of s w = Some l ->
     truthy w = true /\ NoDup l /\ forall t, t ∈ l -> owner_of s t = Some w)
  /\ (forall t w, owner_of s t = Some w ->
        exists l, token_balance_of s w = Some l /\ t ∈ l).

Lemma ownership_inv_init : ownership_inv init.
Proof.
  split.
  - intros w l. unfold token_balance_of. cbn. rewrite lookup_empty. discriminate.
  - intros t w. unfold owner_of. cbn. rewrite lookup_empty. discriminate.
Qed.

Lemma ownership_inv_frame s s' :
  (forall w, token_balance_of s' w = token_balance_of s w) ->
  tokens s' = tokens s ->
  ownership_inv s -> ownership_inv s'.
Proof.
  intros Hb Ht [I1 I2]. unfold ownership_inv, owner_of in *. split.
  - intros w l. rewrite Hb, Ht. apply I1.
  - intros t w. rewrite Ht. intros H. destruct (I2 t w H) as (l & Hl & Hin).
    exists l. rewrite Hb. split; assumption.
Qed.

Lemma ownership_inv_same_wallets s s' :
  wallets s' = wallets s -> tokens s' = tokens s ->
  ownership_inv s -> ownership_inv s'.
Proof.
  intros Hw Ht. apply ownership_inv_frame; [|exact Ht].
  intros w. unfold token_balance_of. rewrite Hw. reflexivity.
Qed.

Lemma issue_voucher_token_balance w l v now s w' :
  token_balance_of (snd (VoucherManager.issue_voucher w l v now s)) w'
  = token_balance_of s w'.
Proof.
  destruct (issue_voucher_effect w l v now s) as [->|(V & W & _ & _ & HW & _ & Hw)];
    [reflexivity|].
  unfold token_balance_of. rewrite Hw.
  destruct (decide (w = w')) as [<-|Hne].
  - rewrite lookup_insert_eq, HW. reflexivity.
  - rewrite lookup_insert_ne; [reflexivity | exact Hne].
Qed.

Lemma redeem_voucher_token_balance vid tid v s w' :
  token_balance_of (snd (VoucherManager.redeem_voucher vid tid v s)) w'
  = token_balance_of s w'.
Proof.
  destruct (VoucherManager.redeem_voucher vid tid v s) as [[|] s'] eqn:E; cbn [snd].
  2:{ apply redeem_voucher_false in E. subst s'. reflexivity. }
  pose proof E as E'. apply redeem_voucher_true in E' as (V & HV & _).
  pose proof (redeem_voucher_wallets _ _ _ _ _ _ E HV) as Hw.
  unfold token_balance_of. rewrite Hw.
  destruct (wallets s !! Voucher.issued_to_wallet_id V) as [W|] eqn:HW; [|reflexivity].
  destruct (decide (Voucher.issued_to_wallet_id V = w')) as [<-|Hne].
  - rewrite lookup_insert_eq, HW. cbn. unfold Wallet.use_voucher.
    destruct (0 <? Wallet.voucher_balance W)%Z; reflexivity.
  - rewrite lookup_insert_ne; [reflexivity | exact Hne].
Qed.

Lemma issue_token_effect v w t s :
  snd (TokenManager.issue_token v w t s) = s
  \/ exists W,
       wallets s !! w = Some W
       /\ tokens (snd (TokenManager.issue_token v w t s))
          = <[t := Token.mk t v w "ECB" None]> (tokens s)
       /\ wallets (snd (TokenManager.issue_token v w t s))
          = <[w := Wallet.add_token t W]> (wallets s).
Proof.
  unfold TokenManager.issue_token, WalletManager.wallet_exists, WalletManager.get_wallet.
  destruct (wallets s !! w) as [W|] eqn:Hw; cbn; [|left; reflexivity].
  destruct (negb (Token.post_init_ok _)); [left; reflexivity|].
  cbn. rewrite Hw. cbn. right. exists W. repeat split.
Qed.

Lemma ownership_inv_create_wallet w k s :
  wallets s !! w = None -> ownership_inv s ->
  ownership_inv (snd (WalletManager.create_wallet w k s)).
Proof.
  intros Hf [I1 I2].
  destruct (create_wallet_effect w k s) as [->|(W & Htr & Hb & _ & Hw)]; [split; assumption|].
  assert (tokens (snd (WalletManager.create_wallet w k s)) = tokens s) as Ht
    by apply create_wallet_frame.
  unfold ownership_inv, token_balance_of, owner_of in *. rewrite Hw, Ht. split.
  - intros w' l. destruct (decide (w = w')) as [<-|Hne].
    + rewrite lookup_insert_eq. cbn. rewrite Hb. intros [= <-].
      repeat split; [exact Htr | constructor |]. intros t Hin. inversion Hin.
    + rewrite lookup_insert_ne by exact Hne. apply I1.
  - intros t w' Ho. destruct (I2 t w' Ho) as (l & Hl & Hin).
    exists l. split; [|exact Hin].
    rewrite lookup_insert_ne; [exact Hl|]. intros <-. rewrite Hf in Hl. discriminate.
Qed.

Lemma ownership_inv_issue_token v w t s :
  tokens s !! t = None -> ownership_inv s ->
  ownership_inv (snd (TokenManager.issue_token v w t s)).
Proof.
  intros Hf [I1 I2].
  destruct (issue_token_effect v w t s) as [->|(W & HW & Ht & Hw)]; [split; assumption|].
  assert (token_balance_of s w = Some (Wallet.token_balance W)) as HbW
    by (unfold token_balance_of; rewrite HW; reflexivity).
  destruct (I1 _ _ HbW) as (Htr & Hnd & Hown).
  assert (forall t0 w0, owner_of s t0 = Some w0 -> t0 <> t) as Hfresh.
  { intros t0 w0 Ho ->. unfold owner_of in Ho. rewrite Hf in Ho. discriminate. }
  destruct (add_token_spec t W Hnd) as [A1 A2].
  unfold ownership_inv, token_balance_of, owner_of in *. rewrite Hw, Ht. split.
  - intros w' l. destruct (decide (w = w')) as [<-|Hne].
    + rewrite lookup_insert_eq. cbn. intros [= <-].
      repeat split; [exact Htr | exact A1 |]. intros t0 Hin. apply A2 in Hin.
      destruct (decide (t0 = t)) as [->|Hne].
      * rewrite lookup_insert_eq. reflexivity.
      * rewrite lookup_insert_ne by congruence. apply Hown. tauto.
    + rewrite lookup_insert_ne by exact Hne. intros Hl.
      destruct (I1 _ _ Hl) as (Htr' & Hnd' & Hown'). repeat split; try assumption.
      intros t0 Hin. pose proof (Hown' t0 Hin) as Ho.
      rewrite lookup_insert_ne; [exact Ho|]. intros <-. eapply Hfresh; eauto.
  - intros t0 w0. destruct (decide (t = t0)) as [<-|Hne].
    + rewrite lookup_insert_eq. cbn. intros [= <-]. rewrite lookup_insert_eq. cbn.
      eexists. split; [reflexivity|]. apply A2. right. reflexivity.
    + rewrite lookup_insert_ne by exact Hne. intros Ho.
      destruct (I2 t0 w0 Ho) as (l & Hl & Hin).
      destruct (decide (w = w0)) as [<-|Hw0].
      * rewrite lookup_insert_eq. cbn. eexists. split; [reflexivity|].
        apply A2. left. rewrite HW in Hl. injection Hl as <-. exact Hin.
      * rewrite lookup_insert_ne by exact Hw0. exists l. split; assumption.
Qed.

Lemma ownership_inv_transfer_token t a b s :
  ownership_inv s -> ownership_inv (snd (TokenManager.transfer_token t a b s)).
Proof.
  intros I.
  destruct (TokenManager.transfer_token t a b s) as [[|] s'] eqn:E; cbn [snd].
  2:{ apply transfer_token_false in E. subst s'. exact I. }
  apply transfer_token_true in E as (T & HT & Ho & [A HA] & [B HB] & Ht & Hmv).
  destruct I as [I1 I2].
  assert (truthy b = true) as Htb.
  { apply (I1 b (Wallet.token_balance B)). unfold token_balance_of. rewrite HB.
    reflexivity. }
  assert (owner_of s t = Some a) as Hot
    by (unfold owner_of; rewrite HT; cbn; rewrite Ho; reflexivity).
  assert (owner_of s' t = Some b) as Hot'.
  { unfold owner_of. rewrite Ht, lookup_insert_eq. cbn.
    unfold Token.transfer_ownership. rewrite Htb. reflexivity. }
  assert (forall t0, t0 <> t -> owner_of s' t0 = owner_of s t0) as Hother.
  { intros t0 Hne. unfold owner_of. rewrite Ht, lookup_insert_ne by congruence.
    reflexivity. }
  split.
  - intros w l' Hl'. specialize (Hmv w).
    destruct (token_balance_of s w) as [l|] eqn:Hl; [|congruence].
    destruct Hmv as (l0 & Hl0 & Hm). assert (l0 = l') as -> by congruence.
    destruct (I1 w l Hl) as (Htr & Hnd & Hown). destruct (Hm Hnd) as [Hnd' Hin].
    repeat split; [exact Htr | exact Hnd' |].
    intros t0 Ht0. apply Hin in Ht0.
    destruct (decide (t0 = t)) as [->|Hne].
    + destruct (decide (w = b)) as [->|Hwb]; [exact Hot'|].
      destruct (decide (w = a)) as [->|Hwa]; [tauto|].
      pose proof (Hown t Ht0). congruence.
    + rewrite (Hother t0 Hne). apply Hown.
      destruct (decide (w = b)); [tauto|]. destruct (decide (w = a)); tauto.
  - intros t0 w0 Ho0.
    destruct (decide (t0 = t)) as [->|Hne].
    + assert (w0 = b) as -> by congruence. specialize (Hmv b).
      unfold token_balance_of in Hmv at 1. rewrite HB in Hmv. cbn in Hmv.
      destruct Hmv as (l' & Hl' & Hm). exists l'. split; [exact Hl'|].
      destruct (I1 b (Wallet.token_balance B)) as (_ & Hnd & _);
        [unfold token_balance_of; rewrite HB; reflexivity|].
      destruct (Hm Hnd) as [_ Hin]. apply Hin. rewrite decide_True by reflexivity.
      right. reflexivity.
    + rewrite (Hother t0 Hne) in Ho0. destruct (I2 t0 w0 Ho0) as (l & Hl & Hin0).
      specialize (Hmv w0). rewrite Hl in Hmv. destruct Hmv as (l' & Hl' & Hm).
      exists l'. split; [exact Hl'|].
      destruct (I1 w0 l Hl) as (_ & Hnd & _). destruct (Hm Hnd) as [_ Hin].
      apply Hin. destruct (decide (w0 = b)); [tauto|]. destruct (decide (w0 = a)); tauto.
Qed.

Lemma ownership_inv_prim s s' : ownership_inv s -> prim s s' -> ownership_inv s'.
Proof.
  intros I Hp.
  destruct Hp as [w k Hf|v w t Hf|t a b|w l v now Hf|v x n|x tk now|x now dk|tid x Hc
                 |a b t v x now Hf Hn|x w sg|x otx Hx|x otx now Hx].
  - apply ownership_inv_create_wallet; assumption.
  - apply ownership_inv_issue_token; assumption.
  - apply ownership_inv_transfer_token; assumption.
  - eapply ownership_inv_frame; [apply issue_voucher_token_balance | | exact I].
    apply issue_voucher_frame.
  - eapply ownership_inv_frame; [apply redeem_voucher_token_balance | | exact I].
    apply redeem_voucher_frame.
  - eapply ownership_inv_same_wallets; [| | exact I]; apply check_transaction_frame.
  - eapply ownership_inv_same_wallets; [| | exact I]; apply store_transaction_frame.
  - exact I.
  - eapply ownership_inv_same_wallets; [| | exact I];
      apply create_offline_transaction_frame.
  - eapply ownership_inv_same_wallets; [| | exact I]; apply sign_offline_transaction_frame.
  - exact I.
  - exact I.
Qed.

Lemma reachable_ownership_inv s : reachable s -> ownership_inv s.
Proof.
  apply reachable_prims_invariant; [apply ownership_inv_init | apply ownership_inv_prim].
Qed.

(** Where the token is after a successful transfer. *)
Lemma transfer_token_moves t a b s s' :
  ownership_inv s ->
  TokenManager.transfer_token t a b s = (true, s') ->
  owner_of s' t = Some b
  /\ (exists lb, token_balance_of s' b = Some lb /\ t ∈ lb)
  /\ (a <> b -> exists la, token_balance_of s' a = Some la /\ t ∉ la).
Proof.
  intros [I1 I2] E.
  assert (ownership_inv s') as [I1' I2'].
  { replace s' with (snd (TokenManager.transfer_token t a b s)) by (rewrite E; reflexivity).
    apply ownership_inv_transfer_token. split; assumption. }
  apply transfer_token_true in E as (T & HT & Ho & [A HA] & [B HB] & Ht & Hmv).
  assert (truthy b = true) as Htb.
  { apply (I1 b (Wallet.token_balance B)). unfold token_balance_of. rewrite HB.
    reflexivity. }
  assert (owner_of s' t = Some b) as Hot'.
  { unfold owner_of. rewrite Ht, lookup_insert_eq. cbn.
    unfold Token.transfer_ownership. rewrite Htb. reflexivity. }
  split; [exact Hot'|]. split; [apply I2', Hot'|].
  intros Hab. specialize (Hmv a). unfold token_balance_of in Hmv at 1.
  rewrite HA in Hmv. cbn in Hmv. destruct Hmv as (la & Hla & _).
  exists la. split; [exact Hla|]. intros Hin.
  destruct (I1' a la Hla) as (_ & _ & Hown). pose proof (Hown t Hin). congruence.
Qed.

(** C3 (amended). Ownership uniqueness. In every reachable state a token
    id is in the token set of at most one wallet, and that wallet is the
    token's [owner_wallet_id]. After a successful
    [transfer_token(token_id, sender, receiver)] the token is owned by the
    receiver and is in the receiver's token set; when the sender is not
    the receiver, it is absent from the sender's token set. *)
Theorem ownership_unique (s : System) :
  reachable s ->
  (forall t w1 w2 l1 l2,
     token_balance_of s w1 = Some l1 -> token_balance_of s w2 = Some l2 ->
     t ∈ l1 -> t ∈ l2 -> w1 = w2)
  /\ (forall t w l, token_balance_of s w = Some l -> t ∈ l -> owner_of s t = Some w)
  /\ (forall t a b s',
        TokenManager.transfer_token t a b s = (true, s') ->
        owner_of s' t = Some b
        /\ (exists lb, token_balance_of s' b = Some lb /\ t ∈ lb)
        /\ (a <> b -> exists la, token_balance_of s' a = Some la /\ t ∉ la)).
Proof.
  intros Hreach. pose proof (reachable_ownership_inv s Hreach) as [I1 I2].
  split; [|split].
  - intros t w1 w2 l1 l2 H1 H2 Hin1 Hin2.
    destruct (I1 w1 l1 H1) as (_ & _ & Ho1). destruct (I1 w2 l2 H2) as (_ & _ & Ho2).
    pose proof (Ho1 t Hin1). pose proof (Ho2 t Hin2). congruence.
  - intros t w l H Hin. apply (I1 w l H). exact Hin.
  - intros t a b s' E. apply (transfer_token_moves t a b s s'); [split; assumption | exact E].
Qed.

(** Two wallets, and a token of value 50 issued to the first. *)
Definition scenario_owner : System :=
  let s := init in
  let s := snd (WalletManager.create_wallet "W1" "key-of-W1" s) in
  let s := snd (WalletManager.create_wallet "W2" "key-of-W2" s) in
  snd (TokenManager.issue_token 50 "W1" "T1" s).

Lemma scenario_owner_reachable : reachable scenario_owner.
Proof.
  exists [op_create_wallet "W1" "key-of-W1"; op_create_wallet "W2" "key-of-W2";
          op_issue_token 50 "W1" "T1"].
  vm_compute. reflexivity.
Defined.

Lemma ownership_unique_witness :
  (forall t w1 w2 l1 l2,
     token_balance_of scenario_owner w1 = Some l1 ->
     token_balance_of scenario_owner w2 = Some l2 ->
     t ∈ l1 -> t ∈ l2 -> w1 = w2)
  /\ (forall t w l,
        token_balance_of scenario_owner w = Some l -> t ∈ l ->
        owner_of scenario_owner t = Some w)
  /\ (forall t a b s',
        TokenManager.transfer_token t a b scenario_owner = (true, s') ->
        owner_of s' t = Some b
        /\ (exists lb, token_balance_of s' b = Some lb /\ t ∈ lb)
        /\ (a <> b -> exists la, token_balance_of s' a = Some la /\ t ∉ la)).
Proof. exact (ownership_unique scenario_owner scenario_owner_reachable). Defined.

(** The transfer of the witness state, from the first wallet to the
    second. *)
Example scenario_owner_transfer :
  let r := TokenManager.transfer_token "T1" "W1" "W2" scenario_owner in
  fst r = true
  /\ token_balance_of (snd r) "W1" = Some []
  /\ token_balance_of (snd r) "W2" = Some ["T1"]
  /\ owner_of (snd r) "T1" = Some "W2".
Proof. vm_compute. repeat split. Qed.

(** C3 as stated fails when the sender is the receiver: the transfer
    succeeds and the token is still in the sender's token set. *)
Lemma transfer_token_to_self :
  let r := TokenManager.transfer_token "T1" "W1" "W1" scenario_owner in
  fst r = true
  /\ token_balance_of (snd r) "W1" = Some ["T1"]
  /\ owner_of (snd r) "T1" = Some "W1".
Proof. vm_compute. repeat split. Qed.

(** ** The online transfer (transaction.py) *)

(** The transaction object as [execute_transfer] creates it, and as it is
    after the compliance check. *)
Definition new_transaction (a b t : string) (v : option string) (x now : string)
  (is_anonymous : bool) : Transaction.t :=
  Transaction.post_init now
    (Transaction.mk x a b t v is_anonymous PENDING None false None None).

Definition checked_transaction (x0 : Transaction.t) (cr : ComplianceResult.t)
  : Transaction.t :=
  Transaction.set_aml
    (match ComplianceResult.status cr with FLAGGED => true | _ => false end)
    (ComplianceResult.reason cr) x0.

(** The transaction that is signed, and the one that is stored. *)
Definition signed_transaction (W : option Wallet.t) (x1 : Transaction.t) : Transaction.t :=
  match W with
  | Some sender_wallet =>
      Transaction.set_signature
        (Some (Wallet.sign_transaction sender_wallet (Transaction.to_dict x1))) x1
  | None => x1
  end.

Lemma redeem_if_present_frame (v : option string) x n s r s' :
  match v with
  | Some vid => if truthy vid then VoucherManager.redeem_voucher vid x n s else (true, s)
  | None => (true, s)
  end = (r, s') ->
  tokens s' = tokens s
  /\ aml_registry s' = aml_registry s /\ authority_contacted s' = authority_contacted s
  /\ entries s' = entries s /\ entry_counter s' = entry_counter s
  /\ transactions s' = transactions s
  /\ offline_transactions s' = offline_transactions s.
Proof.
  destruct v as [vid|]; [destruct (truthy vid)|];
    try (intros [= _ <-]; repeat split; reflexivity).
  intros E. pose proof (redeem_voucher_frame vid x n s) as F. rewrite E in F. exact F.
Qed.

(** The outcome of [execute_transfer]: a failure stores nothing; a
    success stores, under the new id, a completed transaction whose
    signature was computed by the sender's wallet over the dictionary of
    the transaction before it was signed and completed. *)
Lemma execute_transfer_cases a b t v x now dk s r s' :
  TransactionEngine.execute_transfer a b t v x now dk s = (r, s') ->
  match r with
  | Err _ => transactions s' = transactions s
  | Ok tx =>
      exists token is_anonymous cr s1,
        tokens s !! t = Some token
        /\ ComplianceManager.check_transaction (new_transaction a b t v x now is_anonymous)
                                               token now s = (cr, s1)
        /\ tx = Transaction.set_status COMPLETED
                  (signed_transaction (wallets s' !! a)
                     (checked_transaction (new_transaction a b t v x now is_anonymous) cr))
        /\ transactions s' = <[x := tx]> (transactions s)
  end.
Proof.
  unfold TransactionEngine.execute_transfer, TokenManager.get_token,
    WalletManager.get_wallet.
  destruct (negb (truthy a && truthy b && truthy t)); [intros [= <- <-]; reflexivity|].
  destruct (String.eqb a b); [intros [= <- <-]; reflexivity|].
  destruct (negb _); [intros [= <- <-]; reflexivity|].
  destruct (tokens s !! t) as [token|] eqn:Htok; [|intros [= <- <-]; reflexivity].
  destruct (negb (String.eqb _ a)); [intros [= <- <-]; reflexivity|].
  match goal with
  | |- context [match ?anon with Ok _ => _ | Err _ => _ end] =>
      destruct anon as [is_anonymous|msg]
  end; [|intros [= <- <-]; reflexivity].
  fold (new_transaction a b t v x now is_anonymous).
  destruct (ComplianceManager.check_transaction _ token now s) as [cr s1] eqn:E1.
  fold (checked_transaction (new_transaction a b t v x now is_anonymous) cr).
  destruct (TokenManager.transfer_token t a b s1) as [ok s2] eqn:E2.
  pose proof (check_transaction_frame (new_transaction a b t v x now is_anonymous)
                token now s) as F1. rewrite E1 in F1. cbn [snd] in F1.
  pose proof (transfer_token_frame t a b s1) as F2. rewrite E2 in F2. cbn [snd] in F2.
  destruct (negb ok).
  { intros [= <- <-]. transitivity (transactions s1); [apply F2 | apply F1]. }
  match goal with
  | |- context [match ?e with (_, _) => _ end] => destruct e as [red s3] eqn:E3
  end.
  pose proof (redeem_if_present_frame _ _ _ _ _ _ E3) as F3.
  destruct (negb red).
  { intros [= <- <-]. transitivity (transactions s2); [apply F3|].
    transitivity (transactions s1); [apply F2 | apply F1]. }
  match goal with
  | |- context [LedgerManager.store_transaction ?y ?n ?d ?z] =>
      destruct (LedgerManager.store_transaction y n d z) as [[eid|msg] s4] eqn:E4;
      pose proof (store_transaction_frame y n d z) as F4; rewrite E4 in F4; cbn [snd] in F4
  end.
  2:{ intros [= <- <-]. transitivity (transactions s3); [apply F4|].
      transitivity (transactions s2); [apply F3|].
      transitivity (transactions s1); [apply F2 | apply F1]. }
  intros [= <- <-]. exists token, is_anonymous, cr, s1.
  split; [reflexivity|]. split; [exact E1|].
  assert (transactions s4 = transactions s) as Htx.
  { transitivity (transactions s3); [apply F4|].
    transitivity (transactions s2); [apply F3|].
    transitivity (transactions s1); [apply F2 | apply F1]. }
  assert (wallets s4 = wallets s3) as Hw by apply F4.
  cbn [wallets set_transactions]. rewrite Hw, Htx.
  unfold signed_transaction. split; reflexivity.
Qed.

(** Only completed transactions are in the store. *)
Definition completed_inv (s : System) : Prop :=
  forall tid tx, transactions s !! tid = Some tx -> Transaction.status tx = COMPLETED.

Lemma completed_inv_prim s s' : completed_inv s -> prim s s' -> completed_inv s'.
Proof.
  intros I Hp. unfold completed_inv in *.
  destruct Hp as [w k Hf|v w t Hf|t a b|w l v now Hf|v x n|x tk now|x now dk|tid x Hc
                 |a b t v x now Hf Hn|x w sg|x otx Hx|x otx now Hx].
  - use_frame (create_wallet_frame w k s). rewrite F6. exact I.
  - use_frame (issue_token_frame v w t s). rewrite F5. exact I.
  - use_frame (transfer_token_frame t a b s). rewrite F5. exact I.
  - use_frame (issue_voucher_frame w l v now s). rewrite F5. exact I.
  - use_frame (redeem_voucher_frame v x n s). rewrite F5. exact I.
  - use_frame (check_transaction_frame x tk now s). rewrite F5. exact I.
  - use_frame (store_transaction_frame x now dk s). rewrite F5. exact I.
  - intros tid' tx. cbn. destruct (decide (tid = tid')) as [<-|Hne].
    + rewrite lookup_insert_eq. intros [= <-]. exact Hc.
    + rewrite lookup_insert_ne by exact Hne. apply I.
  - use_frame (create_offline_transaction_frame a b t v x now s). rewrite F. exact I.
  - use_frame (sign_offline_transaction_frame x w sg s). rewrite F. exact I.
  - exact I.
  - exact I.
Qed.

Lemma reachable_completed_inv s : reachable s -> completed_inv s.
Proof.
  apply reachable_prims_invariant; [|apply completed_inv_prim].
  intros tid tx. cbn. rewrite lookup_empty. discriminate.
Qed.

Lemma values_stored s tx :
  tx ∈ TransactionEngine.values s -> exists tid, transactions s !! tid = Some tx.
Proof.
  unfold TransactionEngine.values. intros Hin.
  apply list_elem_of_fmap in Hin as ([tid tx'] & -> & Hin).
  apply elem_of_map_to_list in Hin. exists tid. exact Hin.
Qed.

Lemma filter_elem_of {A : Type} (f : A -> bool) (l : list A) (x : A) :
  x ∈ List.filter f l -> x ∈ l /\ f x = true.
Proof. rewrite !list_elem_of_In. apply filter_In. Qed.

Lemma filter_none {A : Type} (f : A -> bool) (l : list A) :
  (forall x, x ∈ l -> f x = false) -> List.filter f l = [].
Proof.
  induction l as [|y l IH]; intros H; simpl; [reflexivity|].
  rewrite (H y) by (left). apply IH. intros x Hx. apply H. right. exact Hx.
Qed.

Lemma filter_all {A : Type} (f : A -> bool) (l : list A) :
  (forall x, x ∈ l -> f x = true) -> List.filter f l = l.
Proof.
  induction l as [|y l IH]; intros H; simpl; [reflexivity|].
  rewrite (H y) by (left). f_equal. apply IH. intros x Hx. apply H. right. exact Hx.
Qed.

(** C10. Only completed transfers are stored. In every reachable state,
    every transaction of the store has status completed: [get_transaction]
    and every listing (all, by wallet, anonymous, non-anonymous,
    AML-flagged) return completed transactions only, the completed ones
    are all of them, and [get_failed_transactions] is empty. When
    [execute_transfer] fails, on a refused request or on a ledger write
    that raises, the store is unchanged, so [get_transaction] on the id
    drawn for the failed transfer returns nothing. *)
Theorem only_completed_stored (s : System) :
  reachable s ->
  (forall tid tx,
     TransactionEngine.get_transaction tid s = Some tx ->
     Transaction.status tx = COMPLETED)
  /\ TransactionEngine.get_failed_transactions s = []
  /\ TransactionEngine.get_completed_transactions s
     = TransactionEngine.list_all_transactions s
  /\ (forall tx,
        tx ∈ TransactionEngine.list_all_transactions s ->
        Transaction.status tx = COMPLETED)
  /\ (forall w tx,
        tx ∈ TransactionEngine.get_transactions_by_wallet w s ->
        Transaction.status tx = COMPLETED)
  /\ (forall tx,
        tx ∈ TransactionEngine.get_anonymous_transactions s ->
        Transaction.status tx = COMPLETED)
  /\ (forall tx,
        tx ∈ TransactionEngine.get_non_anonymous_transactions s ->
        Transaction.status tx = COMPLETED)
  /\ (forall tx,
        tx ∈ TransactionEngine.get_aml_flagged_transactions s ->
        Transaction.status tx = COMPLETED)
  /\ (forall a b t v x now disk msg s',
        transactions s !! x = None ->
        TransactionEngine.execute_transfer a b t v x now disk s = (Err msg, s') ->
        transactions s' = transactions s
        /\ TransactionEngine.get_transaction x s' = None).
Proof.
  intros Hreach. pose proof (reachable_completed_inv s Hreach) as I.
  assert (forall tx, tx ∈ TransactionEngine.values s -> Transaction.status tx = COMPLETED)
    as Hall.
  { intros tx Hin. apply values_stored in Hin as [tid Htid]. exact (I tid tx Htid). }
  repeat apply conj.
  - exact I.
  - apply filter_none. intros tx Hin. rewrite (Hall tx Hin). reflexivity.
  - apply filter_all. intros tx Hin. rewrite (Hall tx Hin). reflexivity.
  - exact Hall.
  - intros w tx Hin. apply filter_elem_of in Hin as [Hin _]. exact (Hall tx Hin).
  - intros tx Hin. apply filter_elem_of in Hin as [Hin _]. exact (Hall tx Hin).
  - intros tx Hin. apply filter_elem_of in Hin as [Hin _]. exact (Hall tx Hin).
  - intros tx Hin. apply filter_elem_of in Hin as [Hin _]. exact (Hall tx Hin).
  - intros a b t v x now dk msg s' Hfresh E.
    apply execute_transfer_cases in E. cbn in E.
    unfold TransactionEngine.get_transaction. rewrite E. split; [reflexivity | exact Hfresh].
Qed.

(** The run of scenario A. *)
Definition scenario_A_ops : list op :=
  [op_create_wallet "W1" "key-of-W1"; op_create_wallet "W2" "key-of-W2";
   op_issue_token 50 "W1" "T1";
   op_execute_transfer "W1" "W2" "T1" None "X1" "2025-01-01T12:00:00" None].

Lemma scenario_A_reachable : reachable (snd scenario_A).
Proof. exists scenario_A_ops. vm_compute. reflexivity. Defined.

Lemma only_completed_stored_witness :
  (forall tid tx,
     TransactionEngine.get_transaction tid (snd scenario_A) = Some tx ->
     Transaction.status tx = COMPLETED)
  /\ TransactionEngine.get_failed_transactions (snd scenario_A) = []
  /\ TransactionEngine.get_completed_transactions (snd scenario_A)
     = TransactionEngine.list_all_transactions (snd scenario_A)
  /\ (forall tx,
        tx ∈ TransactionEngine.list_all_transactions (snd scenario_A) ->
        Transaction.status tx = COMPLETED)
  /\ (forall w tx,
        tx ∈ TransactionEngine.get_transactions_by_wallet w (snd scenario_A) ->
        Transaction.status tx = COMPLETED)
  /\ (forall tx,
        tx ∈ TransactionEngine.get_anonymous_transactions (snd scenario_A) ->
        Transaction.status tx = COMPLETED)
  /\ (forall tx,
        tx ∈ TransactionEngine.get_non_anonymous_transactions (snd scenario_A) ->
        Transaction.status tx = COMPLETED)
  /\ (forall tx,
        tx ∈ TransactionEngine.get_aml_flagged_transactions (snd scenario_A) ->
        Transaction.status tx = COMPLETED)
  /\ (forall a b t v x now disk msg s',
        transactions (snd scenario_A) !! x = None ->
        TransactionEngine.execute_transfer a b t v x now disk (snd scenario_A) = (Err msg, s') ->
        transactions s' = transactions (snd scenario_A)
        /\ TransactionEngine.get_transaction x s' = None).
Proof. exact (only_completed_stored (snd scenario_A) scenario_A_reachable). Defined.

(** A transfer that fails in the witness state: the sender no longer owns
    the token. Nothing is stored under the id drawn for it. *)
Example scenario_A_failed_transfer :
  let r := TransactionEngine.execute_transfer "W1" "W2" "T1" None "X2"
             "2025-01-01T12:05:00" None (snd scenario_A) in
  fst r = Err "Sender does not own token T1"
  /\ TransactionEngine.get_transaction "X2" (snd r) = None
  /\ length (TransactionEngine.list_all_transactions (snd r)) = 1%nat.
Proof. vm_compute. repeat split. Qed.

(** ** The offline transfer (offline.py, ledger.py) *)

Lemma token_balance_is_Some s w :
  is_Some (token_balance_of s w) <-> is_Some (wallets s !! w).
Proof. unfold token_balance_of. apply fmap_is_Some. Qed.

(** Wallets are never deleted. *)
Lemma prim_wallets_mono s s' w :
  prim s s' -> is_Some (wallets s !! w) -> is_Some (wallets s' !! w).
Proof.
  intros Hp Hw.
  destruct Hp as [w0 k Hf|v w0 t Hf|t a b|w0 l v now Hf|v x n|x tk now|x now dk|tid x Hc
                 |a b t v x now Hf Hn|x w0 sg|x otx Hx|x otx now Hx].
  - destruct (create_wallet_effect w0 k s) as [->|(W & _ & _ & _ & ->)]; [exact Hw|].
    destruct (decide (w0 = w)) as [<-|Hne].
    + rewrite lookup_insert_eq. eauto.
    + rewrite lookup_insert_ne by exact Hne. exact Hw.
  - destruct (issue_token_effect v w0 t s) as [->|(W & _ & _ & ->)]; [exact Hw|].
    destruct (decide (w0 = w)) as [<-|Hne].
    + rewrite lookup_insert_eq. eauto.
    + rewrite lookup_insert_ne by exact Hne. exact Hw.
  - destruct (TokenManager.transfer_token t a b s) as [[|] s'] eqn:E; cbn [snd].
    + apply transfer_token_true in E as (T & _ & _ & _ & _ & _ & Hmv).
      apply token_balance_is_Some. apply token_balance_is_Some in Hw as [l Hl].
      specialize (Hmv w). rewrite Hl in Hmv. destruct Hmv as (l' & -> & _). eauto.
    + apply transfer_token_false in E. subst s'. exact Hw.
  - apply token_balance_is_Some. rewrite issue_voucher_token_balance.
    apply token_balance_is_Some, Hw.
  - apply token_balance_is_Some. rewrite redeem_voucher_token_balance.
    apply token_balance_is_Some, Hw.
  - use_frame (check_transaction_frame x tk now s). rewrite F0. exact Hw.
  - use_frame (store_transaction_frame x now dk s). rewrite F0. exact Hw.
  - exact Hw.
  - use_frame (create_offline_transaction_frame a b t v x now s). rewrite F0. exact Hw.
  - use_frame (sign_offline_transaction_frame x w0 sg s). rewrite F0. exact Hw.
  - exact Hw.
  - exact Hw.
Qed.

(** The fields of an offline transaction that no later call changes. *)
Definition same_identity (o o' : OfflineTransaction.t) : Prop :=
  OfflineTransaction.offline_id o' = OfflineTransaction.offline_id o
  /\ OfflineTransaction.sender_wallet_id o' = OfflineTransaction.sender_wallet_id o
  /\ OfflineTransaction.receiver_wallet_id o' = OfflineTransaction.receiver_wallet_id o
  /\ OfflineTransaction.token_id o' = OfflineTransaction.token_id o
  /\ OfflineTransaction.value o' = OfflineTransaction.value o
  /\ OfflineTransaction.created_timestamp o' = OfflineTransaction.created_timestamp o
  /\ OfflineTransaction.voucher_id o' = OfflineTransaction.voucher_id o
  /\ OfflineTransaction.is_anonymous o' = OfflineTransaction.is_anonymous o.

Definition offline_ok (s : System) (oid : string) (o : OfflineTransaction.t) : Prop :=
  OfflineTransaction.offline_id o = oid
  /\ is_Some (wallets s !! OfflineTransaction.sender_wallet_id o)
  /\ is_Some (wallets s !! OfflineTransaction.receiver_wallet_id o)
  /\ OfflineTransaction.sender_wallet_id o <> OfflineTransaction.receiver_wallet_id o
  /\ truthy_opt (OfflineTransaction.created_timestamp o) = true.

Definition offline_inv (s : System) : Prop :=
  forall oid o, offline_transactions s !! oid = Some o -> offline_ok s oid o.

Lemma create_offline_transaction_effect a b t v x now s :
  snd (OfflineManager.create_offline_transaction a b t v x now s) = s
  \/ exists o,
       offline_transactions (snd (OfflineManager.create_offline_transaction a b t v x now s))
       = <[x := o]> (offline_transactions s)
       /\ OfflineTransaction.offline_id o = x
       /\ OfflineTransaction.sender_wallet_id o = a
       /\ OfflineTransaction.receiver_wallet_id o = b
       /\ a <> b
       /\ is_Some (wallets s !! a) /\ is_Some (wallets s !! b)
       /\ OfflineTransaction.status o = OFF_PENDING
       /\ OfflineTransaction.created_timestamp o = Some now.
Proof.
  unfold OfflineManager.create_offline_transaction, TokenManager.get_token,
    WalletManager.wallet_exists.
  destruct (negb (truthy a && truthy b && truthy t)); [left; reflexivity|].
  destruct (String.eqb_spec a b) as [|Hab]; [left; reflexivity|].
  destruct (wallets s !! a) as [A|] eqn:HA; cbn; [|left; reflexivity].
  destruct (wallets s !! b) as [B|] eqn:HB; cbn; [|left; reflexivity].
  destruct (tokens s !! t) as [token|]; [|left; reflexivity].
  destruct (negb (String.eqb _ a)); [left; reflexivity|].
  match goal with
  | |- context [match ?anon with Ok _ => _ | Err _ => _ end] =>
      destruct anon as [is_anonymous|msg]
  end; [|left; reflexivity].
  right. eexists. cbn. repeat apply conj; try reflexivity; eauto.
Qed.

Lemma sign_offline_transaction_effect x w sg s :
  snd (OfflineManager.sign_offline_transaction x w sg s) = s
  \/ exists o o',
       offline_transactions s !! x = Some o
       /\ offline_transactions (snd (OfflineManager.sign_offline_transaction x w sg s))
          = <[x := o']> (offline_transactions s)
       /\ same_identity o o'.
Proof.
  unfold OfflineManager.sign_offline_transaction.
  destruct (offline_transactions s !! x) as [o|] eqn:Ho; [|left; reflexivity].
  destruct (negb _); [left; reflexivity|].
  destruct (String.eqb w (OfflineTransaction.sender_wallet_id o)).
  - right. eexists. eexists. split; [reflexivity|]. cbn. split; [reflexivity|].
    destruct (_ && _); repeat split.
  - destruct (String.eqb w (OfflineTransaction.receiver_wallet_id o)); [|left; reflexivity].
    right. eexists. eexists. split; [reflexivity|]. cbn. split; [reflexivity|].
    destruct (_ && _); repeat split.
Qed.

Lemma offline_ok_mono s s' oid o :
  (forall w, is_Some (wallets s !! w) -> is_Some (wallets s' !! w)) ->
  offline_ok s oid o -> offline_ok s' oid o.
Proof.
  intros Hm (H1 & H2 & H3 & H4 & H5). repeat split; auto.
Qed.

Lemma offline_ok_same_identity s oid o o' :
  same_identity o o' -> offline_ok s oid o -> offline_ok s oid o'.
Proof.
  intros (E1 & E2 & E3 & E4 & E5 & E6 & E7 & E8) (H1 & H2 & H3 & H4 & H5).
  unfold offline_ok. rewrite E1, E2, E3, E6. repeat split; assumption.
Qed.

Lemma offline_inv_update s x o o' :
  offline_inv s -> offline_transactions s !! x = Some o -> same_identity o o' ->
  offline_inv (set_offline_transactions (<[x := o']> (offline_transactions s)) s).
Proof.
  intros I Hx Hid oid o0. cbn. destruct (decide (x = oid)) as [<-|Hne].
  - rewrite lookup_insert_eq. intros [= <-].
    apply (offline_ok_mono s); [auto|]. eapply offline_ok_same_identity; [exact Hid|].
    apply I, Hx.
  - rewrite lookup_insert_ne by exact Hne. intros H.
    apply (offline_ok_mono s); [auto|]. apply I, H.
Qed.

Lemma offline_inv_prim s s' : offline_inv s -> prim s s' -> offline_inv s'.
Proof.
  intros I Hp.
  assert (forall w, is_Some (wallets s !! w) -> is_Some (wallets s' !! w)) as Hmono
    by (intros w; apply prim_wallets_mono, Hp).
  assert (offline_transactions s' = offline_transactions s -> offline_inv s') as Hsame.
  { intros E oid o. rewrite E. intros H. apply (offline_ok_mono s); [exact Hmono|].
    apply I, H. }
  destruct Hp as [w k Hf|v w t Hf|t a b|w l v now Hf|v x n|x tk now|x now dk|tid x Hc
                 |a b t v x now Hf Hn|x w sg|x otx Hx|x otx now Hx].
  - apply Hsame, create_wallet_frame.
  - apply Hsame, issue_token_frame.
  - apply Hsame, transfer_token_frame.
  - apply Hsame, issue_voucher_frame.
  - apply Hsame, redeem_voucher_frame.
  - apply Hsame, check_transaction_frame.
  - apply Hsame, store_transaction_frame.
  - apply Hsame. reflexivity.
  - destruct (create_offline_transaction_effect a b t v x now s)
      as [E|(o & E & E1 & E2 & E3 & Hab & Ha & Hb & _ & Hts)].
    + apply Hsame. rewrite E. reflexivity.
    + intros oid o0. rewrite E. destruct (decide (x = oid)) as [<-|Hne].
      * rewrite lookup_insert_eq. intros [= <-]. unfold offline_ok.
        rewrite E1, E2, E3, Hts. repeat split; auto.
      * rewrite lookup_insert_ne by exact Hne. intros H.
        apply (offline_ok_mono s); [exact Hmono|]. apply I, H.
  - destruct (sign_offline_transaction_effect x w sg s) as [E|(o & o' & Ho & E & Hid)].
    + apply Hsame. rewrite E. reflexivity.
    + intros oid o0. rewrite E. intros H.
      apply (offline_ok_mono s); [exact Hmono|].
      apply (offline_inv_update s x o o' I Ho Hid oid o0). exact H.
  - apply offline_inv_update with (o := otx); [exact I | exact Hx | repeat split].
  - apply offline_inv_update with (o := otx); [exact I | exact Hx | repeat split].
Qed.

Lemma reachable_offline_inv s : reachable s -> offline_inv s.
Proof.
  apply reachable_prims_invariant; [|apply offline_inv_prim].
  intros oid o. cbn. rewrite lookup_empty. discriminate.
Qed.

(** Every entry id of the ledger is the numeral of a number below the
    counter, so the id drawn next is not in use. *)
Definition ledger_inv (s : System) : Prop :=
  forall k e, entries s !! k = Some e -> exists n : N, (n < entry_counter s)%N /\ k = pretty n.

Lemma ledger_inv_fresh s : ledger_inv s -> entries s !! pretty (entry_counter s) = None.
Proof.
  intros I. destruct (entries s !! pretty (entry_counter s)) as [e|] eqn:E; [|reflexivity].
  destruct (I _ _ E) as (n & Hlt & Heq). apply (inj pretty) in Heq. lia.
Qed.

Lemma ledger_inv_prim s s' : ledger_inv s -> prim s s' -> ledger_inv s'.
Proof.
  intros I Hp. unfold ledger_inv in *.
  destruct Hp as [w k Hf|v w t Hf|t a b|w l v now Hf|v x n|x tk now|x now dk|tid x Hc
                 |a b t v x now Hf Hn|x w sg|x otx Hx|x otx now Hx].
  - use_frame (create_wallet_frame w k s). rewrite F4, F5. exact I.
  - use_frame (issue_token_frame v w t s). rewrite F3, F4. exact I.
  - use_frame (transfer_token_frame t a b s). rewrite F3, F4. exact I.
  - use_frame (issue_voucher_frame w l v now s). rewrite F3, F4. exact I.
  - use_frame (redeem_voucher_frame v x n s). rewrite F3, F4. exact I.
  - use_frame (check_transaction_frame x tk now s). rewrite F3, F4. exact I.
  - rewrite store_transaction_state.
    intros k e. cbn. destruct (decide (pretty (entry_counter s) = k)) as [<-|Hne].
    + intros _. exists (entry_counter s). split; [lia | reflexivity].
    + rewrite lookup_insert_ne by exact Hne. intros H.
      destruct (I k e H) as (n & Hlt & ->). exists n. split; [lia | reflexivity].
  - exact I.
  - use_frame (create_offline_transaction_frame a b t v x now s). rewrite F5, F6. exact I.
  - use_frame (sign_offline_transaction_frame x w sg s). rewrite F5, F6. exact I.
  - exact I.
  - exact I.
Qed.

Lemma reachable_ledger_inv s : reachable s -> ledger_inv s.
Proof.
  apply reachable_prims_invariant; [|apply ledger_inv_prim].
  intros k e. cbn. rewrite lookup_empty. discriminate.
Qed.

Lemma transfer_token_succeeds t a b s T :
  tokens s !! t = Some T -> Token.owner_wallet_id T = a ->
  is_Some (wallets s !! a) -> is_Some (wallets s !! b) ->
  fst (TokenManager.transfer_token t a b s) = true.
Proof.
  intros HT Ho [A HA] [B HB].
  unfold TokenManager.transfer_token, TokenManager.get_token, WalletManager.wallet_exists.
  rewrite HT, Ho, String.eqb_refl, HA, HB. reflexivity.
Qed.

Lemma redeem_voucher_succeeds vid tid v s V :
  vouchers s !! vid = Some V -> Voucher.can_be_used_for_value V v = true ->
  fst (VoucherManager.redeem_voucher vid tid v s) = true.
Proof.
  intros HV Hc.
  unfold VoucherManager.redeem_voucher, VoucherManager.get_voucher.
  rewrite HV, Hc. cbn. unfold Voucher.mark_as_used.
  unfold Voucher.can_be_used_for_value in Hc.
  destruct (Voucher.is_used V); [discriminate | reflexivity].
Qed.

(** The string that [a or b] yields when [a] is a non-empty timestamp. *)
Lemma opt_or_truthy (o : option string) (b : string) :
  truthy_opt o = true -> Some (opt_or o b) = o.
Proof.
  destruct o as [a|]; [|discriminate]. cbn. unfold str_or. intros ->. reflexivity.
Qed.

(** C8 (amended). Successful sync. In a reachable state, for an offline transfer with
    status signed whose token is still owned by the sender and whose
    voucher, if one is attached, can still be used for the recorded value,
    [sync_with_ledger] returns true when the write of the ledger file
    succeeds; afterwards the token is owned by the receiver, is in the
    receiver's token set and not in the sender's; the voucher, if any, is
    used by the offline id; the ledger has exactly one more entry, under
    a new entry id, whose transaction id is the offline id and whose
    timestamp is the creation timestamp of the offline transfer; and the
    offline transfer has status synced and the sync timestamp. When the
    write raises, the handler of [sync_with_ledger] marks the transfer
    failed and the call returns false. *)
Theorem sync_with_ledger_success
  (s : System) (offline_id now : string) (otx : OfflineTransaction.t) (token : Token.t) :
  reachable s ->
  offline_transactions s !! offline_id = Some otx ->
  OfflineTransaction.status otx = OFF_SIGNED ->
  tokens s !! OfflineTransaction.token_id otx = Some token ->
  Token.owner_wallet_id token = OfflineTransaction.sender_wallet_id otx ->
  (forall vid,
     OfflineTransaction.voucher_id otx = Some vid -> truthy vid = true ->
     exists V,
       vouchers s !! vid = Some V
       /\ Voucher.can_be_used_for_value V (OfflineTransaction.value otx) = true) ->
  let r := OfflineManager.sync_with_ledger offline_id now None s in
  fst r = true
  /\ owner_of (snd r) (OfflineTransaction.token_id otx)
     = Some (OfflineTransaction.receiver_wallet_id otx)
  /\ (exists l,
        token_balance_of (snd r) (OfflineTransaction.receiver_wallet_id otx) = Some l
        /\ OfflineTransaction.token_id otx ∈ l)
  /\ (exists l,
        token_balance_of (snd r) (OfflineTransaction.sender_wallet_id otx) = Some l
        /\ OfflineTransaction.token_id otx ∉ l)
  /\ (forall vid,
        OfflineTransaction.voucher_id otx = Some vid -> truthy vid = true ->
        (Voucher.is_used <$> vouchers (snd r) !! vid) = Some true
        /\ (Voucher.used_in_transaction <$> vouchers (snd r) !! vid)
           = Some (Some offline_id))
  /\ (exists e,
        entries s !! pretty (entry_counter s) = None
        /\ entries (snd r) = <[pretty (entry_counter s) := e]> (entries s)
        /\ size (entries (snd r)) = S (size (entries s))
        /\ LedgerEntry.transaction_id e = offline_id
        /\ Some (LedgerEntry.timestamp e) = OfflineTransaction.created_timestamp otx)
  /\ (exists otx',
        offline_transactions (snd r) !! offline_id = Some otx'
        /\ OfflineTransaction.status otx' = OFF_SYNCED
        /\ OfflineTransaction.synced_timestamp otx' = Some now)
  /\ (forall msg,
        let r' := OfflineManager.sync_with_ledger offline_id now (Some msg) s in
        fst r' = false
        /\ (OfflineTransaction.status <$> offline_transactions (snd r') !! offline_id)
           = Some OFF_FAILED).
Proof.
  intros Hreach Hx Hst Htok Hown Hvoucher. cbv zeta.
  enough (forall dk,
            let r := OfflineManager.sync_with_ledger offline_id now dk s in
            match dk with
            | Some _ =>
                fst r = false
                /\ (OfflineTransaction.status <$> offline_transactions (snd r) !! offline_id)
                   = Some OFF_FAILED
            | None =>
                fst r = true
                /\ owner_of (snd r) (OfflineTransaction.token_id otx)
                   = Some (OfflineTransaction.receiver_wallet_id otx)
                /\ (exists l,
                      token_balance_of (snd r) (OfflineTransaction.receiver_wallet_id otx)
                      = Some l
                      /\ OfflineTransaction.token_id otx ∈ l)
                /\ (exists l,
                      token_balance_of (snd r) (OfflineTransaction.sender_wallet_id otx)
                      = Some l
                      /\ OfflineTransaction.token_id otx ∉ l)
                /\ (forall vid,
                      OfflineTransaction.voucher_id otx = Some vid -> truthy vid = true ->
                      (Voucher.is_used <$> vouchers (snd r) !! vid) = Some true
                      /\ (Voucher.used_in_transaction <$> vouchers (snd r) !! vid)
                         = Some (Some offline_id))
                /\ (exists e,
                      entries s !! pretty (entry_counter s) = None
                      /\ entries (snd r) = <[pretty (entry_counter s) := e]> (entries s)
                      /\ size (entries (snd r)) = S (size (entries s))
                      /\ LedgerEntry.transaction_id e = offline_id
                      /\ Some (LedgerEntry.timestamp e)
                         = OfflineTransaction.created_timestamp otx)
                /\ (exists otx',
                      offline_transactions (snd r) !! offline_id = Some otx'
                      /\ OfflineTransaction.status otx' = OFF_SYNCED
                      /\ OfflineTransaction.synced_timestamp otx' = Some now)
            end) as Hall.
  { destruct (Hall None) as (H1 & H2 & H3 & H4 & H5 & H6 & H7).
    repeat apply conj; try assumption. intros msg. exact (Hall (Some msg)). }
  intros dk. cbv zeta.
  pose proof (reachable_ownership_inv s Hreach) as Iown.
  pose proof (reachable_ledger_inv s Hreach) as Iled.
  destruct (reachable_offline_inv s Hreach offline_id otx Hx)
    as (Hid & Hsender & Hreceiver & Hne & Hts).
  unfold OfflineManager.sync_with_ledger. rewrite Hx, Hst. cbn [OfflineManager.OfflineStatus_eqb negb].
  (* the token moves *)
  pose proof (transfer_token_succeeds _ _ _ s token Htok Hown Hsender Hreceiver) as Hok.
  destruct (TokenManager.transfer_token _ _ _ s) as [ok s1] eqn:E1.
  cbn [fst] in Hok. subst ok. cbn [negb].
  destruct (transfer_token_moves _ _ _ _ _ Iown E1) as (Ho1 & Hb1 & Ha1).
  pose proof (transfer_token_frame (OfflineTransaction.token_id otx)
                (OfflineTransaction.sender_wallet_id otx)
                (OfflineTransaction.receiver_wallet_id otx) s) as F1.
  rewrite E1 in F1. cbn [snd] in F1.
  destruct F1 as (F1v & _ & _ & F1e & F1c & _ & F1o).
  (* the voucher is redeemed *)
  match goal with
  | |- context [match ?e with (_, _) => _ end] => destruct e as [red s2] eqn:E2
  end.
  assert (red = true
          /\ (forall w, token_balance_of s2 w = token_balance_of s1 w)
          /\ (forall vid,
                OfflineTransaction.voucher_id otx = Some vid -> truthy vid = true ->
                (Voucher.is_used <$> vouchers s2 !! vid) = Some true
                /\ (Voucher.used_in_transaction <$> vouchers s2 !! vid)
                   = Some (Some offline_id))) as (-> & Hb2 & Hv2).
  { destruct (OfflineTransaction.voucher_id otx) as [vid|] eqn:Hvid.
    - destruct (truthy vid) eqn:Htr.
      + destruct (Hvoucher vid eq_refl Htr) as (V & HV & Hc).
        rewrite <- F1v in HV.
        pose proof (redeem_voucher_succeeds vid (OfflineTransaction.offline_id otx)
                      _ s1 V HV Hc) as Hred.
        rewrite E2 in Hred. cbn [fst] in Hred. subst red.
        split; [reflexivity|]. split.
        * intros w. pose proof (redeem_voucher_token_balance vid
                                  (OfflineTransaction.offline_id otx)
                                  (OfflineTransaction.value otx) s1 w) as Hb.
          rewrite E2 in Hb. exact Hb.
        * intros vid' [= <-] _.
          apply redeem_voucher_true in E2 as (V' & HV' & _ & Hv & Hm).
          rewrite Hv, lookup_insert_eq. cbn. rewrite Hm, Hid. cbn. split; reflexivity.
      + injection E2 as <- <-. split; [reflexivity|]. split; [reflexivity|].
        intros vid' [= <-] Htr'. congruence.
    - injection E2 as <- <-. split; [reflexivity|]. split; [reflexivity|].
      intros vid' [=]. }
  pose proof (redeem_if_present_frame _ _ _ _ _ _ E2) as (F2t & _ & _ & F2e & F2c & _ & F2o).
  cbn [negb].
  (* the ledger entry is written and the transfer marked *)
  unfold LedgerManager.store_transaction.
  destruct dk as [msg|]; cbn [LedgerManager._save_ledger fst snd].
  { unfold OfflineManager.mark_failed. cbn. rewrite lookup_insert_eq. split; reflexivity. }
  cbn [entries entry_counter set_ledger set_offline_transactions offline_transactions
       wallets tokens vouchers LedgerManager._save_ledger].
  rewrite F2c, F1c, F2e, F1e.
  repeat apply conj.
  - reflexivity.
  - unfold owner_of in *. cbn [tokens set_ledger set_offline_transactions].
    rewrite F2t. exact Ho1.
  - destruct Hb1 as (l & Hl & Hin). exists l. split; [|exact Hin].
    rewrite <- Hl, <- Hb2. reflexivity.
  - destruct (Ha1 Hne) as (l & Hl & Hin). exists l. split; [|exact Hin].
    rewrite <- Hl, <- Hb2. reflexivity.
  - exact Hv2.
  - eexists. repeat apply conj.
    + apply ledger_inv_fresh, Iled.
    + reflexivity.
    + apply map_size_insert_None, ledger_inv_fresh, Iled.
    + cbn. exact Hid.
    + cbn. apply opt_or_truthy, Hts.
  - eexists. rewrite lookup_insert_eq. repeat split.
Qed.

(** Scenario D of the specification: an offline transfer of a token of
    value 25 from W1 to W2, signed by both wallets. Each party computes
    its signature with its own wallet over the data of the transfer, as
    the repository's tests do. *)
Definition signature_of (s : System) (offline_id wallet_id : string) : string :=
  match offline_transactions s !! offline_id, wallets s !! wallet_id with
  | Some offline_tx, Some wallet =>
      Wallet.sign_transaction wallet (OfflineManager.tx_data offline_tx)
  | _, _ => ""
  end.

Definition offline_setup (value : Z) : System :=
  let s := init in
  let s := snd (WalletManager.create_wallet "W1" "key-of-W1" s) in
  let s := snd (WalletManager.create_wallet "W2" "key-of-W2" s) in
  let s := snd (TokenManager.issue_token value "W1" "T1" s) in
  snd (OfflineManager.create_offline_transaction "W1" "W2" "T1" None "O1"
         "2025-01-01T12:00:00" s).

Definition offline_signed (value : Z) : System :=
  let s := offline_setup value in
  let s := snd (OfflineManager.sign_offline_transaction "O1" "W1" (signature_of s "O1" "W1") s) in
  snd (OfflineManager.sign_offline_transaction "O1" "W2" (signature_of s "O1" "W2") s).

Definition offline_ops (value : Z) : list op :=
  [op_create_wallet "W1" "key-of-W1"; op_create_wallet "W2" "key-of-W2";
   op_issue_token value "W1" "T1";
   op_create_offline_transaction "W1" "W2" "T1" None "O1" "2025-01-01T12:00:00";
   op_sign_offline_transaction "O1" "W1" (signature_of (offline_setup value) "O1" "W1");
   op_sign_offline_transaction "O1" "W2" (signature_of (offline_setup value) "O1" "W2")].

Definition scenario_D_signed : System := offline_signed 25.

Lemma scenario_D_reachable : reachable scenario_D_signed.
Proof. exists (offline_ops 25). vm_compute. reflexivity. Defined.

(** The offline transfer and the token in the signed state. *)
Definition scenario_D_otx : OfflineTransaction.t :=
  OfflineTransaction.mk "O1" "W1" "W2" "T1" 25
    (Some (signature_of (offline_setup 25) "O1" "W1"))
    (Some (signature_of (offline_setup 25) "O1" "W2"))
    OFF_SIGNED (Some "2025-01-01T12:00:00") None None false.

Definition scenario_D_token : Token.t := Token.mk "T1" 25 "W1" "ECB" None.

Definition scenario_D : bool * System :=
  OfflineManager.sync_with_ledger "O1" "2025-01-02T09:30:00" None scenario_D_signed.

Lemma sync_with_ledger_success_witness :
  fst scenario_D = true
  /\ owner_of (snd scenario_D) "T1" = Some "W2"
  /\ (exists e,
        entries scenario_D_signed !! pretty (entry_counter scenario_D_signed) = None
        /\ entries (snd scenario_D)
           = <[pretty (entry_counter scenario_D_signed) := e]> (entries scenario_D_signed)
        /\ size (entries (snd scenario_D)) = S (size (entries scenario_D_signed))
        /\ LedgerEntry.transaction_id e = "O1"
        /\ Some (LedgerEntry.timestamp e) = Some "2025-01-01T12:00:00")
  /\ (exists otx',
        offline_transactions (snd scenario_D) !! "O1" = Some otx'
        /\ OfflineTransaction.status otx' = OFF_SYNCED
        /\ OfflineTransaction.synced_timestamp otx' = Some "2025-01-02T09:30:00").
Proof.
  destruct (sync_with_ledger_success scenario_D_signed "O1" "2025-01-02T09:30:00"
              scenario_D_otx scenario_D_token scenario_D_reachable)
    as (H1 & H2 & _ & _ & _ & H6 & H7 & _).
  - vm_compute. reflexivity.
  - reflexivity.
  - vm_compute. reflexivity.
  - reflexivity.
  - intros vid Hvid. discriminate Hvid.
  - repeat apply conj; [exact H1 | exact H2 | exact H6 | exact H7].
Defined.

Example scenario_D_synced :
  fst scenario_D = true
  /\ (OfflineTransaction.status <$> offline_transactions scenario_D_signed !! "O1")
     = Some OFF_SIGNED
  /\ (OfflineTransaction.status <$> offline_transactions (snd scenario_D) !! "O1")
     = Some OFF_SYNCED
  /\ owner_of (snd scenario_D) "T1" = Some "W2"
  /\ token_balance_of (snd scenario_D) "W1" = Some []
  /\ token_balance_of (snd scenario_D) "W2" = Some ["T1"]
  /\ size (entries scenario_D_signed) = 0%nat
  /\ size (entries (snd scenario_D)) = 1%nat.
Proof. vm_compute. repeat split. Qed.

(** C8 as stated fails when the ledger file cannot be written. The transfer of
    scenario D is signed and its token is still owned by the sender; when
    the write of the ledger file raises, [sync_with_ledger] returns false
    and the transfer is failed, not synced. The token has moved and the
    entry is in the ledger in memory. *)
Definition scenario_D_unwritten : bool * System :=
  OfflineManager.sync_with_ledger "O1" "2025-01-02T09:30:00"
    (Some "[Errno 28] No space left on device") scenario_D_signed.

Lemma sync_with_ledger_write_raises :
  (OfflineTransaction.status <$> offline_transactions scenario_D_signed !! "O1")
  = Some OFF_SIGNED
  /\ owner_of scenario_D_signed "T1" = Some "W1"
  /\ (OfflineTransaction.voucher_id <$> offline_transactions scenario_D_signed !! "O1")
     = Some None
  /\ fst scenario_D_unwritten = false
  /\ (OfflineTransaction.status <$> offline_transactions (snd scenario_D_unwritten) !! "O1")
     = Some OFF_FAILED
  /\ (OfflineTransaction.synced_timestamp
        <$> offline_transactions (snd scenario_D_unwritten) !! "O1")
     = Some None
  /\ owner_of (snd scenario_D_unwritten) "T1" = Some "W2"
  /\ entry_counter (snd scenario_D_unwritten) = 1%N
  /\ map (fun kv => (LedgerEntry.transaction_id kv.2, LedgerEntry.metadata_status kv.2))
         (map_to_list (entries (snd scenario_D_unwritten)))
     = [("O1", "completed")].
Proof. vm_compute. repeat split. Qed.

(** The gate of [sync_with_ledger]: an unknown offline id, or a transfer
    whose status is not signed, is refused and nothing changes. *)
Lemma sync_with_ledger_gate offline_id now dk s :
  match offline_transactions s !! offline_id with
  | Some offline_tx =>
      OfflineTransaction.status offline_tx <> OFF_SIGNED ->
      OfflineManager.sync_with_ledger offline_id now dk s = (false, s)
  | None => OfflineManager.sync_with_ledger offline_id now dk s = (false, s)
  end.
Proof.
  unfold OfflineManager.sync_with_ledger.
  destruct (offline_transactions s !! offline_id) as [o|]; [|reflexivity].
  intros Hst. destruct (OfflineTransaction.status o); try reflexivity. congruence.
Qed.

(** A digest is never the empty string. *)
Lemma round_length st kw : length st = 8%nat -> length (SHA256.round st kw) = 8%nat.
Proof.
  intros H. do 9 (destruct st as [|? st]; try discriminate H). reflexivity.
Qed.

Lemma rounds_length kws : forall st,
  length st = 8%nat -> length (fold_left SHA256.round kws st) = 8%nat.
Proof.
  induction kws as [|kw kws IH]; intros st H; simpl; [exact H|].
  apply IH, round_length, H.
Qed.

Lemma compress_length h block : length h = 8%nat -> length (SHA256.compress h block) = 8%nat.
Proof.
  intros H. unfold SHA256.compress.
  rewrite length_map, length_combine, rounds_length by exact H. rewrite H. reflexivity.
Qed.

Lemma compress_all_length bs : forall h,
  length h = 8%nat -> length (fold_left SHA256.compress bs h) = 8%nat.
Proof.
  induction bs as [|b bs IH]; intros h H; simpl; [exact H|].
  apply IH, compress_length, H.
Qed.

Lemma hexdigest_truthy (m : string) : truthy (SHA256.hexdigest m) = true.
Proof.
  unfold SHA256.hexdigest.
  match goal with
  | |- context [fold_left SHA256.compress ?bs SHA256.H0] =>
      pose proof (compress_all_length bs SHA256.H0 eq_refl) as H;
      destruct (fold_left SHA256.compress bs SHA256.H0) as [|w h]; [discriminate H|]
  end.
  destruct h as [|w' h]; [discriminate H|]. reflexivity.
Qed.

(** A signature that verifies is accepted whatever the status of the
    transfer is, and with both signatures present the status becomes
    signed. *)
Lemma sign_offline_transaction_any_status offline_id s o W :
  offline_transactions s !! offline_id = Some o ->
  wallets s !! OfflineTransaction.sender_wallet_id o = Some W ->
  truthy_opt (OfflineTransaction.receiver_signature o) = true ->
  let sg := Wallet.sign_transaction W (OfflineManager.tx_data o) in
  let r := OfflineManager.sign_offline_transaction offline_id
             (OfflineTransaction.sender_wallet_id o) sg s in
  fst r = true
  /\ (OfflineTransaction.status <$> offline_transactions (snd r) !! offline_id)
     = Some OFF_SIGNED.
Proof.
  intros Ho HW Hrs. cbv zeta.
  unfold OfflineManager.sign_offline_transaction, OfflineManager._verify_offline_signature,
    WalletManager.get_wallet.
  rewrite Ho, HW, !String.eqb_refl. cbn.
  unfold Wallet.sign_transaction. rewrite hexdigest_truthy, Hrs. cbn.
  rewrite lookup_insert_eq. split; reflexivity.
Qed.

Definition scenario_D_resigned : bool * System :=
  let s := snd scenario_D in
  OfflineManager.sign_offline_transaction "O1" "W1" (signature_of s "O1" "W1") s.

(** C7, evaluated on the code. The gate of [sync_with_ledger] is as
    claimed: on an unknown id or on a transfer whose status is not signed
    it returns false and the state is unchanged. The state machine is not:
    [sign_offline_transaction] does not look at the status, so presenting
    the sender's signature again moves the synced transfer of scenario D
    back to status signed (its sync timestamp still set). *)
Theorem sign_offline_transaction_reopens_synced :
  (forall s offline_id now disk offline_tx,
     offline_transactions s !! offline_id = Some offline_tx ->
     OfflineTransaction.status offline_tx <> OFF_SIGNED ->
     OfflineManager.sync_with_ledger offline_id now disk s = (false, s))
  /\ (forall s offline_id now disk,
        offline_transactions s !! offline_id = None ->
        OfflineManager.sync_with_ledger offline_id now disk s = (false, s))
  /\ ((OfflineTransaction.status <$> offline_transactions (snd scenario_D) !! "O1")
      = Some OFF_SYNCED
      /\ fst scenario_D_resigned = true
      /\ (OfflineTransaction.status <$> offline_transactions (snd scenario_D_resigned) !! "O1")
         = Some OFF_SIGNED
      /\ (OfflineTransaction.synced_timestamp
            <$> offline_transactions (snd scenario_D_resigned) !! "O1")
         = Some (Some "2025-01-02T09:30:00")).
Proof.
  split; [|split].
  - intros s offline_id now dk o Ho Hst.
    pose proof (sync_with_ledger_gate offline_id now dk s) as G. rewrite Ho in G. exact (G Hst).
  - intros s offline_id now dk Ho.
    pose proof (sync_with_ledger_gate offline_id now dk s) as G. rewrite Ho in G. exact G.
  - vm_compute. repeat split.
Qed.

(** What the reopened transfer allows: once the receiver has sent the
    token back, the old offline transfer settles a second time, and the
    ledger holds two entries for the same offline id. *)
Definition offline_replay : bool * System :=
  let s := snd scenario_D_resigned in
  let s := snd (TransactionEngine.execute_transfer "W2" "W1" "T1" None "X9"
                  "2025-01-03T10:00:00" None s) in
  OfflineManager.sync_with_ledger "O1" "2025-01-04T08:00:00" None s.

Example offline_replay_settles_twice :
  fst offline_replay = true
  /\ owner_of (snd offline_replay) "T1" = Some "W2"
  /\ length (LedgerManager.get_entries_by_transaction "O1" (snd offline_replay)) = 2%nat.
Proof. vm_compute. repeat split. Qed.

(** A failed transfer is reopened in the same way: the sender spends the
    token online before the sync, the sync fails, and the signature
    presented again makes the transfer signed. *)
Definition offline_failed : bool * System :=
  let s := scenario_D_signed in
  let s := snd (TransactionEngine.execute_transfer "W1" "W2" "T1" None "X9"
                  "2025-01-01T18:00:00" None s) in
  OfflineManager.sync_with_ledger "O1" "2025-01-02T09:30:00" None s.

Example offline_failed_then_signed :
  fst offline_failed = false
  /\ (OfflineTransaction.status <$> offline_transactions (snd offline_failed) !! "O1")
     = Some OFF_FAILED
  /\ (OfflineTransaction.status
        <$> offline_transactions
              (snd (OfflineManager.sign_offline_transaction "O1" "W1"
                      (signature_of (snd offline_failed) "O1" "W1") (snd offline_failed)))
            !! "O1")
     = Some OFF_SIGNED.
Proof. vm_compute. repeat split. Qed.

(** ** Compliance on the two paths (transaction.py, offline.py) *)

(** The online path scores the transfer, and records in the ledger what
    the check found. *)
Lemma execute_transfer_scored a b t v x now dk s tx s' :
  TransactionEngine.execute_transfer a b t v x now dk s = (Ok tx, s') ->
  exists token is_anonymous cr s1 e,
    ComplianceManager.check_transaction (new_transaction a b t v x now is_anonymous)
                                        token now s = (cr, s1)
    /\ Transaction.aml_flagged tx
       = match ComplianceResult.status cr with FLAGGED => true | _ => false end
    /\ Transaction.is_anonymous tx = is_anonymous
    /\ aml_registry s' = aml_registry s1
    /\ entries s' = <[pretty (entry_counter s) := e]> (entries s)
    /\ LedgerEntry.transaction_id e = x
    /\ LedgerEntry.entry_type e
       = (if Transaction.aml_flagged tx then AML_FLAGGED
          else if is_anonymous then ANONYMOUS else NON_ANONYMOUS).
Proof.
  unfold TransactionEngine.execute_transfer, TokenManager.get_token,
    WalletManager.get_wallet.
  destruct (negb (truthy a && truthy b && truthy t)); [discriminate|].
  destruct (String.eqb a b); [discriminate|].
  destruct (negb _); [discriminate|].
  destruct (tokens s !! t) as [token|] eqn:Htok; [|discriminate].
  destruct (negb (String.eqb _ a)); [discriminate|].
  match goal with
  | |- context [match ?anon with Ok _ => _ | Err _ => _ end] =>
      destruct anon as [is_anonymous|msg]
  end; [|discriminate].
  fold (new_transaction a b t v x now is_anonymous).
  destruct (ComplianceManager.check_transaction _ token now s) as [cr s1] eqn:E1.
  fold (checked_transaction (new_transaction a b t v x now is_anonymous) cr).
  destruct (TokenManager.transfer_token t a b s1) as [ok s2] eqn:E2.
  pose proof (check_transaction_frame (new_transaction a b t v x now is_anonymous)
                token now s) as F1. rewrite E1 in F1. cbn [snd] in F1.
  pose proof (transfer_token_frame t a b s1) as F2. rewrite E2 in F2. cbn [snd] in F2.
  destruct (negb ok); [discriminate|].
  match goal with
  | |- context [match ?e with (_, _) => _ end] => destruct e as [red s3] eqn:E3
  end.
  pose proof (redeem_if_present_frame _ _ _ _ _ _ E3) as F3.
  destruct (negb red); [discriminate|].
  unfold LedgerManager.store_transaction.
  destruct dk as [msg|]; cbn [LedgerManager._save_ledger fst snd]; [discriminate|].
  intros [= <- <-]. exists token, is_anonymous, cr, s1. eexists.
  split; [exact E1|].
  destruct F1 as (_ & _ & _ & F1e & F1c & _). destruct F2 as (_ & F2a & _ & F2e & F2c & _).
  destruct F3 as (_ & F3a & _ & F3e & F3c & _).
  cbn [aml_registry entries set_transactions set_ledger].
  rewrite F3a, F2a, F3e, F2e, F1e, F3c, F2c, F1c.
  repeat apply conj; try reflexivity.
  - destruct (wallets s3 !! a); reflexivity.
  - destruct (wallets s3 !! a); unfold new_transaction, Transaction.post_init; reflexivity.
  - cbn. destruct (wallets s3 !! a); reflexivity.
  - cbn. destruct (wallets s3 !! a); unfold new_transaction, Transaction.post_init;
      reflexivity.
Qed.

(** The offline path never touches the compliance manager. *)
Lemma sync_with_ledger_no_compliance offline_id now dk s :
  aml_registry (snd (OfflineManager.sync_with_ledger offline_id now dk s)) = aml_registry s
  /\ authority_contacted (snd (OfflineManager.sync_with_ledger offline_id now dk s))
     = authority_contacted s.
Proof.
  unfold OfflineManager.sync_with_ledger.
  destruct (offline_transactions s !! offline_id) as [otx|]; [|split; reflexivity].
  destruct (negb _); [split; reflexivity|].
  destruct (TokenManager.transfer_token _ _ _ s) as [ok s1] eqn:E1.
  pose proof (transfer_token_frame (OfflineTransaction.token_id otx)
                (OfflineTransaction.sender_wallet_id otx)
                (OfflineTransaction.receiver_wallet_id otx) s) as F1.
  rewrite E1 in F1. cbn [snd] in F1. destruct F1 as (_ & F1a & F1c & _).
  destruct (negb ok); [split; assumption|].
  match goal with
  | |- context [match ?e with (_, _) => _ end] => destruct e as [red s2] eqn:E2
  end.
  pose proof (redeem_if_present_frame _ _ _ _ _ _ E2) as (_ & F2a & F2c & _).
  destruct (negb red); [cbn; split; congruence|].
  pose proof (store_transaction_frame (OfflineManager.MockTransaction otx) now dk s2) as F3.
  destruct (LedgerManager.store_transaction _ _ _ _) as [[eid|msg] s3];
    cbn [snd] in F3; destruct F3 as (_ & _ & _ & F3a & F3c & _); cbn; split; congruence.
Qed.

(** The offline transfer of a token of value 150, without a voucher. *)
Definition offline_150 : bool * System :=
  OfflineManager.sync_with_ledger "O1" "2025-01-02T09:30:00" None (offline_signed 150).

(** C1, evaluated on the code. The online path is as claimed: a completed
    [execute_transfer] was scored by [check_transaction] before its ledger
    entry was written, the registry is the one the check left, and the
    entry carries the flag. The offline path is not: [sync_with_ledger]
    never changes the AML registry. The offline transfer of a token of
    value 150 without a voucher reaches status synced with an empty
    registry and a ledger entry of type non-anonymous, while the same
    transfer made online (scenario B) is flagged, escalated and recorded as
    AML-flagged. *)
Theorem sync_with_ledger_skips_compliance :
  (forall a b t v x now disk s tx s',
     TransactionEngine.execute_transfer a b t v x now disk s = (Ok tx, s') ->
     exists token is_anonymous cr s1 e,
       ComplianceManager.check_transaction (new_transaction a b t v x now is_anonymous)
                                           token now s = (cr, s1)
       /\ Transaction.aml_flagged tx
          = match ComplianceResult.status cr with FLAGGED => true | _ => false end
       /\ Transaction.is_anonymous tx = is_anonymous
       /\ aml_registry s' = aml_registry s1
       /\ entries s' = <[pretty (entry_counter s) := e]> (entries s)
       /\ LedgerEntry.transaction_id e = x
       /\ LedgerEntry.entry_type e
          = (if Transaction.aml_flagged tx then AML_FLAGGED
             else if is_anonymous then ANONYMOUS else NON_ANONYMOUS))
  /\ (forall offline_id now disk s,
        aml_registry (snd (OfflineManager.sync_with_ledger offline_id now disk s))
        = aml_registry s)
  /\ (fst offline_150 = true
      /\ (OfflineTransaction.status <$> offline_transactions (snd offline_150) !! "O1")
         = Some OFF_SYNCED
      /\ aml_registry (snd offline_150) = []
      /\ map (fun kv => (LedgerEntry.transaction_id kv.2, LedgerEntry.value kv.2,
                         LedgerEntry.entry_type kv.2, LedgerEntry.metadata_aml_reason kv.2))
             (map_to_list (entries (snd offline_150)))
         = [("O1", 150%Z, NON_ANONYMOUS, None)]
      /\ map AMLEntry.escalated (aml_registry (snd scenario_B)) = [true]
      /\ map (fun kv => (LedgerEntry.transaction_id kv.2, LedgerEntry.value kv.2,
                         LedgerEntry.entry_type kv.2))
             (map_to_list (entries (snd scenario_B)))
         = [("X1", 150%Z, AML_FLAGGED)]).
Proof.
  split; [|split].
  - intros a b t v x now dk s tx s'. apply execute_transfer_scored.
  - intros offline_id now dk s. apply sync_with_ledger_no_compliance.
  - vm_compute. repeat split.
Qed.

(** ** Signature verification (transaction.py, wallet.py) *)

Lemma append_assoc (a b c : string) : (a +:+ b) +:+ c = a +:+ (b +:+ c).
Proof.
  induction a as [|x a IH]; [reflexivity|].
  change (String x ((a +:+ b) +:+ c) = String x (a +:+ (b +:+ c))). f_equal. exact IH.
Qed.

Lemma append_cancel (a x y : string) : a +:+ x = a +:+ y -> x = y.
Proof.
  induction a as [|c a IH]; intros H; [exact H|].
  change (String c (a +:+ x) = String c (a +:+ y)) in H.
  injection H as H. apply IH, H.
Qed.

(** Two documents whose items agree up to an item where they part. *)
Lemma join_differ (a b : string) (ra rb : list string) (pre : list string) :
  (forall sa sb, a +:+ sa <> b +:+ sb) ->
  forall z z', join ", " (pre ++ a :: ra) +:+ z <> join ", " (pre ++ b :: rb) +:+ z'.
Proof.
  intros Hab. induction pre as [|p pre IH]; intros z z'.
  - simpl. destruct ra, rb; rewrite ?append_assoc; apply Hab.
  - change ((p :: pre) ++ a :: ra) with (p :: (pre ++ a :: ra)).
    change ((p :: pre) ++ b :: rb) with (p :: (pre ++ b :: rb)).
    assert (forall c rc, join ", " (p :: (pre ++ c :: rc))
                         = p +:+ ", " +:+ join ", " (pre ++ c :: rc)) as Hj.
    { intros c rc. simpl. destruct (pre ++ c :: rc) eqn:E; [|reflexivity].
      destruct pre; discriminate E. }
    rewrite !Hj, !append_assoc. intros H.
    apply append_cancel in H. apply append_cancel in H. exact (IH z z' H).
Qed.

Lemma sort_items_to_dict (x : Transaction.t) :
  Json.sort_items (Transaction.to_dict x)
  = [ ("aml_flagged", JBool (Transaction.aml_flagged x));
      ("aml_reason", jopt (Transaction.aml_reason x));
      ("is_anonymous", JBool (Transaction.is_anonymous x));
      ("receiver_wallet_id", JStr (Transaction.receiver_wallet_id x));
      ("sender_wallet_id", JStr (Transaction.sender_wallet_id x));
      ("signature", jopt (Transaction.signature x));
      ("status", JStr (TransactionStatus_value (Transaction.status x)));
      ("timestamp", jopt (Transaction.timestamp x));
      ("token_id", JStr (Transaction.token_id x));
      ("transaction_id", JStr (Transaction.transaction_id x));
      ("voucher_id", jopt (Transaction.voucher_id x)) ].
Proof. reflexivity. Qed.

Lemma sort_items_without_signature (x : Transaction.t) :
  Json.sort_items (dict_pop "signature" (Transaction.to_dict x))
  = [ ("aml_flagged", JBool (Transaction.aml_flagged x));
      ("aml_reason", jopt (Transaction.aml_reason x));
      ("is_anonymous", JBool (Transaction.is_anonymous x));
      ("receiver_wallet_id", JStr (Transaction.receiver_wallet_id x));
      ("sender_wallet_id", JStr (Transaction.sender_wallet_id x));
      ("status", JStr (TransactionStatus_value (Transaction.status x)));
      ("timestamp", jopt (Transaction.timestamp x));
      ("token_id", JStr (Transaction.token_id x));
      ("transaction_id", JStr (Transaction.transaction_id x));
      ("voucher_id", jopt (Transaction.voucher_id x)) ].
Proof. reflexivity. Qed.

Lemma item_signature_status (v w : jvalue) (sa sb : string) :
  Json.item ("signature", v) +:+ sa <> Json.item ("status", w) +:+ sb.
Proof.
  unfold Json.item. cbn [fst snd].
  replace (Json.quote "signature")
    with (String Json.dquote (String "s" (String "i" ("gnature" +:+ String Json.dquote ""))))
    by (vm_compute; reflexivity).
  replace (Json.quote "status")
    with (String Json.dquote (String "s" (String "t" ("atus" +:+ String Json.dquote ""))))
    by (vm_compute; reflexivity).
  cbn [String.append]. intros H. injection H as H. discriminate H.
Qed.

(** The document that is signed and the document that is verified are
    never the same text: the first has the key [signature] (with value
    null) where the second continues with the key [status]. *)
Lemma signed_and_verified_payloads_differ (x1 x2 : Transaction.t) (key : string) :
  Transaction.aml_flagged x2 = Transaction.aml_flagged x1 ->
  Transaction.aml_reason x2 = Transaction.aml_reason x1 ->
  Transaction.is_anonymous x2 = Transaction.is_anonymous x1 ->
  Transaction.receiver_wallet_id x2 = Transaction.receiver_wallet_id x1 ->
  Transaction.sender_wallet_id x2 = Transaction.sender_wallet_id x1 ->
  Json.dumps (Transaction.to_dict x1) +:+ key
  <> Json.dumps (dict_pop "signature" (Transaction.to_dict x2)) +:+ key.
Proof.
  intros E1 E2 E3 E4 E5. unfold Json.dumps.
  rewrite sort_items_to_dict, sort_items_without_signature, E1, E2, E3, E4, E5.
  cbn [map]. rewrite !append_assoc. intros H. apply append_cancel in H. revert H.
  set (pre := [Json.item ("aml_flagged", JBool (Transaction.aml_flagged x1));
               Json.item ("aml_reason", jopt (Transaction.aml_reason x1));
               Json.item ("is_anonymous", JBool (Transaction.is_anonymous x1));
               Json.item ("receiver_wallet_id", JStr (Transaction.receiver_wallet_id x1));
               Json.item ("sender_wallet_id", JStr (Transaction.sender_wallet_id x1))]).
  match goal with
  | |- join ", " (_ :: _ :: _ :: _ :: _ :: ?a :: ?ra) +:+ ?z
       = join ", " (_ :: _ :: _ :: _ :: _ :: ?b :: ?rb) +:+ ?z' -> False =>
      change (join ", " (pre ++ a :: ra) +:+ z <> join ", " (pre ++ b :: rb) +:+ z')
  end.
  apply join_differ. apply item_signature_status.
Qed.

(** C2, evaluated on the code. [execute_transfer] signs the dictionary of
    the transaction while its status is still pending and its signature
    still null; [verify_transaction_signature] recomputes the digest over
    the dictionary of the stored transaction, whose status is completed,
    without the signature key. The two texts always differ, so for a
    transfer returned by [execute_transfer] the verification can only
    succeed on a collision of SHA-256; on the completed transfer of
    scenario A it returns false. *)
Theorem verify_transaction_signature_fails :
  (forall a b t v x now disk s tx s',
     TransactionEngine.execute_transfer a b t v x now disk s = (Ok tx, s') ->
     TransactionEngine.verify_transaction_signature x s' = true ->
     exists m1 m2 : string,
       m1 <> m2 /\ SHA256.hexdigest m1 = SHA256.hexdigest m2)
  /\ (match fst scenario_A with
      | Ok tx =>
          Transaction.status tx = COMPLETED
          /\ TransactionEngine.get_transaction "X1" (snd scenario_A) = Some tx
      | Err _ => False
      end
      /\ TransactionEngine.verify_transaction_signature "X1" (snd scenario_A) = false).
Proof.
  split.
  - intros a b t v x now dk s tx s' E Hv.
    apply execute_transfer_cases in E as (token & anon & cr & s1 & _ & _ & Htx & Hstore).
    unfold TransactionEngine.verify_transaction_signature,
      TransactionEngine.get_transaction, WalletManager.get_wallet in Hv.
    rewrite Hstore, lookup_insert_eq in Hv.
    set (x1 := checked_transaction (new_transaction a b t v x now anon) cr) in *.
    assert (Transaction.sender_wallet_id tx = a) as Hsender.
    { rewrite Htx. destruct (wallets s' !! a); unfold x1, new_transaction,
        Transaction.post_init; reflexivity. }
    rewrite Hsender in Hv.
    destruct (wallets s' !! a) as [W|] eqn:HW.
    2:{ rewrite Htx in Hv. cbn in Hv. unfold x1, new_transaction, Transaction.post_init in Hv.
        cbn in Hv. discriminate Hv. }
    assert (Transaction.signature tx
            = Some (Wallet.sign_transaction W (Transaction.to_dict x1))) as Hsig
      by (rewrite Htx; reflexivity).
    rewrite Hsig in Hv. unfold Wallet.sign_transaction in Hv.
    rewrite hexdigest_truthy in Hv. cbn [negb] in Hv.
    unfold Wallet.verify_signature in Hv. apply String.eqb_eq in Hv.
    exists (Json.dumps (Transaction.to_dict x1) +:+ Wallet.private_key W),
           (Json.dumps (dict_pop "signature" (Transaction.to_dict tx))
            +:+ Wallet.private_key W).
    split; [|exact Hv].
    apply signed_and_verified_payloads_differ; rewrite Htx; reflexivity.
  - vm_compute. repeat split.
Qed.

(** The two digests of scenario A: the signature stored with the
    transaction, and the one that the verification computes. *)
Example scenario_A_digests :
  match fst scenario_A, wallets (snd scenario_A) !! "W1" with
  | Ok tx, Some W =>
      Transaction.signature tx
      = Some "19e9b185aa3fd194b970e0d2e2576211686ba7d619a9a588f70192342889023e"
      /\ SHA256.hexdigest
           (Json.dumps (dict_pop "signature" (Transaction.to_dict tx))
            +:+ Wallet.private_key W)
         = "5591afa0c0f0ef7cc1460f47288e6eb3d11f8d63d11223e1a0f2cee694a59f98"
  | _, _ => False
  end.
Proof. vm_compute. split; reflexivity. Qed.

(** ** Further scenarios of the specification *)

(** Scenario C: a voucher of limit 100 and a token of value 50 issued to
    W1; the transfer with the voucher is anonymous, uses the voucher,
    scores 0.0 and is approved. *)
Definition scenario_C : Result Transaction.t * System :=
  let s := init in
  let s := snd (WalletManager.create_wallet "W1" "key-of-W1" s) in
  let s := snd (WalletManager.create_wallet "W2" "key-of-W2" s) in
  let s := snd (VoucherManager.issue_voucher "W1" 100 "V1" "2025-01-01T11:00:00" s) in
  let s := snd (TokenManager.issue_token 50 "W1" "T1" s) in
  TransactionEngine.execute_transfer "W1" "W2" "T1" (Some "V1") "X1"
    "2025-01-01T12:00:00" None s.

Example scenario_C_anonymous :
  match fst scenario_C with
  | Ok x =>
      Transaction.status x = COMPLETED
      /\ Transaction.is_anonymous x = true
      /\ Transaction.aml_flagged x = false
      /\ Transaction.aml_reason x = None
  | Err _ => False
  end
  /\ (Voucher.is_used <$> vouchers (snd scenario_C) !! "V1") = Some true
  /\ (Voucher.used_in_transaction <$> vouchers (snd scenario_C) !! "V1") = Some (Some "X1")
  /\ (Wallet.voucher_balance <$> wallets (snd scenario_C) !! "W1") = Some 0%Z
  /\ aml_registry (snd scenario_C) = []
  /\ map (fun kv => LedgerEntry.entry_type kv.2) (map_to_list (entries (snd scenario_C)))
     = [ANONYMOUS].
Proof. vm_compute. repeat split. Qed.

(** An offline transfer with a voucher: the sync redeems the voucher for
    the offline id. *)
Definition offline_with_voucher : bool * System :=
  let s := init in
  let s := snd (WalletManager.create_wallet "W1" "key-of-W1" s) in
  let s := snd (WalletManager.create_wallet "W2" "key-of-W2" s) in
  let s := snd (VoucherManager.issue_voucher "W1" 100 "V1" "2025-01-01T11:00:00" s) in
  let s := snd (TokenManager.issue_token 25 "W1" "T1" s) in
  let s := snd (OfflineManager.create_offline_transaction "W1" "W2" "T1" (Some "V1") "O1"
                  "2025-01-01T12:00:00" s) in
  let s := snd (OfflineManager.sign_offline_transaction "O1" "W1"
                  (signature_of s "O1" "W1") s) in
  let s := snd (OfflineManager.sign_offline_transaction "O1" "W2"
                  (signature_of s "O1" "W2") s) in
  OfflineManager.sync_with_ledger "O1" "2025-01-02T09:30:00" None s.

Example offline_with_voucher_synced :
  fst offline_with_voucher = true
  /\ (OfflineTransaction.status <$> offline_transactions (snd offline_with_voucher) !! "O1")
     = Some OFF_SYNCED
  /\ (Voucher.used_in_transaction <$> vouchers (snd offline_with_voucher) !! "V1")
     = Some (Some "O1")
  /\ (Wallet.voucher_balance <$> wallets (snd offline_with_voucher) !! "W1") = Some 0%Z
  /\ owner_of (snd offline_with_voucher) "T1" = Some "W2"
  /\ map (fun kv => (LedgerEntry.transaction_id kv.2, LedgerEntry.timestamp kv.2,
                     LedgerEntry.entry_type kv.2))
         (map_to_list (entries (snd offline_with_voucher)))
     = [("O1", "2025-01-01T12:00:00", ANONYMOUS)].
Proof. vm_compute. repeat split. Qed.

(** ** Validation of a transfer request (transaction.py, offline.py) *)

(** What [execute_transfer] and [create_offline_transaction] check before
    they do anything. *)
Definition transfer_valid (a b t : string) (v : option string) (s : System) : Prop :=
  a <> "" /\ b <> "" /\ t <> "" /\ a <> b
  /\ is_Some (wallets s !! a) /\ is_Some (wallets s !! b)
  /\ exists token,
       tokens s !! t = Some token
       /\ Token.owner_wallet_id token = a
       /\ forall vid,
            v = Some vid -> vid <> "" ->
            exists V,
              vouchers s !! vid = Some V
              /\ Voucher.issued_to_wallet_id V = a
              /\ Voucher.can_be_used_for_value V (Token.value token) = true.

Lemma truthy_false_empty (a : string) : truthy a = false -> a = "".
Proof. destruct a; [reflexivity | discriminate]. Qed.

Lemma nonempty_truthy (a : string) : a <> "" -> truthy a = true.
Proof. destruct a; [congruence | reflexivity]. Qed.

(** The voucher check shared by both calls. *)
Definition voucher_check (a : string) (v : option string) (token : Token.t) (s : System)
  : Result bool :=
  match v with
  | Some vid =>
      if truthy vid then
        match VoucherManager.get_voucher vid s with
        | None => Err ("Voucher " +:+ vid +:+ " does not exist")
        | Some voucher =>
            if negb (String.eqb (Voucher.issued_to_wallet_id voucher) a)
            then Err ("Voucher " +:+ vid +:+ " does not belong to sender")
            else if negb (Voucher.can_be_used_for_value voucher (Token.value token))
            then Err ("Voucher " +:+ vid +:+ " cannot be used for value €"
                      +:+ pretty (Token.value token))
            else Ok true
        end
      else Ok false
  | None => Ok false
  end.

Lemma voucher_check_ok a v token s anon :
  voucher_check a v token s = Ok anon ->
  anon = truthy_opt v
  /\ forall vid,
       v = Some vid -> vid <> "" ->
       exists V,
         vouchers s !! vid = Some V
         /\ Voucher.issued_to_wallet_id V = a
         /\ Voucher.can_be_used_for_value V (Token.value token) = true.
Proof.
  unfold voucher_check, VoucherManager.get_voucher.
  destruct v as [vid|]; cbn.
  2:{ intros [= <-]. split; [reflexivity|]. intros vid [=]. }
  destruct (truthy vid) eqn:Hvid.
  2:{ intros [= <-]. split; [reflexivity|]. intros vid' [= <-] Hne.
      apply truthy_false_empty in Hvid. contradiction. }
  destruct (vouchers s !! vid) as [V|] eqn:HV; [|discriminate].
  destruct (String.eqb_spec (Voucher.issued_to_wallet_id V) a) as [Hto|]; cbn;
    [|discriminate].
  destruct (Voucher.can_be_used_for_value V (Token.value token)) eqn:Hc; cbn;
    [|discriminate].
  intros [= <-]. split; [reflexivity|]. intros vid' [= <-] _. eauto.
Qed.

Lemma voucher_check_err a v token s msg vid V :
  voucher_check a v token s = Err msg ->
  v = Some vid -> vid <> "" ->
  vouchers s !! vid = Some V ->
  Voucher.issued_to_wallet_id V = a ->
  Voucher.can_be_used_for_value V (Token.value token) = true ->
  False.
Proof.
  unfold voucher_check, VoucherManager.get_voucher.
  intros E -> Hne HV Hto Hc. rewrite (nonempty_truthy vid Hne), HV, Hto, String.eqb_refl, Hc in E.
  discriminate E.
Qed.

(** A request is valid, or both calls refuse it and return the state
    they were given. *)
Lemma transfer_validation a b t v x now dk s :
  transfer_valid a b t v s
  \/ ((exists msg, TransactionEngine.execute_transfer a b t v x now dk s = (Err msg, s))
      /\ (exists msg,
            OfflineManager.create_offline_transaction a b t v x now s = (Err msg, s))).
Proof.
  unfold TransactionEngine.execute_transfer, OfflineManager.create_offline_transaction,
    TokenManager.get_token, WalletManager.wallet_exists.
  fold (VoucherManager.get_voucher).
  destruct (truthy a) eqn:Ha; cbn; [|right; split; eauto].
  destruct (truthy b) eqn:Hb; cbn; [|right; split; eauto].
  destruct (truthy t) eqn:Ht; cbn; [|right; split; eauto].
  destruct (String.eqb_spec a b) as [|Hab]; [right; split; eauto|].
  destruct (wallets s !! a) as [A|] eqn:HA; cbn; [|right; split; eauto].
  destruct (wallets s !! b) as [B|] eqn:HB; cbn; [|right; split; eauto].
  destruct (tokens s !! t) as [token|] eqn:Htok; [|right; split; eauto].
  destruct (String.eqb_spec (Token.owner_wallet_id token) a) as [Hown|]; cbn;
    [|right; split; eauto].
  fold (voucher_check a v token s).
  destruct (voucher_check a v token s) as [anon|msg] eqn:Hvc; [|right; split; eauto].
  left. apply voucher_check_ok in Hvc as [_ Hv].
  repeat apply conj; try (apply truthy_nonempty; assumption); eauto.
Qed.

(** The redemption step of both settlement paths. *)
Definition redeem_if_present (v : option string) (x : string) (n : Z) (s : System)
  : bool * System :=
  match v with
  | Some vid => if truthy vid then VoucherManager.redeem_voucher vid x n s else (true, s)
  | None => (true, s)
  end.

Lemma voucher_check_valid a b t v s token :
  transfer_valid a b t v s -> tokens s !! t = Some token ->
  voucher_check a v token s = Ok (truthy_opt v).
Proof.
  intros (_ & _ & _ & _ & _ & _ & token' & Htok' & _ & Hv) Htok.
  assert (token' = token) as -> by congruence.
  unfold voucher_check, VoucherManager.get_voucher. destruct v as [vid|]; [|reflexivity].
  cbn. destruct (truthy vid) eqn:Hvid; [|reflexivity].
  destruct (Hv vid eq_refl (truthy_nonempty vid Hvid)) as (V & HV & Hto & Hc).
  rewrite HV, Hto, String.eqb_refl, Hc. reflexivity.
Qed.

(** The result of [execute_transfer] on a valid request, step by step:
    the compliance check, the move of the token, the redemption, the
    signature, the ledger entry, and, when the ledger file was written,
    the stored transaction. *)
Lemma execute_transfer_valid_eq a b t v x now dk s token :
  transfer_valid a b t v s -> tokens s !! t = Some token ->
  let x0 := new_transaction a b t v x now (truthy_opt v) in
  let r1 := ComplianceManager.check_transaction x0 token now s in
  let r2 := TokenManager.transfer_token t a b (snd r1) in
  let r3 := redeem_if_present v x (Token.value token) (snd r2) in
  let tx := Transaction.set_status COMPLETED
              (signed_transaction (wallets (snd r3) !! a)
                 (checked_transaction x0 (fst r1))) in
  let s4 := snd (LedgerManager.store_transaction tx now dk (snd r3)) in
  TransactionEngine.execute_transfer a b t v x now dk s
  = match dk with
    | None => (Ok tx, set_transactions (<[x := tx]> (transactions s4)) s4)
    | Some msg => (Err msg, s4)
    end
  /\ fst r2 = true /\ fst r3 = true.
Proof.
  intros Hvalid Htok. cbv zeta.
  pose proof (voucher_check_valid a b t v s token Hvalid Htok) as Hvc.
  destruct Hvalid as (Ha & Hb & Ht & Hab & [A HA] & [B HB] & token' & Htok' & Hown & Hv).
  assert (token' = token) as -> by congruence.
  set (x0 := new_transaction a b t v x now (truthy_opt v)).
  destruct (ComplianceManager.check_transaction x0 token now s) as [cr s1] eqn:E1.
  pose proof (check_transaction_frame x0 token now s) as F1. rewrite E1 in F1.
  cbn [fst snd] in *. destruct F1 as (F1w & F1t & F1v & _).
  assert (fst (TokenManager.transfer_token t a b s1) = true) as Hok.
  { apply (transfer_token_succeeds t a b s1 token); rewrite ?F1t, ?F1w; eauto. }
  destruct (TokenManager.transfer_token t a b s1) as [ok s2] eqn:E2.
  cbn [fst snd] in *. subst ok.
  pose proof (transfer_token_frame t a b s1) as F2. rewrite E2 in F2. cbn [snd] in F2.
  destruct F2 as (F2v & _).
  assert (fst (redeem_if_present v x (Token.value token) s2) = true) as Hred.
  { unfold redeem_if_present. destruct v as [vid|]; [|reflexivity].
    destruct (truthy vid) eqn:Hvid; [|reflexivity].
    destruct (Hv vid eq_refl (truthy_nonempty vid Hvid)) as (V & HV & _ & Hc).
    apply (redeem_voucher_succeeds vid x _ s2 V); [rewrite F2v, F1v; exact HV | exact Hc]. }
  destruct (redeem_if_present v x (Token.value token) s2) as [red s3] eqn:E3.
  cbn [fst snd] in *. subst red.
  split; [|split; reflexivity].
  unfold TransactionEngine.execute_transfer, TokenManager.get_token,
    WalletManager.wallet_exists, WalletManager.get_wallet.
  rewrite (nonempty_truthy a Ha), (nonempty_truthy b Hb), (nonempty_truthy t Ht).
  cbn [andb negb]. destruct (String.eqb_spec a b) as [|_]; [contradiction|].
  rewrite HA, HB, Htok, Hown, String.eqb_refl. cbn [andb negb].
  fold (voucher_check a v token s). rewrite Hvc.
  fold (new_transaction a b t v x now (truthy_opt v)). fold x0.
  rewrite E1, E2. cbn [negb].
  fold (redeem_if_present v x (Token.value token) s2). rewrite E3. cbn [negb].
  fold (checked_transaction x0 cr).
  fold (signed_transaction (wallets s3 !! a) (checked_transaction x0 cr)).
  unfold LedgerManager.store_transaction. destruct dk as [msg|]; reflexivity.
Qed.

Lemma rtc_wallets_mono s s' w :
  rtc prim s s' -> is_Some (wallets s !! w) -> is_Some (wallets s' !! w).
Proof.
  intros H. apply (prims_invariant (fun st => is_Some (wallets st !! w))); [|exact H].
  intros st st' Hst Hp. eapply prim_wallets_mono; eassumption.
Qed.

(** ** Flagging does not block (compliance.py, transaction.py) *)

(** An entry of the registry: it concerns a value above the threshold,
    and it scored 0.7 and was not escalated, or scored 1.0 and was
    escalated and notified. *)
Definition aml_entry_ok (e : AMLEntry.t) : Prop :=
  (ComplianceManager.high_value_threshold < AMLEntry.amount e)%Z
  /\ ((AMLEntry.risk_score e = 0.7%float
       /\ AMLEntry.escalated e = false /\ AMLEntry.authority_notified e = false)
      \/ (AMLEntry.risk_score e = 1.0%float
          /\ AMLEntry.escalated e = true /\ AMLEntry.authority_notified e = true)).

(** What a check does to the registry: nothing, or one entry more, for
    the checked transaction. *)
Lemma check_transaction_registry x tk now s :
  let r := ComplianceManager.check_transaction x tk now s in
  let s' := snd r in
  ((Token.value tk <= ComplianceManager.high_value_threshold)%Z
   /\ ComplianceResult.status (fst r) = APPROVED
   /\ aml_registry s' = aml_registry s /\ authority_contacted s' = authority_contacted s)
  \/ exists e,
       ComplianceResult.status (fst r) = FLAGGED
       /\ aml_registry s' = aml_registry s ++ [e]
       /\ aml_entry_ok e
       /\ AMLEntry.transaction_id e = Transaction.transaction_id x
       /\ AMLEntry.sender_wallet_id e = Transaction.sender_wallet_id x
       /\ AMLEntry.receiver_wallet_id e = Transaction.receiver_wallet_id x
       /\ AMLEntry.token_id e = Transaction.token_id x
       /\ AMLEntry.amount e = Token.value tk
       /\ authority_contacted s' = authority_contacted s || AMLEntry.escalated e.
Proof.
  cbv zeta. unfold ComplianceManager.check_transaction, aml_entry_ok.
  destruct (Z.ltb_spec ComplianceManager.high_value_threshold (Token.value tk)) as [Hv|Hv];
    destruct (Transaction.is_anonymous x); cbn.
  - right. eexists. split; [reflexivity|]. split; [reflexivity|]. cbn.
    rewrite orb_false_r.
    repeat apply conj; try reflexivity; [exact Hv | left; repeat split].
  - right. unfold ComplianceManager._create_aml_entry, ComplianceManager._escalate_to_authority.
    cbn. rewrite !alter_last. eexists. split; [reflexivity|]. split; [reflexivity|]. cbn.
    rewrite orb_true_r.
    repeat apply conj; try reflexivity; [exact Hv | right; repeat split].
  - left. repeat split; try reflexivity; exact Hv.
  - left. repeat split; try reflexivity; exact Hv.
Qed.

(** The fields of the transaction that [execute_transfer] returns. *)
Lemma transaction_fields a b t v x now anon cr W :
  let tx := Transaction.set_status COMPLETED
              (signed_transaction W (checked_transaction
                                       (new_transaction a b t v x now anon) cr)) in
  Transaction.transaction_id tx = x
  /\ Transaction.sender_wallet_id tx = a
  /\ Transaction.receiver_wallet_id tx = b
  /\ Transaction.token_id tx = t
  /\ Transaction.voucher_id tx = v
  /\ Transaction.is_anonymous tx = anon
  /\ Transaction.status tx = COMPLETED
  /\ Transaction.timestamp tx = Some now
  /\ Transaction.aml_flagged tx
     = match ComplianceResult.status cr with FLAGGED => true | _ => false end
  /\ Transaction.aml_reason tx = ComplianceResult.reason cr.
Proof. destruct W; cbn; repeat split. Qed.



(** * Further properties of the code *)

(** ** Outcomes of the manager calls *)

(** X1. [transfer_token] succeeds exactly when the token exists, is owned by
    the sender, and both wallets exist; otherwise it returns false and the
    state is the one it was given. *)
Theorem transfer_token_outcome (t a b : string) (s : System) :
  (fst (TokenManager.transfer_token t a b s) = true
   <-> (exists token,
          tokens s !! t = Some token /\ Token.owner_wallet_id token = a)
       /\ is_Some (wallets s !! a) /\ is_Some (wallets s !! b))
  /\ (fst (TokenManager.transfer_token t a b s) = false ->
      snd (TokenManager.transfer_token t a b s) = s).
Proof.
  split.
  - split.
    + intros H. destruct (TokenManager.transfer_token t a b s) as [ok s'] eqn:E.
      cbn in H. subst ok.
      apply transfer_token_true in E as (T & HT & Ho & HA & HB & _).
      split; [exists T; split; assumption | split; assumption].
    + intros ((T & HT & Ho) & HA & HB). eapply transfer_token_succeeds; eassumption.
  - intros H. destruct (TokenManager.transfer_token t a b s) as [ok s'] eqn:E.
    cbn in H. subst ok. cbn. eapply transfer_token_false, E.
Qed.

(** X2. [issue_token] raises, and changes nothing, when the wallet is unknown
    or the value is not positive (or an id is empty); otherwise it stores
    the new token, owned by the wallet and issued by the ECB, and the
    token id is in the wallet's token set. *)
Theorem issue_token_outcome (value : Z) (w t : string) (s : System) :
  match TokenManager.issue_token value w t s with
  | (Ok token, s') =>
      is_Some (wallets s !! w) /\ (0 < value)%Z /\ t <> "" /\ w <> ""
      /\ token = Token.mk t value w "ECB" None
      /\ TokenManager.get_token t s' = Some token
      /\ (exists l, token_balance_of s' w = Some l /\ t ∈ l)
      /\ (forall t', t' <> t -> tokens s' !! t' = tokens s !! t')
  | (Err _, s') =>
      s' = s /\ (wallets s !! w = None \/ (value <= 0)%Z \/ t = "" \/ w = "")
  end.
Proof.
  unfold TokenManager.issue_token, WalletManager.wallet_exists, WalletManager.get_wallet,
    TokenManager.get_token, Token.post_init_ok.
  destruct (wallets s !! w) as [W|] eqn:HW; cbn; [|split; [reflexivity | left; reflexivity]].
  destruct t as [|c t']; cbn; [split; [reflexivity | right; right; left; reflexivity]|].
  destruct (Z.ltb_spec 0 value) as [Hv|Hv]; cbn;
    [|split; [reflexivity | right; left; exact Hv]].
  destruct w as [|d w']; cbn; [split; [reflexivity | right; right; right; reflexivity]|].
  rewrite HW. cbn. repeat apply conj.
  - eauto.
  - exact Hv.
  - discriminate.
  - discriminate.
  - reflexivity.
  - rewrite lookup_insert_eq. reflexivity.
  - unfold token_balance_of. cbn. rewrite lookup_insert_eq. cbn. eexists.
    split; [reflexivity|]. unfold Wallet.add_token.
    destruct (bool_decide _) eqn:Hin; cbn.
    + apply bool_decide_eq_true in Hin. exact Hin.
    + apply elem_of_app. right. apply list_elem_of_singleton. reflexivity.
  - intros t0 Hne. rewrite lookup_insert_ne by congruence. reflexivity.
Qed.

(** X3. [issue_voucher] raises, and changes nothing, when the wallet is
    unknown or the limit is not positive (or the id is empty); otherwise
    it stores an unused voucher for the wallet and the wallet's voucher
    count grows by one. The computed signature is never empty, so that
    check of [__post_init__] never fails. *)
Theorem issue_voucher_outcome (w : string) (limit : Z) (v now : string) (s : System) :
  match VoucherManager.issue_voucher w limit v now s with
  | (Ok voucher, s') =>
      (0 < limit)%Z /\ v <> ""
      /\ VoucherManager.get_voucher v s' = Some voucher
      /\ Voucher.voucher_id voucher = v
      /\ Voucher.value_limit voucher = limit
      /\ Voucher.issued_to_wallet_id voucher = w
      /\ Voucher.is_used voucher = false
      /\ Voucher.used_in_transaction voucher = None
      /\ (exists W,
            wallets s !! w = Some W
            /\ (Wallet.voucher_balance <$> wallets s' !! w)
               = Some (Wallet.voucher_balance W + 1)%Z)
      /\ (forall v', v' <> v -> vouchers s' !! v' = vouchers s !! v')
  | (Err _, s') =>
      s' = s /\ (wallets s !! w = None \/ (limit <= 0)%Z \/ v = "")
  end.
Proof.
  unfold VoucherManager.issue_voucher, WalletManager.wallet_exists,
    WalletManager.get_wallet, VoucherManager.get_voucher, Voucher.post_init_ok.
  destruct (wallets s !! w) as [W|] eqn:HW; cbn; [|split; [reflexivity | left; reflexivity]].
  destruct v as [|c v']; cbn; [split; [reflexivity | right; right; reflexivity]|].
  unfold VoucherManager._generate_aml_signature. rewrite hexdigest_truthy. cbn.
  destruct (Z.ltb_spec 0 limit) as [Hv|Hv]; cbn;
    [|split; [reflexivity | right; left; exact Hv]].
  rewrite HW. cbn. repeat apply conj; try reflexivity.
  - exact Hv.
  - discriminate.
  - rewrite lookup_insert_eq. reflexivity.
  - exists W. split; [reflexivity|]. rewrite lookup_insert_eq. reflexivity.
  - intros v0 Hne. rewrite lookup_insert_ne by congruence. reflexivity.
Qed.


(** X5. [create_offline_transaction] accepts exactly the requests that
    [execute_transfer] accepts. When it refuses, the state is the one it
    was given. When it accepts, the only change is the new record of the
    offline store: no token moves and no voucher is used; the record is
    pending, unsigned, and carries the value the token has at that
    moment. *)
Theorem create_offline_transaction_outcome (a b t : string) (v : option string)
  (x now : string) (s : System) :
  match OfflineManager.create_offline_transaction a b t v x now s with
  | (Ok otx, s') =>
      transfer_valid a b t v s
      /\ s' = set_offline_transactions (<[x := otx]> (offline_transactions s)) s
      /\ OfflineManager.get_offline_transaction x s' = Some otx
      /\ OfflineTransaction.offline_id otx = x
      /\ OfflineTransaction.sender_wallet_id otx = a
      /\ OfflineTransaction.receiver_wallet_id otx = b
      /\ OfflineTransaction.token_id otx = t
      /\ OfflineTransaction.voucher_id otx = v
      /\ OfflineTransaction.is_anonymous otx = truthy_opt v
      /\ OfflineTransaction.status otx = OFF_PENDING
      /\ OfflineTransaction.sender_signature otx = None
      /\ OfflineTransaction.receiver_signature otx = None
      /\ OfflineTransaction.created_timestamp otx = Some now
      /\ OfflineTransaction.synced_timestamp otx = None
      /\ (Token.value <$> tokens s !! t) = Some (OfflineTransaction.value otx)
  | (Err _, s') => s' = s /\ ~ transfer_valid a b t v s
  end.
Proof.
  destruct (transfer_validation a b t v x now None s) as [Hvalid|[_ [msg E]]].
  - pose proof Hvalid as (Ha & Hb & Ht & Hab & [A HA] & [B HB] & token & Htok & Hown & _).
    pose proof (voucher_check_valid a b t v s token Hvalid Htok) as Hvc.
    unfold OfflineManager.create_offline_transaction, TokenManager.get_token,
      WalletManager.wallet_exists.
    rewrite (nonempty_truthy a Ha), (nonempty_truthy b Hb), (nonempty_truthy t Ht).
    cbn [andb negb]. destruct (String.eqb_spec a b) as [|_]; [contradiction|].
    rewrite HA, HB, Htok, Hown, String.eqb_refl. cbn [andb negb].
    fold (voucher_check a v token s). rewrite Hvc.
    split; [exact Hvalid|].
    unfold OfflineManager.get_offline_transaction. cbn.
    rewrite lookup_insert_eq. repeat apply conj; reflexivity.
  - rewrite E. split; [reflexivity|]. intros Hvalid.
    pose proof Hvalid as (Ha & Hb & Ht & Hab & [A HA] & [B HB] & token & Htok & Hown & _).
    pose proof (voucher_check_valid a b t v s token Hvalid Htok) as Hvc.
    revert E.
    unfold OfflineManager.create_offline_transaction, TokenManager.get_token,
      WalletManager.wallet_exists.
    rewrite (nonempty_truthy a Ha), (nonempty_truthy b Hb), (nonempty_truthy t Ht).
    cbn [andb negb]. destruct (String.eqb_spec a b) as [|_]; [contradiction|].
    rewrite HA, HB, Htok, Hown, String.eqb_refl. cbn [andb negb].
    fold (voucher_check a v token s). rewrite Hvc. discriminate.
Qed.

(** X6. [sign_offline_transaction] returns true exactly when the offline
    transfer exists, the signing wallet exists and is its sender or its
    receiver, and the signature is the one that wallet computes over the
    data of the transfer. It does not look at the status of the transfer.
    When it returns false the state is the one it was given; when it
    returns true only the record of this transfer changes. *)
Theorem sign_offline_transaction_outcome (x w sg : string) (s : System) :
  (fst (OfflineManager.sign_offline_transaction x w sg s) = true
   <-> exists o W,
         offline_transactions s !! x = Some o
         /\ wallets s !! w = Some W
         /\ sg = Wallet.sign_transaction W (OfflineManager.tx_data o)
         /\ (w = OfflineTransaction.sender_wallet_id o
             \/ w = OfflineTransaction.receiver_wallet_id o))
  /\ (fst (OfflineManager.sign_offline_transaction x w sg s) = false ->
      snd (OfflineManager.sign_offline_transaction x w sg s) = s)
  /\ (forall x', x' <> x ->
        offline_transactions (snd (OfflineManager.sign_offline_transaction x w sg s)) !! x'
        = offline_transactions s !! x').
Proof.
  unfold OfflineManager.sign_offline_transaction, OfflineManager._verify_offline_signature,
    WalletManager.get_wallet.
  destruct (offline_transactions s !! x) as [o|] eqn:Ho; cbn.
  2:{ split; [|split; [reflexivity | reflexivity]].
      split; [discriminate | intros (o & W & [=] & _)]. }
  destruct (wallets s !! w) as [W|] eqn:HW; cbn.
  2:{ split; [|split; [reflexivity | reflexivity]].
      split; [discriminate | intros (o' & W & _ & [=] & _)]. }
  destruct (String.eqb_spec sg (Wallet.sign_transaction W (OfflineManager.tx_data o)))
    as [Hsg|Hsg]; cbn.
  2:{ split; [|split; [reflexivity | reflexivity]].
      split; [discriminate | intros (o' & W' & [= <-] & [= <-] & Hsg' & _); contradiction]. }
  destruct (String.eqb_spec w (OfflineTransaction.sender_wallet_id o)) as [Hs|Hs]; cbn.
  { split; [|split; [discriminate|]].
    - split; [intros _; exists o, W; auto | reflexivity].
    - intros x' Hne. rewrite lookup_insert_ne by congruence. reflexivity. }
  destruct (String.eqb_spec w (OfflineTransaction.receiver_wallet_id o)) as [Hr|Hr]; cbn.
  { split; [|split; [discriminate|]].
    - split; [intros _; exists o, W; auto | reflexivity].
    - intros x' Hne. rewrite lookup_insert_ne by congruence. reflexivity. }
  split; [|split; [reflexivity | reflexivity]].
  split; [discriminate | intros (o' & W' & [= <-] & _ & _ & [?|?]); contradiction].
Qed.

(** X7. [create_wallet] derives the public key from the private key, stores
    the wallet under its id with no token and no voucher, and changes no
    other wallet. It raises, and changes nothing, exactly when the id or
    the private key is empty: the public key, a digest, never is. *)
Theorem create_wallet_outcome (w k : string) (s : System) :
  match WalletManager.create_wallet w k s with
  | (Ok wallet, s') =>
      w <> "" /\ k <> ""
      /\ wallet = Wallet.mk w (SHA256.hexdigest k) k [] 0
      /\ WalletManager.get_wallet w s' = Some wallet
      /\ WalletManager.wallet_exists w s' = true
      /\ (forall w', w' <> w -> wallets s' !! w' = wallets s !! w')
  | (Err _, s') => s' = s /\ (w = "" \/ k = "")
  end.
Proof.
  unfold WalletManager.create_wallet, Wallet.post_init_ok, WalletManager.get_wallet,
    WalletManager.wallet_exists.
  cbn. rewrite hexdigest_truthy.
  destruct w as [|c w']; cbn; [split; [reflexivity | left; reflexivity]|].
  destruct k as [|d k']; cbn; [split; [reflexivity | right; reflexivity]|].
  rewrite lookup_insert_eq. repeat apply conj; try reflexivity; try discriminate.
  intros w0 Hne. rewrite lookup_insert_ne by congruence. reflexivity.
Qed.

(** ** The wallet registry (wallet.py) *)

(** The fields of a wallet that identify it and sign for it. *)
Definition same_keys (W W' : Wallet.t) : Prop :=
  Wallet.wallet_id W' = Wallet.wallet_id W
  /\ Wallet.public_key W' = Wallet.public_key W
  /\ Wallet.private_key W' = Wallet.private_key W.

Lemma same_keys_refl W : same_keys W W.
Proof. repeat split. Qed.

Lemma same_keys_trans W1 W2 W3 : same_keys W1 W2 -> same_keys W2 W3 -> same_keys W1 W3.
Proof. intros (A1 & A2 & A3) (B1 & B2 & B3). repeat split; congruence. Qed.

Lemma same_keys_add_token t W : same_keys W (Wallet.add_token t W).
Proof. unfold Wallet.add_token. destruct (bool_decide _); repeat split. Qed.

Lemma same_keys_remove_token t W : same_keys W (snd (Wallet.remove_token t W)).
Proof. unfold Wallet.remove_token. destruct (bool_decide _); repeat split. Qed.

Lemma same_keys_add_voucher n W : same_keys W (Wallet.add_voucher n W).
Proof. repeat split. Qed.

Lemma same_keys_use_voucher W : same_keys W (snd (Wallet.use_voucher W)).
Proof. unfold Wallet.use_voucher. destruct (0 <? _)%Z; repeat split. Qed.

(** From [s] to [s'] every wallet keeps its keys and no wallet appears. *)
Definition keys_kept (s s' : System) : Prop :=
  (forall w W, wallets s !! w = Some W ->
     exists W', wallets s' !! w = Some W' /\ same_keys W W')
  /\ (forall w, wallets s !! w = None -> wallets s' !! w = None).

Lemma keys_kept_refl s s' : wallets s' = wallets s -> keys_kept s s'.
Proof.
  intros E. split.
  - intros w W H. exists W. rewrite E. split; [exact H | apply same_keys_refl].
  - intros w H. rewrite E. exact H.
Qed.

Lemma keys_kept_trans s1 s2 s3 : keys_kept s1 s2 -> keys_kept s2 s3 -> keys_kept s1 s3.
Proof.
  intros [A1 A2] [B1 B2]. split.
  - intros w W H. destruct (A1 w W H) as (W2 & H2 & K2).
    destruct (B1 w W2 H2) as (W3 & H3 & K3). exists W3.
    split; [exact H3 | eapply same_keys_trans; eassumption].
  - intros w H. apply B2, A2, H.
Qed.

Lemma keys_kept_update s s' w0 W0 W0' :
  wallets s !! w0 = Some W0 -> same_keys W0 W0' ->
  wallets s' = <[w0 := W0']> (wallets s) ->
  keys_kept s s'.
Proof.
  intros H0 K E. split.
  - intros w W H. rewrite E. destruct (decide (w0 = w)) as [<-|Hne].
    + rewrite lookup_insert_eq. exists W0'. split; [reflexivity|]. congruence.
    + rewrite lookup_insert_ne by exact Hne. exists W. split; [exact H | apply same_keys_refl].
  - intros w H. rewrite E. rewrite lookup_insert_ne by congruence. exact H.
Qed.

Lemma issue_token_keys v w t s : keys_kept s (snd (TokenManager.issue_token v w t s)).
Proof.
  unfold TokenManager.issue_token, WalletManager.wallet_exists, WalletManager.get_wallet.
  destruct (wallets s !! w) as [W|] eqn:HW; cbn; [|apply keys_kept_refl; reflexivity].
  destruct (negb (Token.post_init_ok _)); cbn; [apply keys_kept_refl; reflexivity|].
  rewrite HW. eapply keys_kept_update; [exact HW | apply same_keys_add_token | reflexivity].
Qed.

Lemma transfer_token_keys t a b s : keys_kept s (snd (TokenManager.transfer_token t a b s)).
Proof.
  unfold TokenManager.transfer_token, TokenManager.get_token, WalletManager.wallet_exists,
    WalletManager.get_wallet.
  destruct (tokens s !! t) as [T|]; [|apply keys_kept_refl; reflexivity].
  destruct (negb (String.eqb _ a)); [apply keys_kept_refl; reflexivity|].
  destruct (wallets s !! a) as [A|] eqn:HA; cbn; [|apply keys_kept_refl; reflexivity].
  destruct (wallets s !! b) as [B|] eqn:HB; cbn; [|apply keys_kept_refl; reflexivity].
  set (s1 := set_wallets (<[a := snd (Wallet.remove_token t A)]> (wallets s)) s).
  assert (keys_kept s s1) as K1.
  { eapply keys_kept_update; [exact HA | apply same_keys_remove_token | reflexivity]. }
  change (<[a := snd (Wallet.remove_token t A)]> (wallets s)) with (wallets s1).
  destruct (wallets s1 !! b) as [B'|] eqn:HB'; cbn.
  - eapply keys_kept_trans; [exact K1|].
    eapply keys_kept_update; [exact HB' | apply same_keys_add_token | reflexivity].
  - eapply keys_kept_trans; [exact K1|]. apply keys_kept_refl. reflexivity.
Qed.

Lemma issue_voucher_keys w l v now s :
  keys_kept s (snd (VoucherManager.issue_voucher w l v now s)).
Proof.
  unfold VoucherManager.issue_voucher, WalletManager.wallet_exists, WalletManager.get_wallet.
  destruct (wallets s !! w) as [W|] eqn:HW; cbn; [|apply keys_kept_refl; reflexivity].
  destruct (negb (Voucher.post_init_ok _)); cbn; [apply keys_kept_refl; reflexivity|].
  rewrite HW. eapply keys_kept_update; [exact HW | apply same_keys_add_voucher | reflexivity].
Qed.

Lemma redeem_voucher_keys v x n s :
  keys_kept s (snd (VoucherManager.redeem_voucher v x n s)).
Proof.
  unfold VoucherManager.redeem_voucher, VoucherManager.get_voucher, WalletManager.get_wallet.
  destruct (vouchers s !! v) as [V|]; [|apply keys_kept_refl; reflexivity].
  destruct (negb (Voucher.can_be_used_for_value V n)); [apply keys_kept_refl; reflexivity|].
  unfold Voucher.mark_as_used.
  destruct (negb (Voucher.is_used V)); [|apply keys_kept_refl; reflexivity].
  cbn. destruct (wallets s !! Voucher.issued_to_wallet_id V) as [W|] eqn:HW; cbn.
  - eapply keys_kept_update; [exact HW | apply same_keys_use_voucher | reflexivity].
  - apply keys_kept_refl. reflexivity.
Qed.

(** What an elementary update does to the registry: a wallet that exists
    keeps its keys; a wallet that appears is a new one, made by
    [create_wallet]. *)
Lemma prim_wallets_keys s s' :
  prim s s' ->
  (forall w W, wallets s !! w = Some W ->
     exists W', wallets s' !! w = Some W' /\ same_keys W W')
  /\ (forall w W', wallets s !! w = None -> wallets s' !! w = Some W' ->
        w <> "" /\ Wallet.private_key W' <> ""
        /\ W' = Wallet.mk w (SHA256.hexdigest (Wallet.private_key W'))
                          (Wallet.private_key W') [] 0).
Proof.
  intros Hp.
  assert (keys_kept s s' ->
          (forall w W, wallets s !! w = Some W ->
             exists W', wallets s' !! w = Some W' /\ same_keys W W')
          /\ (forall w W', wallets s !! w = None -> wallets s' !! w = Some W' ->
                w <> "" /\ Wallet.private_key W' <> ""
                /\ W' = Wallet.mk w (SHA256.hexdigest (Wallet.private_key W'))
                                  (Wallet.private_key W') [] 0)) as Hkept.
  { intros [K1 K2]. split; [exact K1|]. intros w W' Hn Hs. rewrite (K2 w Hn) in Hs.
    discriminate Hs. }
  destruct Hp as [w k Hf|v w t Hf|t a b|w l v now Hf|v x n|x tk now|x now dk|tid x Hc
                 |a b t v x now Hf Hn|x w sg|x otx Hx|x otx now Hx].
  - unfold WalletManager.create_wallet, Wallet.post_init_ok. cbn.
    rewrite hexdigest_truthy.
    destruct w as [|c w']; cbn; [apply Hkept, keys_kept_refl; reflexivity|].
    destruct k as [|d k']; cbn; [apply Hkept, keys_kept_refl; reflexivity|].
    split.
    + intros w W H. exists W. rewrite lookup_insert_ne by congruence.
      split; [exact H | apply same_keys_refl].
    + intros w W' Hn. destruct (decide (String c w' = w)) as [<-|Hne].
      * rewrite lookup_insert_eq. intros [= <-]. cbn.
        split; [discriminate|]. split; [discriminate | reflexivity].
      * rewrite lookup_insert_ne by exact Hne. congruence.
  - apply Hkept, issue_token_keys.
  - apply Hkept, transfer_token_keys.
  - apply Hkept, issue_voucher_keys.
  - apply Hkept, redeem_voucher_keys.
  - apply Hkept, keys_kept_refl, check_transaction_frame.
  - apply Hkept, keys_kept_refl, store_transaction_frame.
  - apply Hkept, keys_kept_refl. reflexivity.
  - apply Hkept, keys_kept_refl, create_offline_transaction_frame.
  - apply Hkept, keys_kept_refl, sign_offline_transaction_frame.
  - apply Hkept, keys_kept_refl. reflexivity.
  - apply Hkept, keys_kept_refl. reflexivity.
Qed.

Lemma rtc_same_keys s s' w W :
  rtc prim s s' -> wallets s !! w = Some W ->
  exists W', wallets s' !! w = Some W' /\ same_keys W W'.
Proof.
  intros H. revert W. induction H as [s|s s1 s' H1 _ IH]; intros W HW.
  - exists W. split; [exact HW | apply same_keys_refl].
  - destruct (prim_wallets_keys s s1 H1) as [K _].
    destruct (K w W HW) as (W1 & HW1 & K1).
    destruct (IH W1 HW1) as (W' & HW' & K'). exists W'.
    split; [exact HW' | eapply same_keys_trans; eassumption].
Qed.

(** A wallet of the registry is stored under its own id, neither its id
    nor its private key is empty, and its public key is the digest of its
    private key. *)
Definition wallet_wf (w : string) (W : Wallet.t) : Prop :=
  Wallet.wallet_id W = w /\ w <> "" /\ Wallet.private_key W <> ""
  /\ Wallet.public_key W = SHA256.hexdigest (Wallet.private_key W).

Lemma reachable_wallet_wf s :
  reachable s -> forall w W, wallets s !! w = Some W -> wallet_wf w W.
Proof.
  apply (reachable_prims_invariant
           (fun s => forall w W, wallets s !! w = Some W -> wallet_wf w W)).
  - intros w W. cbn. rewrite lookup_empty. discriminate.
  - intros s0 s' I Hp w W' HW'. destruct (prim_wallets_keys s0 s' Hp) as [K1 K2].
    destruct (wallets s0 !! w) as [W|] eqn:HW.
    + destruct (K1 w W HW) as (W2 & HW2 & E1 & E2 & E3).
      assert (W2 = W') as -> by congruence.
      destruct (I w W HW) as (I1 & I2 & I3 & I4).
      unfold wallet_wf. rewrite E1, E2, E3. auto.
    + destruct (K2 w W' HW HW') as (Hw & Hk & E).
      unfold wallet_wf. repeat split; auto; rewrite E; reflexivity.
Qed.

(** ** The token store (token_system.py) *)

(** The fields of a token that a transfer does not touch. *)
Definition same_token (T T' : Token.t) : Prop :=
  Token.token_id T' = Token.token_id T
  /\ Token.value T' = Token.value T
  /\ Token.issued_by T' = Token.issued_by T
  /\ Token.issue_timestamp T' = Token.issue_timestamp T.

Lemma same_token_refl T : same_token T T.
Proof. repeat split. Qed.

Lemma same_token_trans T1 T2 T3 : same_token T1 T2 -> same_token T2 T3 -> same_token T1 T3.
Proof. intros (A1 & A2 & A3 & A4) (B1 & B2 & B3 & B4). repeat split; congruence. Qed.

Lemma same_token_transfer_ownership b T : same_token T (snd (Token.transfer_ownership b T)).
Proof. unfold Token.transfer_ownership. destruct (truthy b); repeat split. Qed.

(** What an elementary update does to the token store: a token that
    exists stays, with its id and its value; a token that appears is a
    new one, made by [issue_token]. *)
Lemma prim_tokens s s' :
  prim s s' ->
  (forall t T, tokens s !! t = Some T ->
     exists T', tokens s' !! t = Some T' /\ same_token T T')
  /\ (forall t T', tokens s !! t = None -> tokens s' !! t = Some T' ->
        exists v w,
          T' = Token.mk t v w "ECB" None /\ (0 < v)%Z /\ t <> "" /\ w <> "").
Proof.
  intros Hp.
  assert (forall s', tokens s' = tokens s ->
          (forall t T, tokens s !! t = Some T ->
             exists T', tokens s' !! t = Some T' /\ same_token T T')
          /\ (forall t T', tokens s !! t = None -> tokens s' !! t = Some T' ->
                exists v w,
                  T' = Token.mk t v w "ECB" None /\ (0 < v)%Z /\ t <> "" /\ w <> ""))
    as Hkept.
  { clear. intros s' E. rewrite E. split.
    - intros t T H. exists T. split; [exact H | apply same_token_refl].
    - intros t T' Hn Hs. congruence. }
  destruct Hp as [w k Hf|v w t Hf|t a b|w l v now Hf|v x n|x tk now|x now dk|tid x Hc
                 |a b t v x now Hf Hn|x w sg|x otx Hx|x otx now Hx].
  - apply Hkept, create_wallet_frame.
  - unfold TokenManager.issue_token, WalletManager.wallet_exists, WalletManager.get_wallet,
      Token.post_init_ok.
    destruct (wallets s !! w) as [W|] eqn:HW; cbn; [|apply Hkept; reflexivity].
    destruct t as [|c t']; cbn; [apply Hkept; reflexivity|].
    destruct (Z.ltb_spec 0 v) as [Hv|Hv]; cbn; [|apply Hkept; reflexivity].
    destruct w as [|d w']; cbn; [apply Hkept; reflexivity|].
    rewrite HW. cbn. split.
    + intros t T H. exists T. rewrite lookup_insert_ne by congruence.
      split; [exact H | apply same_token_refl].
    + intros t T' Hnone. destruct (decide (String c t' = t)) as [<-|Hne].
      * rewrite lookup_insert_eq. intros [= <-]. eexists _, _.
        split; [reflexivity|]. split; [exact Hv|]. split; discriminate.
      * rewrite lookup_insert_ne by exact Hne. congruence.
  - destruct (TokenManager.transfer_token t a b s) as [[|] s'] eqn:E; cbn [snd].
    + apply transfer_token_true in E as (T & HT & _ & _ & _ & E & _). rewrite E. split.
      * intros t0 T0 H0. destruct (decide (t = t0)) as [<-|Hne].
        -- rewrite lookup_insert_eq. eexists. split; [reflexivity|].
           assert (T0 = T) as -> by congruence. apply same_token_transfer_ownership.
        -- rewrite lookup_insert_ne by exact Hne. exists T0.
           split; [exact H0 | apply same_token_refl].
      * intros t0 T' Hnone. rewrite lookup_insert_ne by congruence. congruence.
    + apply transfer_token_false in E. subst s'. apply Hkept. reflexivity.
  - apply Hkept, issue_voucher_frame.
  - apply Hkept, redeem_voucher_frame.
  - apply Hkept, check_transaction_frame.
  - apply Hkept, store_transaction_frame.
  - apply Hkept. reflexivity.
  - apply Hkept, create_offline_transaction_frame.
  - apply Hkept, sign_offline_transaction_frame.
  - apply Hkept. reflexivity.
  - apply Hkept. reflexivity.
Qed.

Lemma rtc_same_token s s' t T :
  rtc prim s s' -> tokens s !! t = Some T ->
  exists T', tokens s' !! t = Some T' /\ same_token T T'.
Proof.
  intros H. revert T. induction H as [s|s s1 s' H1 _ IH]; intros T HT.
  - exists T. split; [exact HT | apply same_token_refl].
  - destruct (prim_tokens s s1 H1) as [K _].
    destruct (K t T HT) as (T1 & HT1 & K1).
    destruct (IH T1 HT1) as (T' & HT' & K'). exists T'.
    split; [exact HT' | eapply same_token_trans; eassumption].
Qed.

(** A token of the store is stored under its own id, has a positive
    value and was issued by the ECB. *)
Definition token_wf (t : string) (T : Token.t) : Prop :=
  Token.token_id T = t /\ t <> "" /\ (0 < Token.value T)%Z /\ Token.issued_by T = "ECB".

Lemma reachable_token_wf s :
  reachable s -> forall t T, tokens s !! t = Some T -> token_wf t T.
Proof.
  apply (reachable_prims_invariant
           (fun s => forall t T, tokens s !! t = Some T -> token_wf t T)).
  - intros t T. cbn. rewrite lookup_empty. discriminate.
  - intros s0 s' I Hp t T' HT'. destruct (prim_tokens s0 s' Hp) as [K1 K2].
    destruct (tokens s0 !! t) as [T|] eqn:HT.
    + destruct (K1 t T HT) as (T2 & HT2 & E1 & E2 & E3 & E4).
      assert (T2 = T') as -> by congruence.
      destruct (I t T HT) as (I1 & I2 & I3 & I4).
      unfold token_wf. rewrite E1, E2, E3. auto.
    + destruct (K2 t T' HT HT') as (v & w & -> & Hv & Ht & Hw).
      unfold token_wf. cbn. auto.
Qed.

(** ** The voucher store (voucher.py) *)

(** A voucher is left as it is, or an unused voucher is marked as used. *)
Definition voucher_step (V V' : Voucher.t) : Prop :=
  V' = V
  \/ (Voucher.is_used V = false
      /\ exists tid,
           V' = Voucher.mk (Voucher.voucher_id V) (Voucher.signature V)
                           (Voucher.value_limit V) (Voucher.issued_to_wallet_id V)
                           (Voucher.issued_by V) (Voucher.issue_timestamp V)
                           true (Some tid)).

(** What an elementary update does to the voucher store: a voucher that
    exists stays, unchanged or marked as used; a voucher that appears is
    a new one, made and signed by [issue_voucher]. *)
Lemma prim_vouchers s s' :
  prim s s' ->
  (forall v V, vouchers s !! v = Some V ->
     exists V', vouchers s' !! v = Some V' /\ voucher_step V V')
  /\ (forall v V', vouchers s !! v = None -> vouchers s' !! v = Some V' ->
        exists l w now,
          V' = Voucher.mk v (VoucherManager._generate_aml_signature
                               (VoucherManager.voucher_data_of V'))
                          l w "AMLAuthority" (Some now) false None
          /\ (0 < l)%Z /\ v <> "" /\ is_Some (wallets s !! w)).
Proof.
  intros Hp.
  assert (forall s', vouchers s' = vouchers s ->
          (forall v V, vouchers s !! v = Some V ->
             exists V', vouchers s' !! v = Some V' /\ voucher_step V V')
          /\ (forall v V', vouchers s !! v = None -> vouchers s' !! v = Some V' ->
                exists l w now,
                  V' = Voucher.mk v (VoucherManager._generate_aml_signature
                                       (VoucherManager.voucher_data_of V'))
                                  l w "AMLAuthority" (Some now) false None
                  /\ (0 < l)%Z /\ v <> "" /\ is_Some (wallets s !! w)))
    as Hkept.
  { clear. intros s' E. rewrite E. split.
    - intros v V H. exists V. split; [exact H | left; reflexivity].
    - intros v V' Hn Hs. congruence. }
  destruct Hp as [w k Hf|v w t Hf|t a b|w l v now Hf|v x n|x tk now|x now dk|tid x Hc
                 |a b t v x now Hf Hn|x w sg|x otx Hx|x otx now Hx].
  - apply Hkept, create_wallet_frame.
  - apply Hkept, issue_token_frame.
  - apply Hkept, transfer_token_frame.
  - unfold VoucherManager.issue_voucher, WalletManager.wallet_exists,
      WalletManager.get_wallet, Voucher.post_init_ok.
    destruct (wallets s !! w) as [W|] eqn:HW; cbn; [|apply Hkept; reflexivity].
    destruct v as [|c v']; cbn; [apply Hkept; reflexivity|].
    unfold VoucherManager._generate_aml_signature. rewrite hexdigest_truthy. cbn.
    destruct (Z.ltb_spec 0 l) as [Hl|Hl]; cbn; [|apply Hkept; reflexivity].
    rewrite HW. cbn. split.
    + intros v V H. exists V. rewrite lookup_insert_ne by congruence.
      split; [exact H | left; reflexivity].
    + intros v V' Hnone. destruct (decide (String c v' = v)) as [<-|Hne].
      * rewrite lookup_insert_eq. intros [= <-]. exists l, w, now.
        split; [reflexivity|]. split; [exact Hl|]. split; [discriminate | eauto].
      * rewrite lookup_insert_ne by exact Hne. congruence.
  - destruct (VoucherManager.redeem_voucher v x n s) as [[|] s'] eqn:E; cbn [snd].
    + apply redeem_voucher_true in E as (V & HV & Hc & E & Hm). rewrite E. split.
      * intros v0 V0 H0. destruct (decide (v = v0)) as [<-|Hne].
        -- rewrite lookup_insert_eq. eexists. split; [reflexivity|].
           assert (V0 = V) as -> by congruence. right.
           unfold Voucher.can_be_used_for_value in Hc.
           destruct (Voucher.is_used V); [discriminate|].
           split; [reflexivity|]. exists x. exact Hm.
        -- rewrite lookup_insert_ne by exact Hne. exists V0.
           split; [exact H0 | left; reflexivity].
      * intros v0 V' Hnone. rewrite lookup_insert_ne by congruence. congruence.
    + apply redeem_voucher_false in E. subst s'. apply Hkept. reflexivity.
  - apply Hkept, check_transaction_frame.
  - apply Hkept, store_transaction_frame.
  - apply Hkept. reflexivity.
  - apply Hkept, create_offline_transaction_frame.
  - apply Hkept, sign_offline_transaction_frame.
  - apply Hkept. reflexivity.
  - apply Hkept. reflexivity.
Qed.

(** A voucher of the store is stored under its own id, has a positive
    limit, carries the signature of the AML authority over its data, and
    names the transaction that used it exactly when it is used. *)
Definition voucher_wf (v : string) (V : Voucher.t) : Prop :=
  Voucher.voucher_id V = v /\ v <> ""
  /\ (0 < Voucher.value_limit V)%Z
  /\ Voucher.issued_by V = "AMLAuthority"
  /\ Voucher.signature V
     = VoucherManager._generate_aml_signature (VoucherManager.voucher_data_of V)
  /\ (Voucher.is_used V = true <-> is_Some (Voucher.used_in_transaction V)).

Lemma voucher_wf_step v V V' : voucher_wf v V -> voucher_step V V' -> voucher_wf v V'.
Proof.
  intros I [->|(Hu & tid & ->)]; [exact I|].
  destruct I as (I1 & I2 & I3 & I4 & I5 & I6).
  unfold voucher_wf. cbn. repeat apply conj; auto; eauto.
Qed.

Lemma reachable_voucher_wf s :
  reachable s -> forall v V, vouchers s !! v = Some V -> voucher_wf v V.
Proof.
  apply (reachable_prims_invariant
           (fun s => forall v V, vouchers s !! v = Some V -> voucher_wf v V)).
  - intros v V. cbn. rewrite lookup_empty. discriminate.
  - intros s0 s' I Hp v V' HV'. destruct (prim_vouchers s0 s' Hp) as [K1 K2].
    destruct (vouchers s0 !! v) as [V|] eqn:HV.
    + destruct (K1 v V HV) as (V2 & HV2 & Hstep).
      assert (V2 = V') as -> by congruence.
      eapply voucher_wf_step; [apply I, HV | exact Hstep].
    + destruct (K2 v V' HV HV') as (l & w & now & E & Hl & Hv & _).
      unfold voucher_wf. rewrite E. cbn. repeat apply conj; auto.
      * rewrite E at 1. reflexivity.
      * discriminate.
      * intros [? [=]].
Qed.

(** ** A longer run

    Three wallets; two vouchers and two tokens for W1, a token for W2; an
    anonymous transfer of 50 with the first voucher, a plain transfer of
    150, which is flagged and escalated, and an offline transfer of 30
    from W2 to W3, signed by both and synced. *)
Definition market_ops_online : list op :=
  [op_create_wallet "W1" "key-of-W1"; op_create_wallet "W2" "key-of-W2";
   op_create_wallet "W3" "key-of-W3";
   op_issue_voucher "W1" 100 "V1" "2025-01-01T09:00:00";
   op_issue_voucher "W1" 200 "V2" "2025-01-01T09:05:00";
   op_issue_token 50 "W1" "T1"; op_issue_token 150 "W1" "T2"; op_issue_token 30 "W2" "T3";
   op_execute_transfer "W1" "W2" "T1" (Some "V1") "X1" "2025-01-01T12:00:00" None;
   op_execute_transfer "W1" "W3" "T2" None "X2" "2025-01-01T13:00:00" None;
   op_create_offline_transaction "W2" "W3" "T3" None "O1" "2025-01-01T14:00:00"].

Definition market_online : System := default init (run market_ops_online init).

Definition market_ops : list op :=
  market_ops_online
  ++ [op_sign_offline_transaction "O1" "W2" (signature_of market_online "O1" "W2");
      op_sign_offline_transaction "O1" "W3" (signature_of market_online "O1" "W3");
      op_sync_with_ledger "O1" "2025-01-02T09:30:00" None].

Definition market : System := default init (run market_ops init).

Lemma market_online_reachable : reachable market_online.
Proof. exists market_ops_online. vm_compute. reflexivity. Qed.

Lemma market_reachable : reachable market.
Proof. exists market_ops. vm_compute. reflexivity. Qed.

Example market_state :
  owner_of market "T1" = Some "W2" /\ owner_of market "T2" = Some "W3"
  /\ owner_of market "T3" = Some "W3"
  /\ token_balance_of market "W1" = Some []
  /\ token_balance_of market "W3" = Some ["T2"; "T3"]
  /\ voucher_balance_of market "W1" = Some 1%Z
  /\ (Voucher.used_in_transaction <$> vouchers market !! "V1") = Some (Some "X1")
  /\ length (aml_registry market) = 1%nat
  /\ authority_contacted market = true
  /\ entry_counter market = 3%N
  /\ size (transactions market) = 2%nat
  /\ (OfflineTransaction.status <$> offline_transactions market !! "O1") = Some OFF_SYNCED.
Proof. vm_compute. repeat split. Qed.

(** ** Listings and stores *)

Lemma elem_of_map_values {A : Type} (m : gmap string A) (x : A) :
  x ∈ (map_to_list m).*2 <-> exists k, m !! k = Some x.
Proof.
  rewrite list_elem_of_fmap. split.
  - intros ([k y] & -> & Hin). exists k. apply elem_of_map_to_list in Hin. exact Hin.
  - intros [k Hk]. exists (k, x). split; [reflexivity|]. apply elem_of_map_to_list. exact Hk.
Qed.

Lemma length_filter_snd {A : Type} (P : A -> Prop) `{!forall x, Decision (P x)}
  (l : list (string * A)) :
  length (filter (fun kv => P kv.2) l) = length (filter P l.*2).
Proof.
  induction l as [|[k x] l IH]; [reflexivity|].
  rewrite fmap_cons, !filter_cons. cbn.
  destruct (decide (P x)); cbn; rewrite IH; reflexivity.
Qed.

(** The number of entries of a store that satisfy a predicate is the
    length of the listing that filters its values. *)
Lemma size_filter_values {A : Type} (P : A -> Prop) `{!forall x, Decision (P x)}
  (m : gmap string A) :
  size (filter (fun kv : string * A => P kv.2) m) = length (filter P (map_to_list m).*2).
Proof.
  rewrite map_filter_alt, <- length_map_to_list.
  rewrite map_to_list_to_map.
  - apply length_filter_snd.
  - eapply sublist_NoDup; [apply (NoDup_fst_map_to_list m)|].
    apply fmap_sublist, sublist_filter.
Qed.

(** X8. A wallet of the registry is stored under its id, has a non-empty
    private key and the digest of it as its public key, lists each of its
    tokens once, and has a voucher count that is not negative. *)
Theorem wallet_wellformed (s : System) (w : string) (W : Wallet.t) :
  reachable s ->
  WalletManager.get_wallet w s = Some W ->
  Wallet.wallet_id W = w /\ w <> ""
  /\ Wallet.private_key W <> ""
  /\ Wallet.public_key W = SHA256.hexdigest (Wallet.private_key W)
  /\ NoDup (Wallet.token_balance W)
  /\ (0 <= Wallet.voucher_balance W)%Z.
Proof.
  intros Hr HW. unfold WalletManager.get_wallet in HW.
  destruct (reachable_wallet_wf s Hr w W HW) as (H1 & H2 & H3 & H4).
  destruct (reachable_ownership_inv s Hr) as [I1 _].
  destruct (reachable_voucher_inv s Hr) as [V1 _].
  repeat apply conj; try assumption.
  - apply (I1 w). unfold token_balance_of. rewrite HW. reflexivity.
  - rewrite (V1 w (Wallet.voucher_balance W)); [lia|].
    unfold voucher_balance_of. rewrite HW. reflexivity.
Qed.

Lemma wallet_wellformed_witness :
  match WalletManager.get_wallet "W3" market with
  | Some W =>
      Wallet.wallet_id W = "W3" /\ "W3" <> ""
      /\ Wallet.private_key W <> ""
      /\ Wallet.public_key W = SHA256.hexdigest (Wallet.private_key W)
      /\ NoDup (Wallet.token_balance W)
      /\ (0 <= Wallet.voucher_balance W)%Z
  | None => False
  end.
Proof.
  destruct (WalletManager.get_wallet "W3" market) as [W|] eqn:E.
  - exact (wallet_wellformed market "W3" W market_reachable E).
  - vm_compute in E. discriminate E.
Defined.

(** X9. Along a run a wallet is never removed and never changes its id or
    its keys: a signature it has made is one it still verifies. *)
Theorem wallet_keys_persist (ops : list op) (s s' : System) (w : string) (W : Wallet.t) :
  run ops s = Some s' ->
  WalletManager.get_wallet w s = Some W ->
  exists W',
    WalletManager.get_wallet w s' = Some W'
    /\ Wallet.wallet_id W' = Wallet.wallet_id W
    /\ Wallet.public_key W' = Wallet.public_key W
    /\ Wallet.private_key W' = Wallet.private_key W
    /\ forall data,
         Wallet.verify_signature W' data (Wallet.sign_transaction W data) = true.
Proof.
  intros Hrun HW. apply run_prims in Hrun.
  destruct (rtc_same_keys s s' w W Hrun HW) as (W' & HW' & K1 & K2 & K3).
  exists W'. repeat apply conj; try assumption.
  intros data. unfold Wallet.verify_signature, Wallet.sign_transaction.
  rewrite K3. apply String.eqb_refl.
Qed.

Lemma wallet_keys_persist_witness :
  let W := Wallet.mk "W2" (SHA256.hexdigest "key-of-W2") "key-of-W2" [] 0 in
  exists W',
    WalletManager.get_wallet "W2" market = Some W'
    /\ Wallet.wallet_id W' = Wallet.wallet_id W
    /\ Wallet.public_key W' = Wallet.public_key W
    /\ Wallet.private_key W' = Wallet.private_key W
    /\ forall data,
         Wallet.verify_signature W' data (Wallet.sign_transaction W data) = true.
Proof.
  apply (wallet_keys_persist (drop 2 market_ops)
           (default init (run (take 2 market_ops) init)) market "W2").
  - vm_compute. reflexivity.
  - vm_compute. reflexivity.
Defined.

(** X10. A token of the store is stored under its id, has a positive value,
    was issued by the ECB, and its owner is a wallet of the registry that
    lists it. *)
Theorem token_wellformed (s : System) (t : string) (T : Token.t) :
  reachable s ->
  TokenManager.get_token t s = Some T ->
  Token.token_id T = t /\ t <> ""
  /\ (0 < Token.value T)%Z
  /\ Token.issued_by T = "ECB"
  /\ exists W,
       WalletManager.get_wallet (Token.owner_wallet_id T) s = Some W
       /\ t ∈ Wallet.token_balance W.
Proof.
  intros Hr HT. unfold TokenManager.get_token in HT.
  destruct (reachable_token_wf s Hr t T HT) as (H1 & H2 & H3 & H4).
  destruct (reachable_ownership_inv s Hr) as [_ I2].
  repeat apply conj; try assumption.
  destruct (I2 t (Token.owner_wallet_id T)) as (l & Hl & Hin).
  { unfold owner_of. rewrite HT. reflexivity. }
  unfold token_balance_of in Hl. unfold WalletManager.get_wallet.
  destruct (wallets s !! Token.owner_wallet_id T) as [W|]; [|discriminate].
  exists W. split; [reflexivity|]. cbn in Hl. congruence.
Qed.

Lemma token_wellformed_witness :
  match TokenManager.get_token "T2" market with
  | Some T =>
      Token.token_id T = "T2" /\ "T2" <> ""
      /\ (0 < Token.value T)%Z
      /\ Token.issued_by T = "ECB"
      /\ exists W,
           WalletManager.get_wallet (Token.owner_wallet_id T) market = Some W
           /\ "T2" ∈ Wallet.token_balance W
  | None => False
  end.
Proof.
  destruct (TokenManager.get_token "T2" market) as [T|] eqn:E.
  - exact (token_wellformed market "T2" T market_reachable E).
  - vm_compute in E. discriminate E.
Defined.

(** X11. Along a run a token is never destroyed, and its id, its value and
    its issuer never change: only its owner does. *)
Theorem tokens_persist (ops : list op) (s s' : System) (t : string) (T : Token.t) :
  run ops s = Some s' ->
  TokenManager.get_token t s = Some T ->
  exists T',
    TokenManager.get_token t s' = Some T'
    /\ Token.token_id T' = Token.token_id T
    /\ Token.value T' = Token.value T
    /\ Token.issued_by T' = Token.issued_by T
    /\ Token.issue_timestamp T' = Token.issue_timestamp T.
Proof.
  intros Hrun HT. apply run_prims in Hrun.
  destruct (rtc_same_token s s' t T Hrun HT) as (T' & HT' & K).
  exists T'. split; [exact HT' | exact K].
Qed.

Lemma tokens_persist_witness :
  let T := Token.mk "T1" 50 "W1" "ECB" None in
  exists T',
    TokenManager.get_token "T1" market = Some T'
    /\ Token.token_id T' = Token.token_id T
    /\ Token.value T' = Token.value T
    /\ Token.issued_by T' = Token.issued_by T
    /\ Token.issue_timestamp T' = Token.issue_timestamp T.
Proof.
  apply (tokens_persist (drop 6 market_ops)
           (default init (run (take 6 market_ops) init)) market "T1").
  - vm_compute. reflexivity.
  - vm_compute. reflexivity.
Defined.

Lemma token_ids_are_keys s :
  (forall t T, tokens s !! t = Some T -> Token.token_id T = t) ->
  Token.token_id <$> (map_to_list (tokens s)).*2 = (map_to_list (tokens s)).*1.
Proof.
  intros I.
  assert (forall kv, kv ∈ map_to_list (tokens s) -> Token.token_id kv.2 = kv.1) as H.
  { intros [k T] Hin. apply elem_of_map_to_list in Hin. apply I, Hin. }
  induction (map_to_list (tokens s)) as [|kv l IH]; [reflexivity|].
  cbn. rewrite (H kv) by left. f_equal. apply IH. intros kv' Hin. apply H. right. exact Hin.
Qed.

(** X12. The tokens that [get_tokens_by_owner] lists for a wallet are, by
    their ids, the tokens of the wallet's own token set: the two records
    of ownership agree. *)
Theorem tokens_by_owner_match_wallet (s : System) (w : string) (W : Wallet.t) :
  reachable s ->
  WalletManager.get_wallet w s = Some W ->
  Token.token_id <$> TokenManager.get_tokens_by_owner w s ≡ₚ Wallet.token_balance W.
Proof.
  intros Hr HW. unfold WalletManager.get_wallet in HW.
  destruct (reachable_ownership_inv s Hr) as [I1 I2].
  pose proof (reachable_token_wf s Hr) as Iwf.
  assert (token_balance_of s w = Some (Wallet.token_balance W)) as Hl.
  { unfold token_balance_of. rewrite HW. reflexivity. }
  destruct (I1 w _ Hl) as (_ & Hnd & Hown).
  unfold TokenManager.get_tokens_by_owner, TokenManager.list_all_tokens.
  apply NoDup_Permutation; [|exact Hnd|].
  - eapply sublist_NoDup;
      [|apply fmap_sublist, sublist_filter].
    rewrite token_ids_are_keys; [apply NoDup_fst_map_to_list|].
    intros t T HT. apply (Iwf t T HT).
  - intros t. rewrite list_elem_of_fmap. split.
    + intros (T & -> & Hin). apply list_elem_of_filter in Hin as [Ho Hin].
      apply elem_of_map_values in Hin as [k Hk].
      destruct (Iwf k T Hk) as (Hid & _). rewrite Hid.
      destruct (I2 k w) as (l & Hl' & Hk').
      { unfold owner_of. rewrite Hk. cbn. rewrite Ho. reflexivity. }
      congruence.
    + intros Hin. specialize (Hown t Hin). unfold owner_of in Hown.
      destruct (tokens s !! t) as [T|] eqn:HT; [|discriminate].
      exists T. destruct (Iwf t T HT) as (Hid & _). split; [symmetry; exact Hid|].
      apply list_elem_of_filter. split; [cbn in Hown; congruence|].
      apply elem_of_map_values. exists t. exact HT.
Qed.

Lemma tokens_by_owner_match_wallet_witness :
  match WalletManager.get_wallet "W3" market with
  | Some W =>
      Token.token_id <$> TokenManager.get_tokens_by_owner "W3" market
      ≡ₚ Wallet.token_balance W
  | None => False
  end.
Proof.
  destruct (WalletManager.get_wallet "W3" market) as [W|] eqn:E.
  - exact (tokens_by_owner_match_wallet market "W3" W market_reachable E).
  - vm_compute in E. discriminate E.
Defined.

(** X13. In a reachable state [verify_voucher_signature] accepts exactly the
    vouchers of the store: the signature computed at the issue is the
    one recomputed from the stored voucher, used or not, and an unknown
    id is refused. *)
Theorem verify_voucher_signature_stored (s : System) (v : string) :
  reachable s ->
  VoucherManager.verify_voucher_signature v s = true
  <-> is_Some (VoucherManager.get_voucher v s).
Proof.
  intros Hr. unfold VoucherManager.verify_voucher_signature, VoucherManager.get_voucher.
  destruct (vouchers s !! v) as [V|] eqn:HV.
  - destruct (reachable_voucher_wf s Hr v V HV) as (_ & _ & _ & _ & Hsig & _).
    rewrite <- Hsig, String.eqb_refl. split; [eauto | reflexivity].
  - split; [discriminate | intros [? [=]]].
Qed.

Lemma verify_voucher_signature_stored_witness :
  VoucherManager.verify_voucher_signature "V1" market = true
  <-> is_Some (VoucherManager.get_voucher "V1" market).
Proof. exact (verify_voucher_signature_stored market "V1" market_reachable). Defined.

(** X14. A voucher of the store is stored under its id, has a positive limit,
    was issued by the AML authority to a wallet of the registry, and
    names the transaction that used it exactly when it is used: it is
    listed by [get_used_vouchers] when it names one and by
    [get_unused_vouchers] when it names none. *)
Theorem voucher_wellformed (s : System) (v : string) (V : Voucher.t) :
  reachable s ->
  VoucherManager.get_voucher v s = Some V ->
  Voucher.voucher_id V = v /\ v <> ""
  /\ (0 < Voucher.value_limit V)%Z
  /\ Voucher.issued_by V = "AMLAuthority"
  /\ WalletManager.wallet_exists (Voucher.issued_to_wallet_id V) s = true
  /\ V ∈ VoucherManager.get_vouchers_by_wallet (Voucher.issued_to_wallet_id V) s
  /\ (V ∈ VoucherManager.get_used_vouchers s
      <-> is_Some (Voucher.used_in_transaction V))
  /\ (V ∈ VoucherManager.get_unused_vouchers s
      <-> Voucher.used_in_transaction V = None).
Proof.
  intros Hr HV. unfold VoucherManager.get_voucher in HV.
  destruct (reachable_voucher_wf s Hr v V HV) as (H1 & H2 & H3 & H4 & _ & H6).
  destruct (reachable_voucher_inv s Hr) as [_ I2].
  assert (V ∈ VoucherManager.list_all_vouchers s) as Hin.
  { apply elem_of_map_values. exists v. exact HV. }
  repeat apply conj; try assumption.
  - specialize (I2 v V HV). unfold voucher_balance_of in I2.
    unfold WalletManager.wallet_exists.
    destruct (wallets s !! Voucher.issued_to_wallet_id V); [reflexivity|].
    destruct I2 as [? [=]].
  - apply list_elem_of_filter. split; [reflexivity | exact Hin].
  - intros Hu. apply list_elem_of_filter in Hu as [Hu _]. apply H6, Hu.
  - intros Hu. apply list_elem_of_filter. split; [apply H6, Hu | exact Hin].
  - intros Hu. apply list_elem_of_filter in Hu as [Hu _].
    destruct (Voucher.used_in_transaction V) as [tid|] eqn:E; [|reflexivity].
    assert (Voucher.is_used V = true) by (apply H6; eauto). congruence.
  - intros Hu. apply list_elem_of_filter. split; [|exact Hin].
    apply not_true_is_false. intros E.
    apply H6 in E. rewrite Hu in E. destruct E as [? [=]].
Qed.

Lemma voucher_wellformed_witness :
  match VoucherManager.get_voucher "V1" market with
  | Some V =>
      Voucher.voucher_id V = "V1" /\ "V1" <> ""
      /\ (0 < Voucher.value_limit V)%Z
      /\ Voucher.issued_by V = "AMLAuthority"
      /\ WalletManager.wallet_exists (Voucher.issued_to_wallet_id V) market = true
      /\ V ∈ VoucherManager.get_vouchers_by_wallet (Voucher.issued_to_wallet_id V) market
      /\ (V ∈ VoucherManager.get_used_vouchers market
          <-> is_Some (Voucher.used_in_transaction V))
      /\ (V ∈ VoucherManager.get_unused_vouchers market
          <-> Voucher.used_in_transaction V = None)
  | None => False
  end.
Proof.
  destruct (VoucherManager.get_voucher "V1" market) as [V|] eqn:E.
  - exact (voucher_wellformed market "V1" V market_reachable E).
  - vm_compute in E. discriminate E.
Defined.

(** X15. The voucher count that a wallet keeps is the number of vouchers that
    [get_available_vouchers_by_wallet] lists for it. *)
Theorem available_vouchers_match_balance (s : System) (w : string) (W : Wallet.t) :
  reachable s ->
  WalletManager.get_wallet w s = Some W ->
  Z.of_nat (length (VoucherManager.get_available_vouchers_by_wallet w s))
  = Wallet.voucher_balance W.
Proof.
  intros Hr HW. unfold WalletManager.get_wallet in HW.
  destruct (reachable_voucher_inv s Hr) as [I1 _].
  rewrite (I1 w (Wallet.voucher_balance W))
    by (unfold voucher_balance_of; rewrite HW; reflexivity).
  f_equal. unfold unused_count, VoucherManager.get_available_vouchers_by_wallet,
    VoucherManager.get_vouchers_by_wallet, VoucherManager.list_all_vouchers.
  rewrite list_filter_filter, <- size_filter_values. f_equal.
  apply map_filter_ext. intros v V _. unfold unused_of. cbn. tauto.
Qed.

Lemma available_vouchers_match_balance_witness :
  match WalletManager.get_wallet "W1" market with
  | Some W =>
      Z.of_nat (length (VoucherManager.get_available_vouchers_by_wallet "W1" market))
      = Wallet.voucher_balance W
  | None => False
  end.
Proof.
  destruct (WalletManager.get_wallet "W1" market) as [W|] eqn:E.
  - exact (available_vouchers_match_balance market "W1" W market_reachable E).
  - vm_compute in E. discriminate E.
Defined.

Lemma sum_permutation (l l' : list Z) :
  l ≡ₚ l' -> foldr Z.add 0%Z l = foldr Z.add 0%Z l'.
Proof.
  induction 1 as [|x l l' _ IH|x y l|l1 l2 l3 _ IH1 _ IH2]; cbn; lia.
Qed.

(** The total of the values that satisfy a predicate, with one entry of
    the store taken apart. *)
Lemma total_value_split (P : Token.t -> Prop) `{!forall x, Decision (P x)}
  (m : gmap string Token.t) (t : string) (T : Token.t) :
  m !! t = Some T ->
  foldr Z.add 0%Z (Token.value <$> filter P (map_to_list m).*2)
  = ((if decide (P T) then Token.value T else 0)
     + foldr Z.add 0%Z (Token.value <$> filter P (map_to_list (delete t m)).*2))%Z.
Proof.
  intros Hm.
  rewrite (sum_permutation _ (Token.value <$> filter P ((t, T) :: map_to_list (delete t m)).*2)).
  - rewrite fmap_cons, filter_cons. cbn. destruct (decide (P T)); cbn; lia.
  - rewrite (map_to_list_delete m t T Hm). reflexivity.
Qed.

(** X16. A successful [transfer_token] moves the value of the token from the
    total of the sender to the total of the receiver, and changes the
    total that [get_total_value_by_owner] computes for no other wallet. *)
Theorem transfer_token_total_value (s s' : System) (t a b : string) :
  reachable s ->
  TokenManager.transfer_token t a b s = (true, s') ->
  exists T,
    TokenManager.get_token t s = Some T
    /\ forall w,
         TokenManager.get_total_value_by_owner w s'
         = (TokenManager.get_total_value_by_owner w s
            + (if decide (w = b) then Token.value T else 0)
            - (if decide (w = a) then Token.value T else 0))%Z.
Proof.
  intros Hr E.
  apply transfer_token_true in E as (T & HT & Ho & _ & [B HB] & Ht' & _).
  exists T. split; [exact HT|]. intros w.
  destruct (reachable_wallet_wf s Hr b B HB) as (_ & Hb & _).
  unfold TokenManager.get_total_value_by_owner, TokenManager.get_tokens_by_owner,
    TokenManager.list_all_tokens.
  rewrite (total_value_split _ (tokens s) t T HT).
  rewrite (total_value_split _ (tokens s') t (snd (Token.transfer_ownership b T)))
    by (rewrite Ht'; apply lookup_insert_eq).
  rewrite Ht', delete_insert_eq.
  unfold Token.transfer_ownership. rewrite (nonempty_truthy b Hb). cbn. rewrite Ho.
  destruct (decide (b = w)), (decide (a = w)), (decide (w = b)), (decide (w = a));
    try congruence; lia.
Qed.

Lemma transfer_token_total_value_witness :
  exists T,
    TokenManager.get_token "T3" market_online = Some T
    /\ forall w,
         TokenManager.get_total_value_by_owner w
           (snd (TokenManager.transfer_token "T3" "W2" "W3" market_online))
         = (TokenManager.get_total_value_by_owner w market_online
            + (if decide (w = "W3") then Token.value T else 0)
            - (if decide (w = "W2") then Token.value T else 0))%Z.
Proof.
  apply (transfer_token_total_value market_online
           (snd (TokenManager.transfer_token "T3" "W2" "W3" market_online))
           "T3" "W2" "W3" market_online_reachable).
  vm_compute. reflexivity.
Defined.

(** ** The AML registry (compliance.py) *)

Definition registry_inv (s : System) : Prop :=
  Forall aml_entry_ok (aml_registry s)
  /\ (authority_contacted s = true
      <-> Exists (fun e => AMLEntry.escalated e = true) (aml_registry s)).

Lemma registry_inv_same s s' :
  aml_registry s' = aml_registry s -> authority_contacted s' = authority_contacted s ->
  registry_inv s -> registry_inv s'.
Proof. unfold registry_inv. intros -> ->. tauto. Qed.

Lemma registry_inv_prim s s' : registry_inv s -> prim s s' -> registry_inv s'.
Proof.
  intros I Hp.
  destruct Hp as [w k Hf|v w t Hf|t a b|w l v now Hf|v x n|x tk now|x now dk|tid x Hc
                 |a b t v x now Hf Hn|x w sg|x otx Hx|x otx now Hx].
  - apply (registry_inv_same s); [apply create_wallet_frame.. | exact I].
  - apply (registry_inv_same s); [apply issue_token_frame.. | exact I].
  - apply (registry_inv_same s); [apply transfer_token_frame.. | exact I].
  - apply (registry_inv_same s); [apply issue_voucher_frame.. | exact I].
  - apply (registry_inv_same s); [apply redeem_voucher_frame.. | exact I].
  - destruct (check_transaction_registry x tk now s)
      as [(_ & _ & E1 & E2)|(e & _ & E1 & Hok & _ & _ & _ & _ & _ & E2)].
    + apply (registry_inv_same s); assumption.
    + destruct I as [I1 I2]. unfold registry_inv. rewrite E1, E2. split.
      * apply Forall_app. split; [exact I1|]. apply Forall_singleton, Hok.
      * rewrite Exists_app, Exists_cons, Exists_nil, orb_true_iff, I2. tauto.
  - apply (registry_inv_same s); [apply store_transaction_frame.. | exact I].
  - exact I.
  - apply (registry_inv_same s); [apply create_offline_transaction_frame.. | exact I].
  - apply (registry_inv_same s); [apply sign_offline_transaction_frame.. | exact I].
  - exact I.
  - exact I.
Qed.

Lemma reachable_registry_inv s : reachable s -> registry_inv s.
Proof.
  apply reachable_prims_invariant; [|apply registry_inv_prim].
  split; [constructor|]. cbn. rewrite Exists_nil. split; [discriminate | tauto].
Qed.

Lemma list_filter_all {A : Type} (P : A -> Prop) `{!forall x, Decision (P x)} (l : list A) :
  Forall P l -> filter P l = l.
Proof.
  induction 1 as [|x l Hx _ IH]; [reflexivity|].
  rewrite filter_cons, decide_True by exact Hx. f_equal. exact IH.
Qed.

Lemma list_filter_on {A : Type} (P Q : A -> Prop)
  `{!forall x, Decision (P x)} `{!forall x, Decision (Q x)} (l : list A) :
  (forall x, x ∈ l -> P x <-> Q x) -> filter P l = filter Q l.
Proof.
  induction l as [|x l IH]; intros Hl; [reflexivity|].
  rewrite !filter_cons.
  assert (P x <-> Q x) as Hx by (apply Hl; left).
  rewrite IH by (intros y Hy; apply Hl; right; exact Hy).
  destruct (decide (P x)), (decide (Q x)); tauto.
Qed.

(** X17. In a reachable state every entry of the registry concerns a value
    above 100 and scored 0.7 or 1.0; it is escalated, and notified to the
    authority, exactly when its score is at least 0.8. So
    [get_flagged_transactions] is the whole registry,
    [get_high_risk_transactions] is [get_escalated_transactions], and the
    authority has been contacted exactly when an entry is escalated. *)
Theorem compliance_registry_consistent (s : System) :
  reachable s ->
  (forall e, e ∈ ComplianceManager.get_aml_entries s ->
     (100 < AMLEntry.amount e)%Z
     /\ (AMLEntry.risk_score e = 0.7%float \/ AMLEntry.risk_score e = 1.0%float)
     /\ AMLEntry.escalated e = (0.8 <=? AMLEntry.risk_score e)%float
     /\ AMLEntry.authority_notified e = AMLEntry.escalated e)
  /\ ComplianceManager.get_flagged_transactions s = ComplianceManager.get_aml_entries s
  /\ ComplianceManager.get_high_risk_transactions s
     = ComplianceManager.get_escalated_transactions s
  /\ (authority_contacted s = true
      <-> ComplianceManager.get_escalated_transactions s <> []).
Proof.
  intros Hr. destruct (reachable_registry_inv s Hr) as [I1 I2].
  unfold ComplianceManager.get_aml_entries, ComplianceManager.get_flagged_transactions,
    ComplianceManager.get_high_risk_transactions,
    ComplianceManager.get_escalated_transactions.
  rewrite Forall_forall in I1.
  repeat apply conj.
  - intros e He. destruct (I1 e He) as [Hv [(R & E1 & E2)|(R & E1 & E2)]];
      rewrite R, E1, E2; repeat split; auto.
  - apply list_filter_all. apply Forall_forall. intros e He.
    destruct (I1 e He) as [_ [(R & _)|(R & _)]]; rewrite R; reflexivity.
  - apply list_filter_on. intros e He.
    destruct (I1 e He) as [_ [(R & E1 & _)|(R & E1 & _)]]; rewrite R, E1;
      split; intros H; try reflexivity; discriminate H.
  - rewrite I2, Exists_exists. intros (e & He & Hesc) Hnil.
    assert (e ∈ filter (fun e => AMLEntry.escalated e = true) (aml_registry s)) as Hin
      by (apply list_elem_of_filter; split; assumption).
    rewrite Hnil in Hin. apply elem_of_nil in Hin. exact Hin.
  - rewrite I2, Exists_exists. intros Hne.
    destruct (filter (fun e => AMLEntry.escalated e = true) (aml_registry s))
      as [|e l] eqn:E; [congruence|].
    assert (e ∈ e :: l) as Hin by left. rewrite <- E in Hin.
    apply list_elem_of_filter in Hin as [Hesc He]. exists e. split; assumption.
Qed.

Lemma compliance_registry_consistent_witness :
  (forall e, e ∈ ComplianceManager.get_aml_entries market ->
     (100 < AMLEntry.amount e)%Z
     /\ (AMLEntry.risk_score e = 0.7%float \/ AMLEntry.risk_score e = 1.0%float)
     /\ AMLEntry.escalated e = (0.8 <=? AMLEntry.risk_score e)%float
     /\ AMLEntry.authority_notified e = AMLEntry.escalated e)
  /\ ComplianceManager.get_flagged_transactions market
     = ComplianceManager.get_aml_entries market
  /\ ComplianceManager.get_high_risk_transactions market
     = ComplianceManager.get_escalated_transactions market
  /\ (authority_contacted market = true
      <-> ComplianceManager.get_escalated_transactions market <> []).
Proof. exact (compliance_registry_consistent market market_reachable). Defined.

Lemma rtc_registry_prefix s s' :
  rtc prim s s' ->
  aml_registry s `prefix_of` aml_registry s'
  /\ (authority_contacted s = true -> authority_contacted s' = true).
Proof.
  induction 1 as [s|s s1 s' Hp _ IH].
  - split; [reflexivity | tauto].
  - assert (aml_registry s `prefix_of` aml_registry s1
            /\ (authority_contacted s = true -> authority_contacted s1 = true)) as [P1 P2].
    { assert (forall s1, aml_registry s1 = aml_registry s ->
                         authority_contacted s1 = authority_contacted s ->
                         aml_registry s `prefix_of` aml_registry s1
                         /\ (authority_contacted s = true -> authority_contacted s1 = true))
        as Hsame by (clear; intros s1 -> ->; split; [reflexivity | tauto]).
      destruct Hp as [w k Hf|v w t Hf|t a b|w l v now Hf|v x n|x tk now|x now dk|tid x Hc
                     |a b t v x now Hf Hn|x w sg|x otx Hx|x otx now Hx].
      - apply Hsame; apply create_wallet_frame.
      - apply Hsame; apply issue_token_frame.
      - apply Hsame; apply transfer_token_frame.
      - apply Hsame; apply issue_voucher_frame.
      - apply Hsame; apply redeem_voucher_frame.
      - destruct (check_transaction_registry x tk now s)
          as [(_ & _ & E1 & E2)|(e & _ & E1 & _ & _ & _ & _ & _ & _ & E2)].
        + apply Hsame; assumption.
        + rewrite E1, E2. split; [apply prefix_app_r; reflexivity|].
          intros ->. reflexivity.
      - apply Hsame; apply store_transaction_frame.
      - apply Hsame; reflexivity.
      - apply Hsame; apply create_offline_transaction_frame.
      - apply Hsame; apply sign_offline_transaction_frame.
      - apply Hsame; reflexivity.
      - apply Hsame; reflexivity. }
    destruct IH as [Q1 Q2]. split; [etrans; eassumption | auto].
Qed.

(** X18. Along a run the registry only grows at its end, and once the
    authority has been contacted it stays so: no entry is removed or
    rewritten by a later call. *)
Theorem aml_registry_append_only (ops : list op) (s s' : System) :
  run ops s = Some s' ->
  ComplianceManager.get_aml_entries s `prefix_of` ComplianceManager.get_aml_entries s'
  /\ (authority_contacted s = true -> authority_contacted s' = true).
Proof.
  intros Hrun. apply rtc_registry_prefix. eapply run_prims, Hrun.
Qed.

Lemma aml_registry_append_only_witness :
  let s := default init (run (take 9 market_ops) init) in
  ComplianceManager.get_aml_entries s `prefix_of` ComplianceManager.get_aml_entries market
  /\ (authority_contacted s = true -> authority_contacted market = true).
Proof.
  apply (aml_registry_append_only (drop 9 market_ops)
           (default init (run (take 9 market_ops) init)) market).
  vm_compute. reflexivity.
Defined.

(** ** The ledger (ledger.py) *)

(** An entry is stored under its own id, and its type agrees with its
    anonymity flag. *)
Definition entry_wf (k : string) (e : LedgerEntry.t) : Prop :=
  LedgerEntry.entry_id e = k
  /\ (LedgerEntry.entry_type e = ANONYMOUS -> LedgerEntry.is_anonymous e = true)
  /\ (LedgerEntry.entry_type e = NON_ANONYMOUS -> LedgerEntry.is_anonymous e = false).

(** The entry ids are the numerals below the counter, all of them. *)
Definition ledger_dense (s : System) : Prop :=
  size (entries s) = N.to_nat (entry_counter s)
  /\ (forall n, (n < entry_counter s)%N -> is_Some (entries s !! pretty n))
  /\ (forall k e, entries s !! k = Some e -> entry_wf k e).

Lemma store_transaction_entry_wf x now dk s :
  let r := LedgerManager.store_transaction x now dk s in
  exists e,
    entries (snd r) = <[pretty (entry_counter s) := e]> (entries s)
    /\ entry_counter (snd r) = (entry_counter s + 1)%N
    /\ entry_wf (pretty (entry_counter s)) e
    /\ LedgerEntry.transaction_id e = Transaction.transaction_id x.
Proof.
  cbv zeta. rewrite store_transaction_state.
  unfold LedgerManager.store_transaction. cbn. eexists.
  split; [reflexivity|]. split; [reflexivity|]. split; [|reflexivity].
  unfold entry_wf. cbn.
  destruct (Transaction.aml_flagged x), (Transaction.is_anonymous x);
    repeat split; intros; congruence.
Qed.

Lemma ledger_dense_prim s s' :
  ledger_inv s /\ ledger_dense s -> prim s s' -> ledger_inv s' /\ ledger_dense s'.
Proof.
  intros [I D] Hp. split; [eapply ledger_inv_prim; eassumption|].
  assert (forall s1, entries s1 = entries s -> entry_counter s1 = entry_counter s ->
                     ledger_dense s1) as Hsame.
  { intros s1 E1 E2. unfold ledger_dense. rewrite E1, E2. exact D. }
  destruct Hp as [w k Hf|v w t Hf|t a b|w l v now Hf|v x n|x tk now|x now dk|tid x Hc
                 |a b t v x now Hf Hn|x w sg|x otx Hx|x otx now Hx].
  - use_frame (create_wallet_frame w k s). apply Hsame; assumption.
  - use_frame (issue_token_frame v w t s). apply Hsame; assumption.
  - use_frame (transfer_token_frame t a b s). apply Hsame; assumption.
  - use_frame (issue_voucher_frame w l v now s). apply Hsame; assumption.
  - use_frame (redeem_voucher_frame v x n s). apply Hsame; assumption.
  - use_frame (check_transaction_frame x tk now s). apply Hsame; assumption.
  - destruct (store_transaction_entry_wf x now dk s) as (e & E1 & E2 & Hwf & _).
    destruct D as (D1 & D2 & D3). unfold ledger_dense. rewrite E1, E2.
    pose proof (ledger_inv_fresh s I) as Hfresh. repeat apply conj.
    + rewrite map_size_insert_None by exact Hfresh. lia.
    + intros n Hn. destruct (decide (n = entry_counter s)) as [->|Hne].
      * rewrite lookup_insert_eq. eauto.
      * rewrite lookup_insert_ne by (intros H; apply (inj pretty) in H; congruence).
        apply D2. lia.
    + intros k e0. destruct (decide (pretty (entry_counter s) = k)) as [<-|Hne].
      * rewrite lookup_insert_eq. intros [= <-]. exact Hwf.
      * rewrite lookup_insert_ne by exact Hne. apply D3.
  - apply Hsame; reflexivity.
  - use_frame (create_offline_transaction_frame a b t v x now s). apply Hsame; assumption.
  - use_frame (sign_offline_transaction_frame x w sg s). apply Hsame; assumption.
  - apply Hsame; reflexivity.
  - apply Hsame; reflexivity.
Qed.

Lemma reachable_ledger_dense s : reachable s -> ledger_inv s /\ ledger_dense s.
Proof.
  apply (reachable_prims_invariant (fun s => ledger_inv s /\ ledger_dense s));
    [|apply ledger_dense_prim].
  split; [intros k e; cbn; rewrite lookup_empty; discriminate|].
  unfold ledger_dense. cbn. repeat apply conj.
  - reflexivity.
  - intros n Hn. lia.
  - intros k e. rewrite lookup_empty. discriminate.
Qed.

(** X19. In a reachable state the entry ids of the ledger are exactly the
    numerals 0, 1, ... below the entry counter, so the ledger has as many
    entries as the counter says; an entry is stored under its own id; an
    entry of type anonymous is anonymous and an entry of type
    non-anonymous is not. *)
Theorem ledger_wellformed (s : System) :
  reachable s ->
  size (entries s) = N.to_nat (entry_counter s)
  /\ (forall k, is_Some (LedgerManager.get_entry k s)
                <-> exists n, (n < entry_counter s)%N /\ k = pretty n)
  /\ (forall k e, LedgerManager.get_entry k s = Some e ->
        LedgerEntry.entry_id e = k
        /\ (e ∈ LedgerManager.get_anonymous_entries s -> LedgerEntry.is_anonymous e = true)
        /\ (e ∈ LedgerManager.get_non_anonymous_entries s ->
            LedgerEntry.is_anonymous e = false)).
Proof.
  intros Hr. destruct (reachable_ledger_dense s Hr) as [I (D1 & D2 & D3)].
  unfold LedgerManager.get_entry. split; [exact D1|]. split.
  - intros k. split.
    + intros [e He]. apply (I k e He).
    + intros (n & Hn & ->). apply D2, Hn.
  - intros k e He. destruct (D3 k e He) as (W1 & W2 & W3). split; [exact W1|]. split.
    + intros Hin. apply list_elem_of_filter in Hin as [Ht _]. apply W2, Ht.
    + intros Hin. apply list_elem_of_filter in Hin as [Ht _]. apply W3, Ht.
Qed.

Lemma ledger_wellformed_witness :
  size (entries market) = N.to_nat (entry_counter market)
  /\ (forall k, is_Some (LedgerManager.get_entry k market)
                <-> exists n, (n < entry_counter market)%N /\ k = pretty n)
  /\ (forall k e, LedgerManager.get_entry k market = Some e ->
        LedgerEntry.entry_id e = k
        /\ (e ∈ LedgerManager.get_anonymous_entries market ->
            LedgerEntry.is_anonymous e = true)
        /\ (e ∈ LedgerManager.get_non_anonymous_entries market ->
            LedgerEntry.is_anonymous e = false)).
Proof. exact (ledger_wellformed market market_reachable). Defined.

Lemma rtc_ledger_mono s s' :
  rtc prim s s' -> ledger_inv s ->
  (forall k e, entries s !! k = Some e -> entries s' !! k = Some e)
  /\ (entry_counter s <= entry_counter s')%N.
Proof.
  induction 1 as [s|s s1 s' Hp _ IH]; intros I; [split; [tauto | lia]|].
  assert ((forall k e, entries s !! k = Some e -> entries s1 !! k = Some e)
          /\ (entry_counter s <= entry_counter s1)%N) as [M1 M2].
  { assert (forall s1, entries s1 = entries s -> entry_counter s1 = entry_counter s ->
              (forall k e, entries s !! k = Some e -> entries s1 !! k = Some e)
              /\ (entry_counter s <= entry_counter s1)%N) as Hsame
      by (clear; intros s1 -> ->; split; [tauto | lia]).
    destruct Hp as [w k Hf|v w t Hf|t a b|w l v now Hf|v x n|x tk now|x now dk|tid x Hc
                   |a b t v x now Hf Hn|x w sg|x otx Hx|x otx now Hx].
    - use_frame (create_wallet_frame w k s). apply Hsame; assumption.
    - use_frame (issue_token_frame v w t s). apply Hsame; assumption.
    - use_frame (transfer_token_frame t a b s). apply Hsame; assumption.
    - use_frame (issue_voucher_frame w l v now s). apply Hsame; assumption.
    - use_frame (redeem_voucher_frame v x n s). apply Hsame; assumption.
    - use_frame (check_transaction_frame x tk now s). apply Hsame; assumption.
    - destruct (store_transaction_entry_wf x now dk s) as (e & E1 & E2 & _).
      rewrite E1, E2. split; [|lia]. intros k e0 Hk.
      rewrite lookup_insert_ne; [exact Hk|]. intros <-.
      rewrite (ledger_inv_fresh s I) in Hk. discriminate Hk.
    - apply Hsame; reflexivity.
    - use_frame (create_offline_transaction_frame a b t v x now s). apply Hsame; assumption.
    - use_frame (sign_offline_transaction_frame x w sg s). apply Hsame; assumption.
    - apply Hsame; reflexivity.
    - apply Hsame; reflexivity. }
  destruct (IH (ledger_inv_prim s s1 I Hp)) as [Q1 Q2]. split; [auto | lia].
Qed.

(** X20. From a reachable state on, the ledger is append-only: whatever is
    called next, an entry stays under its id as it is, and the counter
    does not go down. *)
Theorem ledger_append_only (ops : list op) (s s' : System) :
  reachable s ->
  run ops s = Some s' ->
  (forall k e, LedgerManager.get_entry k s = Some e -> LedgerManager.get_entry k s' = Some e)
  /\ (entry_counter s <= entry_counter s')%N.
Proof.
  intros Hr Hrun. apply rtc_ledger_mono; [apply run_prims in Hrun; exact Hrun|].
  apply reachable_ledger_inv, Hr.
Qed.

Lemma ledger_append_only_witness :
  (forall k e, LedgerManager.get_entry k market_online = Some e ->
               LedgerManager.get_entry k market = Some e)
  /\ (entry_counter market_online <= entry_counter market)%N.
Proof.
  apply (ledger_append_only (drop 11 market_ops) market_online market
           market_online_reachable).
  vm_compute. reflexivity.
Defined.

(** ** What a completed transfer leaves behind (transaction.py) *)

Lemma rtc_used_voucher s s' vid V :
  rtc prim s s' ->
  vouchers s !! vid = Some V -> Voucher.is_used V = true ->
  vouchers s' !! vid = Some V.
Proof.
  induction 1 as [s|s s1 s' Hp _ IH]; intros HV Hu; [exact HV|].
  apply IH; [|exact Hu]. eapply prim_used_voucher; eassumption.
Qed.

(** A refused request leaves the state as it is; a valid request fails
    only when the write of the ledger file raises. *)
Lemma execute_transfer_err a b t v x now dk s msg s' :
  TransactionEngine.execute_transfer a b t v x now dk s = (Err msg, s') ->
  s' = s \/ (transfer_valid a b t v s /\ dk = Some msg).
Proof.
  intros E. destruct (transfer_validation a b t v x now dk s) as [Hvalid|[[msg' E'] _]].
  - right. split; [exact Hvalid|].
    pose proof Hvalid as (_ & _ & _ & _ & _ & _ & token & Htok & _).
    destruct (execute_transfer_valid_eq a b t v x now dk s token Hvalid Htok) as (E' & _).
    cbv zeta in E'. rewrite E in E'. destruct dk as [m|]; [|discriminate E'].
    injection E' as -> _. reflexivity.
  - left. rewrite E in E'. injection E' as _ <-. reflexivity.
Qed.

(** A write of the ledger file that succeeded. *)
Lemma execute_transfer_ok a b t v x now dk s tx s' :
  TransactionEngine.execute_transfer a b t v x now dk s = (Ok tx, s') -> dk = None.
Proof.
  intros E. destruct (transfer_validation a b t v x now dk s) as [Hvalid|[[msg' E'] _]].
  - pose proof Hvalid as (_ & _ & _ & _ & _ & _ & token & Htok & _).
    destruct (execute_transfer_valid_eq a b t v x now dk s token Hvalid Htok) as (E' & _).
    cbv zeta in E'. rewrite E in E'. destruct dk as [m|]; [discriminate E' | reflexivity].
  - rewrite E in E'. discriminate E'.
Qed.

Lemma execute_transfer_offline a b t v x now dk s :
  offline_transactions (snd (TransactionEngine.execute_transfer a b t v x now dk s))
  = offline_transactions s.
Proof.
  destruct (transfer_validation a b t v x now dk s) as [Hvalid|[[msg E] _]];
    [|rewrite E; reflexivity].
  pose proof Hvalid as (_ & _ & _ & _ & _ & _ & token & Htok & _).
  destruct (execute_transfer_valid_eq a b t v x now dk s token Hvalid Htok) as (E & _).
  cbv zeta in E. rewrite E.
  set (x0 := new_transaction a b t v x now (truthy_opt v)) in *.
  pose proof (check_transaction_frame x0 token now s) as F1.
  destruct (ComplianceManager.check_transaction x0 token now s) as [cr s1].
  cbn [fst snd] in *. destruct F1 as (_ & _ & _ & _ & _ & _ & F1o).
  pose proof (transfer_token_frame t a b s1) as F2.
  destruct (TokenManager.transfer_token t a b s1) as [ok s2].
  cbn [fst snd] in *. destruct F2 as (_ & _ & _ & _ & _ & _ & F2o).
  destruct (redeem_if_present v x (Token.value token) s2) as [red s3] eqn:E3.
  pose proof (redeem_if_present_frame v x (Token.value token) s2 red s3 E3)
    as (_ & _ & _ & _ & _ & _ & F3o).
  cbn [fst snd] in *.
  match goal with
  | |- context [LedgerManager.store_transaction ?y now dk s3] =>
      pose proof (store_transaction_frame y now dk s3) as (_ & _ & _ & _ & _ & _ & F4o)
  end.
  destruct dk; cbn [snd offline_transactions set_transactions];
    rewrite F4o, F3o, F2o, F1o; reflexivity.
Qed.

Lemma str_or_same (a : string) : str_or a a = a.
Proof. unfold str_or. destruct (truthy a); reflexivity. Qed.

(** A successful [execute_transfer], step by step. *)
Lemma execute_transfer_effect a b t v x now dk s tx s' :
  TransactionEngine.execute_transfer a b t v x now dk s = (Ok tx, s') ->
  transfer_valid a b t v s
  /\ exists token cr s1 s2 s3,
       tokens s !! t = Some token
       /\ ComplianceManager.check_transaction
            (new_transaction a b t v x now (truthy_opt v)) token now s = (cr, s1)
       /\ TokenManager.transfer_token t a b s1 = (true, s2)
       /\ redeem_if_present v x (Token.value token) s2 = (true, s3)
       /\ tx = Transaction.set_status COMPLETED
                 (signed_transaction (wallets s3 !! a)
                    (checked_transaction
                       (new_transaction a b t v x now (truthy_opt v)) cr))
       /\ is_Some (wallets s3 !! a)
       /\ wallets s' = wallets s3 /\ tokens s' = tokens s2 /\ vouchers s' = vouchers s3
       /\ aml_registry s' = aml_registry s1
       /\ authority_contacted s' = authority_contacted s1
       /\ offline_transactions s' = offline_transactions s
       /\ transactions s' = <[x := tx]> (transactions s)
       /\ entry_counter s' = (entry_counter s + 1)%N
       /\ entries s'
          = <[pretty (entry_counter s) :=
                LedgerEntry.mk (pretty (entry_counter s)) x a b t (Token.value token)
                  (truthy_opt v)
                  (if Transaction.aml_flagged tx then AML_FLAGGED
                   else if truthy_opt v then ANONYMOUS else NON_ANONYMOUS)
                  now v "completed" (Transaction.aml_reason tx)]> (entries s).
Proof.
  intros E. pose proof (execute_transfer_ok a b t v x now dk s tx s' E) as ->.
  destruct (transfer_validation a b t v x now None s) as [Hvalid|[[msg' E'] _]];
    [|rewrite E in E'; discriminate E'].
  split; [exact Hvalid|].
  pose proof Hvalid as (_ & _ & _ & _ & HA & _ & token & Htok & _).
  destruct (execute_transfer_valid_eq a b t v x now None s token Hvalid Htok)
    as (E' & Hok & Hred).
  cbv zeta in E', Hok, Hred. rewrite E in E'.
  set (x0 := new_transaction a b t v x now (truthy_opt v)) in *.
  destruct (ComplianceManager.check_transaction x0 token now s) as [cr s1] eqn:E1.
  pose proof (check_transaction_frame x0 token now s) as F1. rewrite E1 in F1.
  cbn [fst snd] in *. destruct F1 as (F1w & F1t & F1v & F1e & F1c & F1x & F1o).
  destruct (TokenManager.transfer_token t a b s1) as [ok s2] eqn:E2.
  pose proof (transfer_token_frame t a b s1) as F2. rewrite E2 in F2.
  cbn [fst snd] in *. subst ok. destruct F2 as (F2v & F2a & F2c & F2e & F2n & F2x & F2o).
  destruct (redeem_if_present v x (Token.value token) s2) as [red s3] eqn:E3.
  cbn [fst snd] in *. subst red.
  pose proof (redeem_if_present_frame v x (Token.value token) s2 true s3 E3)
    as (F3t & F3a & F3c & F3e & F3n & F3x & F3o).
  assert (is_Some (wallets s3 !! a)) as HA3.
  { apply (rtc_wallets_mono s); [|exact HA].
    eapply rtc_l; [eapply prim_check, E1|].
    eapply rtc_l; [eapply prim_transfer, E2|].
    eapply redeem_if_present_prims, E3. }
  assert (exists T3, tokens s3 !! t = Some T3 /\ Token.value T3 = Token.value token)
    as (T3 & HT3 & HvT3).
  { destruct (rtc_same_token s1 s3 t token) as (T3 & HT3 & _ & Hv & _).
    - eapply rtc_l; [eapply prim_transfer, E2|]. eapply redeem_if_present_prims, E3.
    - rewrite F1t. exact Htok.
    - exists T3. split; assumption. }
  injection E' as Etx Es.
  exists token, cr, s1, s2, s3.
  split; [exact Htok|]. split; [exact E1|]. split; [exact E2|].
  split; [exact E3|]. split; [exact Etx|]. split; [exact HA3|].
  rewrite Es, Etx. destruct HA3 as [W HW]. rewrite HW. subst x0.
  unfold TokenManager.get_token. cbn. rewrite HT3, HvT3, str_or_same.
  rewrite F3x, F2x, F1x, F3n, F2n, F1c, F3e, F2e, F1e, F3a, F2a, F3c, F2c, F3o, F2o, F1o.
  repeat split; first [reflexivity | exact F3t].
Qed.

Lemma sync_with_ledger_transactions x now dk s :
  transactions (snd (OfflineManager.sync_with_ledger x now dk s)) = transactions s.
Proof.
  unfold OfflineManager.sync_with_ledger.
  destruct (offline_transactions s !! x) as [otx|]; [|reflexivity].
  destruct (negb _); [reflexivity|].
  destruct (TokenManager.transfer_token _ _ _ s) as [ok s1] eqn:E1.
  pose proof (transfer_token_frame (OfflineTransaction.token_id otx)
                (OfflineTransaction.sender_wallet_id otx)
                (OfflineTransaction.receiver_wallet_id otx) s) as F1.
  rewrite E1 in F1. cbn [snd] in F1. destruct F1 as (_ & _ & _ & _ & _ & F1x & _).
  destruct (negb ok); [exact F1x|].
  match goal with
  | |- context [match ?e with (_, _) => _ end] => destruct e as [red s2] eqn:E2
  end.
  pose proof (redeem_if_present_frame _ _ _ _ _ _ E2) as (_ & _ & _ & _ & _ & F2x & _).
  destruct (negb red); [cbn; congruence|].
  pose proof (store_transaction_frame (OfflineManager.MockTransaction otx) now dk s2) as F3.
  destruct (LedgerManager.store_transaction _ _ _ _) as [[eid|msg] s3];
    cbn [snd] in F3; destruct F3 as (_ & _ & _ & _ & _ & F3x & _); cbn; congruence.
Qed.

(** A call whose ledger write raises. *)
Definition write_failed (o : op) : bool :=
  match o with
  | op_execute_transfer _ _ _ _ _ _ (Some _) | op_sync_with_ledger _ _ (Some _) => true
  | _ => false
  end.

(** A call of a run is a completed [execute_transfer], or it leaves the
    transaction store as it is; and then it leaves the AML registry as it
    is too, unless it is an [execute_transfer] whose ledger write
    raised. *)
Lemma step_frame o s :
  (transactions (step o s) = transactions s
   /\ (write_failed o = false -> aml_registry (step o s) = aml_registry s))
  \/ exists a b t v x now tx,
       o = op_execute_transfer a b t v x now None
       /\ TransactionEngine.execute_transfer a b t v x now None s = (Ok tx, step o s).
Proof.
  destruct o as [w k|v w t|t a b|w l v now|v x n|a b t v x now dk|a b t v x now|x w sg|x now dk];
    cbn [step].
  - left. split; [|intros _]; apply create_wallet_frame.
  - left. split; [|intros _]; apply issue_token_frame.
  - left. split; [|intros _]; apply transfer_token_frame.
  - left. split; [|intros _]; apply issue_voucher_frame.
  - left. split; [|intros _]; apply redeem_voucher_frame.
  - destruct (TransactionEngine.execute_transfer a b t v x now dk s) as [[tx|msg] s'] eqn:E.
    + pose proof (execute_transfer_ok a b t v x now dk s tx s' E) as ->.
      right. exists a, b, t, v, x, now, tx. split; [reflexivity | exact E].
    + left. pose proof E as E0. apply execute_transfer_cases in E0. cbn [snd].
      split; [exact E0|]. intros Hw.
      apply execute_transfer_err in E as [->|[_ ->]]; [reflexivity | discriminate Hw].
  - left. split; [|intros _]; apply create_offline_transaction_frame.
  - left. split; [|intros _]; apply sign_offline_transaction_frame.
  - left. split; [apply sync_with_ledger_transactions
                 | intros _; apply sync_with_ledger_no_compliance].
Qed.

(** What the stores hold for a stored transaction. *)
Definition audited (s : System) (x : string) (tx : Transaction.t) : Prop :=
  Transaction.transaction_id tx = x
  /\ Transaction.sender_wallet_id tx <> Transaction.receiver_wallet_id tx
  /\ Transaction.is_anonymous tx = truthy_opt (Transaction.voucher_id tx)
  /\ (exists k e,
        entries s !! k = Some e
        /\ LedgerEntry.transaction_id e = x
        /\ LedgerEntry.sender_wallet_id e = Transaction.sender_wallet_id tx
        /\ LedgerEntry.receiver_wallet_id e = Transaction.receiver_wallet_id tx
        /\ LedgerEntry.token_id e = Transaction.token_id tx
        /\ LedgerEntry.is_anonymous e = Transaction.is_anonymous tx
        /\ LedgerEntry.metadata_voucher_id e = Transaction.voucher_id tx
        /\ LedgerEntry.metadata_status e = "completed"
        /\ (LedgerEntry.entry_type e = AML_FLAGGED <-> Transaction.aml_flagged tx = true))
  /\ (Transaction.aml_flagged tx = true ->
      exists e, e ∈ aml_registry s /\ AMLEntry.transaction_id e = x)
  /\ (forall vid,
        Transaction.voucher_id tx = Some vid -> vid <> "" ->
        exists V,
          vouchers s !! vid = Some V /\ Voucher.is_used V = true
          /\ Voucher.used_in_transaction V = Some x
          /\ Voucher.issued_to_wallet_id V = Transaction.sender_wallet_id tx)
  /\ (exists T,
        tokens s !! Transaction.token_id tx = Some T
        /\ (Transaction.aml_flagged tx = true
            <-> (ComplianceManager.high_value_threshold < Token.value T)%Z)).

(** Every stored transaction is audited. *)
Definition audit_inv (s : System) : Prop :=
  forall x tx, transactions s !! x = Some tx -> audited s x tx.

(** Every entry of the registry belongs to a stored, flagged transaction.
    This is lost when the ledger write of an [execute_transfer] raises:
    the entry was appended before, and the transaction is not stored. *)
Definition registry_backed (s : System) : Prop :=
  forall e, e ∈ aml_registry s ->
    exists tx,
      transactions s !! AMLEntry.transaction_id e = Some tx
      /\ Transaction.aml_flagged tx = true
      /\ Transaction.sender_wallet_id tx = AMLEntry.sender_wallet_id e
      /\ Transaction.receiver_wallet_id tx = AMLEntry.receiver_wallet_id e
      /\ Transaction.token_id tx = AMLEntry.token_id e.

Lemma audited_mono s s' x tx :
  rtc prim s s' -> ledger_inv s -> audited s x tx -> audited s' x tx.
Proof.
  intros Hrtc I (A1 & A2 & A3 & (k & e & He & A4) & A5 & A6 & (T & HT & A7)).
  destruct (rtc_ledger_mono s s' Hrtc I) as [M _].
  destruct (rtc_registry_prefix s s' Hrtc) as [[l Hl] _].
  destruct (rtc_same_token s s' _ T Hrtc HT) as (T' & HT' & _ & HvT & _).
  unfold audited. repeat apply conj; try assumption.
  - exists k, e. split; [apply M, He | exact A4].
  - intros Hf. destruct (A5 Hf) as (ae & Hin & Hid). exists ae.
    split; [|exact Hid]. rewrite Hl. apply elem_of_app. left. exact Hin.
  - intros vid Hv Hne. destruct (A6 vid Hv Hne) as (V & HV & Hu & Hx).
    exists V. split; [|split; [exact Hu | exact Hx]].
    eapply rtc_used_voucher; eassumption.
  - exists T'. rewrite HvT. split; [exact HT' | exact A7].
Qed.

Lemma new_transaction_fields a b t v x now anon :
  let x0 := new_transaction a b t v x now anon in
  Transaction.transaction_id x0 = x
  /\ Transaction.sender_wallet_id x0 = a
  /\ Transaction.receiver_wallet_id x0 = b
  /\ Transaction.token_id x0 = t.
Proof. repeat split. Qed.

Lemma audit_inv_step o s :
  ledger_inv s /\ audit_inv s -> env_ok o s = true ->
  (ledger_inv (step o s) /\ audit_inv (step o s))
  /\ (write_failed o = false -> registry_backed s -> registry_backed (step o s)).
Proof.
  intros [I A] Hok.
  pose proof (step_prims o s Hok) as Hrtc.
  assert (ledger_inv (step o s)) as I'
    by (eapply (prims_invariant ledger_inv); [apply ledger_inv_prim | exact Hrtc | exact I]).
  destruct (step_frame o s) as [[Ex Er]|(a & b & t & v & x & now & tx & -> & E)].
  - split; [split; [exact I'|]|].
    + intros x tx. rewrite Ex. intros H. apply (audited_mono s); auto.
    + intros Hw R e. rewrite (Er Hw), Ex. apply R.
  - cbn [env_ok] in Hok. apply andb_true_iff in Hok as [Hfresh _].
    apply is_None_true in Hfresh.
    set (s' := step (op_execute_transfer a b t v x now None) s) in *.
    destruct (execute_transfer_effect a b t v x now None s tx s' E)
      as (Hvalid & token & cr & s1 & s2 & s3 & Htok & E1 & E2 & E3 & Etx & HA3
          & Fw & Ft & Fv & Fa & Fc & Fo & Fx & Fn & Fe).
    destruct Hvalid as (_ & _ & _ & Hab & _ & _ & token' & Htok' & _ & Hvv).
    destruct (transaction_fields a b t v x now (truthy_opt v) cr (wallets s3 !! a))
      as (T1 & T2 & T3 & T4 & T5 & T6 & T7 & T8 & T9 & T10).
    rewrite <- Etx in T1, T2, T3, T4, T5, T6, T7, T8, T9, T10.
    pose proof (check_transaction_registry
                  (new_transaction a b t v x now (truthy_opt v)) token now s) as Hreg.
    cbv zeta in Hreg. rewrite E1 in Hreg. cbn [fst snd] in Hreg.
    destruct (new_transaction_fields a b t v x now (truthy_opt v)) as (N1 & N2 & N3 & N4).
    assert (audited s' x tx) as Hnew.
    { unfold audited. rewrite T1, T2, T3, T4, T5, T6. repeat apply conj; auto.
      - eexists _, _. split; [rewrite Fe; apply lookup_insert_eq|]. cbn.
        repeat apply conj; try reflexivity.
        + destruct (Transaction.aml_flagged tx); [reflexivity|].
          destruct (truthy_opt v); discriminate.
        + intros ->. reflexivity.
      - intros Hf. rewrite T9 in Hf.
        destruct Hreg as [(_ & Hst & _)|(ae & _ & Hl & _ & Hid & _)].
        + rewrite Hst in Hf. discriminate Hf.
        + exists ae. rewrite Fa, Hl. split; [|rewrite Hid; exact N1].
          apply elem_of_app. right. left.
      - intros vid -> Hne. unfold redeem_if_present in E3.
        rewrite (nonempty_truthy vid Hne) in E3.
        apply redeem_voucher_true in E3 as (V & HV & _ & Hv3 & Hm).
        destruct (Hvv vid eq_refl Hne) as (V0 & HV0 & Hto & _).
        pose proof (check_transaction_frame
                      (new_transaction a b t (Some vid) x now (truthy_opt (Some vid)))
                      token now s) as F1.
        rewrite E1 in F1. cbn [snd] in F1. destruct F1 as (_ & _ & F1v & _).
        pose proof (transfer_token_frame t a b s1) as F2.
        rewrite E2 in F2. cbn [snd] in F2. destruct F2 as (F2v & _).
        assert (V = V0) as -> by congruence.
        eexists. rewrite Fv, Hv3, lookup_insert_eq, Hm. cbn. repeat split. exact Hto.
      - destruct (rtc_same_token s s' t token Hrtc Htok) as (T' & HT' & _ & HvT & _).
        exists T'. split; [exact HT'|]. rewrite HvT, T9.
        destruct Hreg as [(Hle & -> & _)|(ae & -> & _ & [Hgt _] & _ & _ & _ & _ & Ham & _)].
        + split; [discriminate | lia].
        + rewrite Ham in Hgt. split; [intros _; exact Hgt | reflexivity]. }
    split; [split; [exact I'|]|].
    + intros x' tx'. rewrite Fx. destruct (decide (x = x')) as [<-|Hne].
      * rewrite lookup_insert_eq. intros [= <-]. exact Hnew.
      * rewrite lookup_insert_ne by exact Hne. intros H.
        apply (audited_mono s); auto.
    + intros _ R e. unfold registry_backed. rewrite Fa, Fx.
      assert (forall e, e ∈ aml_registry s ->
                exists tx0,
                  <[x := tx]> (transactions s) !! AMLEntry.transaction_id e = Some tx0
                  /\ Transaction.aml_flagged tx0 = true
                  /\ Transaction.sender_wallet_id tx0 = AMLEntry.sender_wallet_id e
                  /\ Transaction.receiver_wallet_id tx0 = AMLEntry.receiver_wallet_id e
                  /\ Transaction.token_id tx0 = AMLEntry.token_id e) as Hold.
      { intros e0 He0. destruct (R e0 He0) as (tx0 & H0 & Hrest). exists tx0.
        split; [|exact Hrest]. rewrite lookup_insert_ne; [exact H0|].
        intros Heq. rewrite <- Heq in H0. congruence. }
      destruct Hreg as [(_ & _ & Hl & _)|(ae & Hst & Hl & _ & Hid & Hs & Hr & Ht & _)];
        rewrite Hl.
      * apply Hold.
      * intros He. apply elem_of_app in He as [He|He]; [apply Hold, He|].
        apply list_elem_of_singleton in He. subst e. exists tx.
        rewrite Hid, N1, lookup_insert_eq, T9, Hst, T2, T3, T4, Hs, Hr, Ht, N2, N3, N4.
        repeat split.
Qed.

Lemma audit_inv_init : ledger_inv init /\ audit_inv init.
Proof.
  split; [intros k e; cbn; rewrite lookup_empty; discriminate|].
  intros x tx. cbn. rewrite lookup_empty. discriminate.
Qed.

Lemma reachable_audit_inv s : reachable s -> ledger_inv s /\ audit_inv s.
Proof.
  apply (reachable_invariant (fun s => ledger_inv s /\ audit_inv s)).
  - apply audit_inv_init.
  - intros o s0 H Hok. apply (audit_inv_step o s0 H Hok).
Qed.


Lemma elem_of_entries_by_transaction s x k e :
  entries s !! k = Some e -> LedgerEntry.transaction_id e = x ->
  e ∈ LedgerManager.get_entries_by_transaction x s.
Proof.
  intros He Hx. unfold LedgerManager.get_entries_by_transaction.
  apply list_elem_of_filter. split; [exact Hx|].
  apply elem_of_map_values. exists k. exact He.
Qed.

(** X21. Every transaction of the store has its entry in the ledger: stored
    under its own id, between two different wallets, anonymous exactly
    when it carries a non-empty voucher id, it is listed by
    [get_entries_by_transaction] with the same parties, token, anonymity
    and voucher, with status completed, and with the type AML-flagged
    exactly when the transaction is flagged. *)
Theorem stored_transaction_in_ledger (s : System) (x : string) (tx : Transaction.t) :
  reachable s ->
  TransactionEngine.get_transaction x s = Some tx ->
  Transaction.transaction_id tx = x
  /\ Transaction.sender_wallet_id tx <> Transaction.receiver_wallet_id tx
  /\ Transaction.is_anonymous tx = truthy_opt (Transaction.voucher_id tx)
  /\ exists e,
       e ∈ LedgerManager.get_entries_by_transaction x s
       /\ LedgerEntry.sender_wallet_id e = Transaction.sender_wallet_id tx
       /\ LedgerEntry.receiver_wallet_id e = Transaction.receiver_wallet_id tx
       /\ LedgerEntry.token_id e = Transaction.token_id tx
       /\ LedgerEntry.is_anonymous e = Transaction.is_anonymous tx
       /\ LedgerEntry.metadata_voucher_id e = Transaction.voucher_id tx
       /\ LedgerEntry.metadata_status e = "completed"
       /\ (LedgerEntry.entry_type e = AML_FLAGGED <-> Transaction.aml_flagged tx = true).
Proof.
  intros Hr Hx. destruct (reachable_audit_inv s Hr) as [_ A].
  destruct (A x tx Hx) as (A1 & A2 & A3 & (k & e & He & Hid & Hrest) & _).
  split; [exact A1|]. split; [exact A2|]. split; [exact A3|].
  exists e. split; [|exact Hrest]. eapply elem_of_entries_by_transaction; eassumption.
Qed.

Lemma stored_transaction_in_ledger_witness :
  match TransactionEngine.get_transaction "X1" market with
  | Some tx =>
      Transaction.transaction_id tx = "X1"
      /\ Transaction.sender_wallet_id tx <> Transaction.receiver_wallet_id tx
      /\ Transaction.is_anonymous tx = truthy_opt (Transaction.voucher_id tx)
      /\ exists e,
           e ∈ LedgerManager.get_entries_by_transaction "X1" market
           /\ LedgerEntry.sender_wallet_id e = Transaction.sender_wallet_id tx
           /\ LedgerEntry.receiver_wallet_id e = Transaction.receiver_wallet_id tx
           /\ LedgerEntry.token_id e = Transaction.token_id tx
           /\ LedgerEntry.is_anonymous e = Transaction.is_anonymous tx
           /\ LedgerEntry.metadata_voucher_id e = Transaction.voucher_id tx
           /\ LedgerEntry.metadata_status e = "completed"
           /\ (LedgerEntry.entry_type e = AML_FLAGGED
               <-> Transaction.aml_flagged tx = true)
  | None => False
  end.
Proof.
  destruct (TransactionEngine.get_transaction "X1" market) as [tx|] eqn:E.
  - exact (stored_transaction_in_ledger market "X1" tx market_reachable E).
  - vm_compute in E. discriminate E.
Defined.



(** The ledger write of a flagged transfer raises: the registry keeps the
    entry of a transaction that is not stored. *)
Definition unwritten : Result Transaction.t * System :=
  let s := init in
  let s := snd (WalletManager.create_wallet "W1" "key-of-W1" s) in
  let s := snd (WalletManager.create_wallet "W2" "key-of-W2" s) in
  let s := snd (TokenManager.issue_token 150 "W1" "T1" s) in
  TransactionEngine.execute_transfer "W1" "W2" "T1" None "X1" "2025-01-01T12:00:00"
    (Some "[Errno 28] No space left on device") s.

Example unwritten_registered :
  fst unwritten = Err "[Errno 28] No space left on device"
  /\ map AMLEntry.transaction_id (ComplianceManager.get_aml_entries (snd unwritten)) = ["X1"]
  /\ TransactionEngine.get_transaction "X1" (snd unwritten) = None
  /\ owner_of (snd unwritten) "T1" = Some "W2"
  /\ map (fun kv => (LedgerEntry.transaction_id kv.2, LedgerEntry.metadata_status kv.2))
         (map_to_list (entries (snd unwritten)))
     = [("X1", "completed")].
Proof. vm_compute. repeat split. Qed.

(** X23. The voucher of a stored transaction is used, by that transaction,
    and belongs to its sender; no other stored transaction carries the
    same voucher. *)
Theorem transaction_voucher_consumed
  (s : System) (x vid : string) (tx : Transaction.t) :
  reachable s ->
  TransactionEngine.get_transaction x s = Some tx ->
  Transaction.voucher_id tx = Some vid ->
  vid <> "" ->
  (exists V,
     VoucherManager.get_voucher vid s = Some V
     /\ Voucher.is_used V = true
     /\ Voucher.used_in_transaction V = Some x
     /\ Voucher.issued_to_wallet_id V = Transaction.sender_wallet_id tx)
  /\ (forall x' tx',
        TransactionEngine.get_transaction x' s = Some tx' ->
        Transaction.voucher_id tx' = Some vid ->
        x' = x).
Proof.
  intros Hr Hx Hv Hne. destruct (reachable_audit_inv s Hr) as [_ A].
  unfold TransactionEngine.get_transaction, VoucherManager.get_voucher in *.
  destruct (A x tx Hx) as (_ & _ & _ & _ & _ & A6 & _).
  destruct (A6 vid Hv Hne) as (V & HV & Hu & Hused & Hto).
  split; [exists V; auto|].
  intros x' tx' Hx' Hv'. destruct (A x' tx' Hx') as (_ & _ & _ & _ & _ & A6' & _).
  destruct (A6' vid Hv' Hne) as (V' & HV' & _ & Hused' & _). congruence.
Qed.

Lemma transaction_voucher_consumed_witness :
  match TransactionEngine.get_transaction "X1" market with
  | Some tx =>
      (exists V,
         VoucherManager.get_voucher "V1" market = Some V
         /\ Voucher.is_used V = true
         /\ Voucher.used_in_transaction V = Some "X1"
         /\ Voucher.issued_to_wallet_id V = Transaction.sender_wallet_id tx)
      /\ (forall x' tx',
            TransactionEngine.get_transaction x' market = Some tx' ->
            Transaction.voucher_id tx' = Some "V1" ->
            x' = "X1")
  | None => False
  end.
Proof.
  destruct (TransactionEngine.get_transaction "X1" market) as [tx|] eqn:E.
  - apply (transaction_voucher_consumed market "X1" "V1" tx market_reachable E).
    + vm_compute in E. injection E as <-. reflexivity.
    + discriminate.
  - vm_compute in E. discriminate E.
Defined.

Lemma redeem_if_present_token_balance v x n s w :
  token_balance_of (snd (redeem_if_present v x n s)) w = token_balance_of s w.
Proof.
  unfold redeem_if_present. destruct v as [vid|]; [|reflexivity].
  destruct (truthy vid); [|reflexivity]. apply redeem_voucher_token_balance.
Qed.

(** X24. A completed [execute_transfer] in a reachable state: the token is
    owned by the receiver, is in the receiver's token set and no longer
    in the sender's; the voucher, if one was given, is used by this
    transaction; the ledger has exactly one more entry, under the next
    entry id, for this transaction and the value of the token; the
    offline store is untouched. *)
Theorem execute_transfer_settles
  (s s' : System) (a b t : string) (v : option string) (x now : string)
  (disk : option string) (tx : Transaction.t) :
  reachable s ->
  TransactionEngine.execute_transfer a b t v x now disk s = (Ok tx, s') ->
  owner_of s' t = Some b
  /\ (exists l, token_balance_of s' b = Some l /\ t ∈ l)
  /\ (exists l, token_balance_of s' a = Some l /\ t ∉ l)
  /\ (forall vid,
        v = Some vid -> vid <> "" ->
        (Voucher.is_used <$> vouchers s' !! vid) = Some true
        /\ (Voucher.used_in_transaction <$> vouchers s' !! vid) = Some (Some x))
  /\ (exists e,
        entries s !! pretty (entry_counter s) = None
        /\ entries s' = <[pretty (entry_counter s) := e]> (entries s)
        /\ size (entries s') = S (size (entries s))
        /\ LedgerEntry.transaction_id e = x
        /\ Some (LedgerEntry.value e) = Token.value <$> tokens s !! t
        /\ LedgerEntry.timestamp e = now)
  /\ offline_transactions s' = offline_transactions s.
Proof.
  intros Hr E.
  destruct (execute_transfer_effect a b t v x now disk s tx s' E)
    as (Hvalid & token & cr & s1 & s2 & s3 & Htok & E1 & E2 & E3 & Etx & HA3
        & Fw & Ft & Fv & Fa & Fc & Fo & Fx & Fn & Fe).
  destruct Hvalid as (_ & _ & _ & Hab & _).
  pose proof (check_transaction_frame
                (new_transaction a b t v x now (truthy_opt v)) token now s) as F1.
  rewrite E1 in F1. cbn [snd] in F1. destruct F1 as (F1w & F1t & _).
  assert (ownership_inv s1) as Iown1
    by (apply (ownership_inv_same_wallets s); auto using reachable_ownership_inv).
  destruct (transfer_token_moves t a b s1 s2 Iown1 E2) as (Ho & Hb & Ha).
  assert (forall w, token_balance_of s' w = token_balance_of s2 w) as Hbal.
  { intros w. pose proof (redeem_if_present_token_balance v x (Token.value token) s2 w) as H.
    rewrite E3 in H. cbn [snd] in H. rewrite <- H. unfold token_balance_of.
    rewrite Fw. reflexivity. }
  pose proof (ledger_inv_fresh s (reachable_ledger_inv s Hr)) as Hfresh.
  repeat apply conj.
  - unfold owner_of in *. rewrite Ft. exact Ho.
  - destruct Hb as (l & Hl & Hin). exists l. rewrite Hbal. split; assumption.
  - destruct (Ha Hab) as (l & Hl & Hin). exists l. rewrite Hbal. split; assumption.
  - intros vid -> Hne. unfold redeem_if_present in E3.
    rewrite (nonempty_truthy vid Hne) in E3.
    apply redeem_voucher_true in E3 as (V & HV & _ & Hv3 & Hm).
    rewrite Fv, Hv3, lookup_insert_eq, Hm. cbn. split; reflexivity.
  - eexists. repeat apply conj.
    + exact Hfresh.
    + exact Fe.
    + rewrite Fe. apply map_size_insert_None, Hfresh.
    + reflexivity.
    + cbn. rewrite Htok. reflexivity.
    + reflexivity.
  - exact Fo.
Qed.

Lemma execute_transfer_settles_witness :
  let s := default init (run (take 8 market_ops) init) in
  let r := TransactionEngine.execute_transfer "W1" "W2" "T1" (Some "V1") "X1"
             "2025-01-01T12:00:00" None s in
  owner_of (snd r) "T1" = Some "W2"
  /\ (exists l, token_balance_of (snd r) "W2" = Some l /\ "T1" ∈ l)
  /\ (exists l, token_balance_of (snd r) "W1" = Some l /\ "T1" ∉ l)
  /\ (forall vid,
        Some "V1" = Some vid -> vid <> "" ->
        (Voucher.is_used <$> vouchers (snd r) !! vid) = Some true
        /\ (Voucher.used_in_transaction <$> vouchers (snd r) !! vid) = Some (Some "X1"))
  /\ (exists e,
        entries s !! pretty (entry_counter s) = None
        /\ entries (snd r) = <[pretty (entry_counter s) := e]> (entries s)
        /\ size (entries (snd r)) = S (size (entries s))
        /\ LedgerEntry.transaction_id e = "X1"
        /\ Some (LedgerEntry.value e) = Token.value <$> tokens s !! "T1"
        /\ LedgerEntry.timestamp e = "2025-01-01T12:00:00")
  /\ offline_transactions (snd r) = offline_transactions s.
Proof.
  cbv zeta.
  destruct (TransactionEngine.execute_transfer "W1" "W2" "T1" (Some "V1") "X1"
              "2025-01-01T12:00:00" None (default init (run (take 8 market_ops) init)))
    as [[tx|msg] s'] eqn:E.
  - apply (execute_transfer_settles _ s' "W1" "W2" "T1" (Some "V1") "X1"
             "2025-01-01T12:00:00" None tx); [|exact E].
    exists (take 8 market_ops). vm_compute. reflexivity.
  - vm_compute in E. discriminate E.
Defined.

(** X25. A [sync_with_ledger] that returns false records no transaction
    and leaves the AML registry as it is. On an unknown id, or a transfer
    that is not signed, the state is the one it was given. On a signed
    transfer the record becomes failed, and nothing is rolled back. When
    the token cannot be moved, nothing else changes. When it is the
    voucher that cannot be redeemed, the token stays with the receiver,
    and the ledger and the vouchers are untouched. When it is the write of
    the ledger file that raises, the token is with the receiver, the
    voucher is used, and the ledger in memory holds the entry of the
    transfer, with status completed. *)
Theorem sync_with_ledger_failure (s s' : System) (x now : string) (disk : option string) :
  OfflineManager.sync_with_ledger x now disk s = (false, s') ->
  transactions s' = transactions s
  /\ aml_registry s' = aml_registry s
  /\ match OfflineManager.get_offline_transaction x s with
     | None => s' = s
     | Some otx =>
         if decide (OfflineTransaction.status otx = OFF_SIGNED) then
           let r := TokenManager.transfer_token (OfflineTransaction.token_id otx)
                      (OfflineTransaction.sender_wallet_id otx)
                      (OfflineTransaction.receiver_wallet_id otx) s in
           let r' := redeem_if_present (OfflineTransaction.voucher_id otx)
                       (OfflineTransaction.offline_id otx)
                       (OfflineTransaction.value otx) (snd r) in
           offline_transactions s'
           = <[x := OfflineTransaction.set_status OFF_FAILED otx]> (offline_transactions s)
           /\ tokens s' = tokens (snd r)
           /\ ((fst r = false
                /\ wallets s' = wallets s /\ vouchers s' = vouchers s
                /\ entries s' = entries s /\ entry_counter s' = entry_counter s)
               \/ (fst r = true /\ fst r' = false
                   /\ wallets s' = wallets (snd r) /\ vouchers s' = vouchers s
                   /\ entries s' = entries s /\ entry_counter s' = entry_counter s)
               \/ (fst r = true /\ fst r' = true /\ is_Some disk
                   /\ wallets s' = wallets (snd r') /\ vouchers s' = vouchers (snd r')
                   /\ entry_counter s' = (entry_counter s + 1)%N
                   /\ exists e,
                        entries s' = <[pretty (entry_counter s) := e]> (entries s)
                        /\ LedgerEntry.transaction_id e = OfflineTransaction.offline_id otx
                        /\ LedgerEntry.metadata_status e = "completed"))
         else s' = s
     end.
Proof.
  unfold OfflineManager.sync_with_ledger, OfflineManager.get_offline_transaction.
  destruct (offline_transactions s !! x) as [otx|] eqn:Hx.
  2:{ intros [= <-]. repeat split. }
  destruct (decide (OfflineTransaction.status otx = OFF_SIGNED)) as [Hst|Hst].
  2:{ destruct (OfflineTransaction.status otx); try congruence;
        intros [= <-]; repeat split. }
  rewrite Hst. cbn [OfflineManager.OfflineStatus_eqb negb]. cbv zeta.
  destruct (TokenManager.transfer_token _ _ _ s) as [ok s1] eqn:E1.
  pose proof (transfer_token_frame (OfflineTransaction.token_id otx)
                (OfflineTransaction.sender_wallet_id otx)
                (OfflineTransaction.receiver_wallet_id otx) s) as F1.
  rewrite E1 in F1. cbn [snd] in F1.
  destruct F1 as (F1v & F1a & F1c & F1e & F1n & F1x & F1o).
  cbn [fst snd].
  destruct ok; cbn [negb].
  2:{ intros [= <-]. apply transfer_token_false in E1. subst s1.
      unfold OfflineManager.mark_failed. cbn.
      repeat split. left. repeat split. }
  fold (redeem_if_present (OfflineTransaction.voucher_id otx)
          (OfflineTransaction.offline_id otx) (OfflineTransaction.value otx) s1).
  destruct (redeem_if_present _ _ _ s1) as [red s2] eqn:E2.
  pose proof (redeem_if_present_frame _ _ _ _ _ _ E2)
    as (F2t & F2a & F2c & F2e & F2n & F2x & F2o).
  cbn [fst snd].
  destruct red; cbn [negb].
  2:{ assert (s2 = s1) as ->.
      { unfold redeem_if_present in E2.
        destruct (OfflineTransaction.voucher_id otx) as [vid|]; [|discriminate E2].
        destruct (truthy vid); [|discriminate E2].
        eapply redeem_voucher_false, E2. }
      intros [= <-]. unfold OfflineManager.mark_failed. cbn. rewrite F1o.
      repeat split; try assumption. right. left. repeat split; assumption. }
  unfold LedgerManager.store_transaction.
  destruct disk as [msg|]; cbn [LedgerManager._save_ledger]; [|discriminate].
  intros [= <-]. unfold OfflineManager.mark_failed. cbn.
  rewrite ?F2o, ?F1o, ?F2x, ?F1x, ?F2a, ?F1a, ?F2e, ?F1e, ?F2n, ?F1n.
  repeat split; try assumption. right. right.
  split; [reflexivity|]. split; [reflexivity|]. split; [eauto|].
  split; [reflexivity|]. split; [reflexivity|]. split; [reflexivity|].
  eexists. split; [reflexivity|]. split; reflexivity.
Qed.

(** The voucher of an offline transfer is spent online before the sync:
    the sync moves the token, cannot redeem the voucher, and fails. *)
Definition spent_ops_created : list op :=
  [op_create_wallet "W1" "key-of-W1"; op_create_wallet "W2" "key-of-W2";
   op_issue_voucher "W1" 100 "V1" "2025-01-01T09:00:00";
   op_issue_token 25 "W1" "T1"; op_issue_token 10 "W1" "T2";
   op_create_offline_transaction "W1" "W2" "T1" (Some "V1") "O1" "2025-01-01T12:00:00"].

Definition spent_created : System := default init (run spent_ops_created init).

Definition spent_ops : list op :=
  spent_ops_created
  ++ [op_sign_offline_transaction "O1" "W1" (signature_of spent_created "O1" "W1");
      op_sign_offline_transaction "O1" "W2" (signature_of spent_created "O1" "W2");
      op_execute_transfer "W1" "W2" "T2" (Some "V1") "X1" "2025-01-01T18:00:00" None].

Definition spent : System := default init (run spent_ops init).

Lemma spent_reachable : reachable spent.
Proof. exists spent_ops. vm_compute. reflexivity. Qed.

Example spent_sync_fails :
  let r := OfflineManager.sync_with_ledger "O1" "2025-01-02T09:30:00" None spent in
  fst r = false
  /\ owner_of spent "T1" = Some "W1"
  /\ owner_of (snd r) "T1" = Some "W2"
  /\ (OfflineTransaction.status <$> offline_transactions (snd r) !! "O1") = Some OFF_FAILED
  /\ LedgerManager.get_entries_by_transaction "O1" (snd r) = [].
Proof. vm_compute. repeat split. Qed.

Lemma sync_with_ledger_failure_witness :
  let s := spent in
  let s' := snd (OfflineManager.sync_with_ledger "O1" "2025-01-02T09:30:00" None spent) in
  transactions s' = transactions s
  /\ aml_registry s' = aml_registry s
  /\ match OfflineManager.get_offline_transaction "O1" s with
     | None => s' = s
     | Some otx =>
         if decide (OfflineTransaction.status otx = OFF_SIGNED) then
           let r := TokenManager.transfer_token (OfflineTransaction.token_id otx)
                      (OfflineTransaction.sender_wallet_id otx)
                      (OfflineTransaction.receiver_wallet_id otx) s in
           let r' := redeem_if_present (OfflineTransaction.voucher_id otx)
                       (OfflineTransaction.offline_id otx)
                       (OfflineTransaction.value otx) (snd r) in
           offline_transactions s'
           = <[ "O1" := OfflineTransaction.set_status OFF_FAILED otx]> (offline_transactions s)
           /\ tokens s' = tokens (snd r)
           /\ ((fst r = false
                /\ wallets s' = wallets s /\ vouchers s' = vouchers s
                /\ entries s' = entries s /\ entry_counter s' = entry_counter s)
               \/ (fst r = true /\ fst r' = false
                   /\ wallets s' = wallets (snd r) /\ vouchers s' = vouchers s
                   /\ entries s' = entries s /\ entry_counter s' = entry_counter s)
               \/ (fst r = true /\ fst r' = true /\ is_Some (@None string)
                   /\ wallets s' = wallets (snd r') /\ vouchers s' = vouchers (snd r')
                   /\ entry_counter s' = (entry_counter s + 1)%N
                   /\ exists e,
                        entries s' = <[pretty (entry_counter s) := e]> (entries s)
                        /\ LedgerEntry.transaction_id e = OfflineTransaction.offline_id otx
                        /\ LedgerEntry.metadata_status e = "completed"))
         else s' = s
     end.
Proof.
  apply (sync_with_ledger_failure spent
           (snd (OfflineManager.sync_with_ledger "O1" "2025-01-02T09:30:00" None spent))
           "O1" "2025-01-02T09:30:00" None).
  vm_compute. reflexivity.
Defined.

(** ** What the offline store holds (offline.py) *)

Lemma tx_data_same o o' : same_identity o o' -> OfflineManager.tx_data o' = OfflineManager.tx_data o.
Proof.
  intros (E1 & E2 & E3 & E4 & E5 & _ & E7 & E8). unfold OfflineManager.tx_data.
  rewrite E1, E2, E3, E4, E5, E7, E8. reflexivity.
Qed.

Lemma create_offline_transaction_valid_eq a b t v x now s token :
  transfer_valid a b t v s -> tokens s !! t = Some token ->
  let o := OfflineTransaction.mk x a b t (Token.value token) None None OFF_PENDING
             (Some now) None v (truthy_opt v) in
  OfflineManager.create_offline_transaction a b t v x now s
  = (Ok o, set_offline_transactions (<[x := o]> (offline_transactions s)) s).
Proof.
  intros Hvalid Htok. cbv zeta.
  pose proof (voucher_check_valid a b t v s token Hvalid Htok) as Hvc.
  destruct Hvalid as (Ha & Hb & Ht & Hab & [A HA] & [B HB] & token' & Htok' & Hown & _).
  assert (token' = token) as -> by congruence.
  unfold OfflineManager.create_offline_transaction, TokenManager.get_token,
    WalletManager.wallet_exists.
  rewrite (nonempty_truthy a Ha), (nonempty_truthy b Hb), (nonempty_truthy t Ht).
  cbn [andb negb]. destruct (String.eqb_spec a b) as [|_]; [contradiction|].
  rewrite HA, HB, Htok, Hown, String.eqb_refl. cbn [andb negb].
  fold (voucher_check a v token s). rewrite Hvc. reflexivity.
Qed.

(** A signature that was accepted: the record of the transfer with the
    signature in the place of the signer, and with status signed when
    both places are filled. *)
Lemma sign_offline_transaction_true x w sg s s' :
  OfflineManager.sign_offline_transaction x w sg s = (true, s') ->
  exists o W o',
    offline_transactions s !! x = Some o
    /\ wallets s !! w = Some W
    /\ sg = Wallet.sign_transaction W (OfflineManager.tx_data o)
    /\ s' = set_offline_transactions (<[x := o']> (offline_transactions s)) s
    /\ same_identity o o'
    /\ OfflineTransaction.synced_timestamp o' = OfflineTransaction.synced_timestamp o
    /\ ((w = OfflineTransaction.sender_wallet_id o
         /\ OfflineTransaction.sender_signature o' = Some sg
         /\ OfflineTransaction.receiver_signature o'
            = OfflineTransaction.receiver_signature o)
        \/ (w = OfflineTransaction.receiver_wallet_id o
            /\ OfflineTransaction.receiver_signature o' = Some sg
            /\ OfflineTransaction.sender_signature o'
               = OfflineTransaction.sender_signature o))
    /\ ((OfflineTransaction.status o' = OFF_SIGNED
         /\ is_Some (OfflineTransaction.sender_signature o')
         /\ is_Some (OfflineTransaction.receiver_signature o'))
        \/ OfflineTransaction.status o' = OfflineTransaction.status o).
Proof.
  unfold OfflineManager.sign_offline_transaction, OfflineManager._verify_offline_signature,
    WalletManager.get_wallet.
  destruct (offline_transactions s !! x) as [o|] eqn:Ho; [|discriminate].
  destruct (wallets s !! w) as [W|] eqn:HW; cbn; [|discriminate].
  destruct (String.eqb_spec sg (Wallet.sign_transaction W (OfflineManager.tx_data o)))
    as [Hsg|Hsg]; cbn; [|discriminate].
  assert (forall o1,
            same_identity o o1 ->
            OfflineTransaction.synced_timestamp o1 = OfflineTransaction.synced_timestamp o ->
            OfflineTransaction.status o1 = OfflineTransaction.status o ->
            let o' := if truthy_opt (OfflineTransaction.sender_signature o1)
                         && truthy_opt (OfflineTransaction.receiver_signature o1)
                      then OfflineTransaction.set_status OFF_SIGNED o1 else o1 in
            same_identity o o'
            /\ OfflineTransaction.synced_timestamp o' = OfflineTransaction.synced_timestamp o
            /\ OfflineTransaction.sender_signature o' = OfflineTransaction.sender_signature o1
            /\ OfflineTransaction.receiver_signature o'
               = OfflineTransaction.receiver_signature o1
            /\ ((OfflineTransaction.status o' = OFF_SIGNED
                 /\ is_Some (OfflineTransaction.sender_signature o')
                 /\ is_Some (OfflineTransaction.receiver_signature o'))
                \/ OfflineTransaction.status o' = OfflineTransaction.status o)) as Hfin.
  { intros o1 Hid Hts Hst. cbv zeta.
    destruct (truthy_opt (OfflineTransaction.sender_signature o1)
              && truthy_opt (OfflineTransaction.receiver_signature o1)) eqn:Hb.
    - apply andb_true_iff in Hb as [Ha Hb].
      split; [exact Hid|]. split; [exact Hts|]. split; [reflexivity|].
      split; [reflexivity|]. left. split; [reflexivity|]. cbn. split.
      + destruct (OfflineTransaction.sender_signature o1); [eauto | discriminate].
      + destruct (OfflineTransaction.receiver_signature o1); [eauto | discriminate].
    - split; [exact Hid|]. split; [exact Hts|]. split; [reflexivity|].
      split; [reflexivity|]. right. exact Hst. }
  destruct (String.eqb_spec w (OfflineTransaction.sender_wallet_id o)) as [Hs|Hs].
  - intros [= <-].
    destruct (Hfin (OfflineTransaction.set_sender_signature (Some sg) o))
      as (F1 & F2 & F3 & F4 & F5); [repeat split..|].
    eexists o, W, _. split; [reflexivity|]. split; [reflexivity|]. split; [exact Hsg|].
    split; [reflexivity|]. split; [exact F1|]. split; [exact F2|].
    split; [left; split; [exact Hs|]; split; [exact F3 | exact F4]|].
    exact F5.
  - destruct (String.eqb_spec w (OfflineTransaction.receiver_wallet_id o)) as [Hr|Hr];
      [|discriminate].
    intros [= <-].
    destruct (Hfin (OfflineTransaction.set_receiver_signature (Some sg) o))
      as (F1 & F2 & F3 & F4 & F5); [repeat split..|].
    eexists o, W, _. split; [reflexivity|]. split; [reflexivity|]. split; [exact Hsg|].
    split; [reflexivity|]. split; [exact F1|]. split; [exact F2|].
    split; [right; split; [exact Hr|]; split; [exact F4 | exact F3]|].
    exact F5.
Qed.

Lemma sign_offline_transaction_false x w sg s s' :
  OfflineManager.sign_offline_transaction x w sg s = (false, s') -> s' = s.
Proof.
  unfold OfflineManager.sign_offline_transaction.
  destruct (offline_transactions s !! x) as [o|]; [|intros [= <-]; reflexivity].
  destruct (negb _); [intros [= <-]; reflexivity|].
  destruct (String.eqb w (OfflineTransaction.sender_wallet_id o)); [discriminate|].
  destruct (String.eqb w (OfflineTransaction.receiver_wallet_id o)); [discriminate|].
  intros [= <-]. reflexivity.
Qed.

(** What a sync does to the offline store: nothing; or the signed
    transfer is marked failed; or it is marked synced, and the ledger has
    the entry of the transfer under the id that was next. *)
Lemma sync_with_ledger_offline x now dk s :
  let s' := snd (OfflineManager.sync_with_ledger x now dk s) in
  offline_transactions s' = offline_transactions s
  \/ exists o,
       offline_transactions s !! x = Some o
       /\ OfflineTransaction.status o = OFF_SIGNED
       /\ (offline_transactions s'
           = <[x := OfflineTransaction.set_status OFF_FAILED o]> (offline_transactions s)
           \/ (offline_transactions s'
               = <[x := OfflineTransaction.set_synced_timestamp (Some now)
                          (OfflineTransaction.set_status OFF_SYNCED o)]>
                   (offline_transactions s)
               /\ exists e,
                    entries s' !! pretty (entry_counter s) = Some e
                    /\ LedgerEntry.transaction_id e = OfflineTransaction.offline_id o
                    /\ LedgerEntry.sender_wallet_id e = OfflineTransaction.sender_wallet_id o
                    /\ LedgerEntry.receiver_wallet_id e
                       = OfflineTransaction.receiver_wallet_id o
                    /\ LedgerEntry.token_id e = OfflineTransaction.token_id o
                    /\ LedgerEntry.is_anonymous e = OfflineTransaction.is_anonymous o
                    /\ LedgerEntry.metadata_voucher_id e = OfflineTransaction.voucher_id o
                    /\ LedgerEntry.metadata_status e = "completed"
                    /\ LedgerEntry.metadata_aml_reason e = None
                    /\ LedgerEntry.entry_type e <> AML_FLAGGED
                    /\ Some (LedgerEntry.value e)
                       = Token.value <$> tokens s' !! OfflineTransaction.token_id o)).
Proof.
  cbv zeta. unfold OfflineManager.sync_with_ledger.
  destruct (offline_transactions s !! x) as [o|] eqn:Hx; [|left; reflexivity].
  destruct (decide (OfflineTransaction.status o = OFF_SIGNED)) as [Hst|Hst].
  2:{ destruct (OfflineTransaction.status o); try congruence; left; reflexivity. }
  rewrite Hst. cbn [OfflineManager.OfflineStatus_eqb negb].
  right. exists o. split; [reflexivity|]. split; [exact Hst|].
  destruct (TokenManager.transfer_token _ _ _ s) as [ok s1] eqn:E1.
  pose proof (transfer_token_frame (OfflineTransaction.token_id o)
                (OfflineTransaction.sender_wallet_id o)
                (OfflineTransaction.receiver_wallet_id o) s) as F1.
  rewrite E1 in F1. cbn [snd] in F1.
  destruct F1 as (F1v & F1a & F1c & F1e & F1n & F1x & F1o).
  destruct ok; cbn [negb].
  2:{ left. unfold OfflineManager.mark_failed. cbn. rewrite F1o. reflexivity. }
  match goal with
  | |- context [match ?e with (_, _) => _ end] => destruct e as [red s2] eqn:E2
  end.
  pose proof (redeem_if_present_frame _ _ _ _ _ _ E2) as (F2t & F2a & F2c & F2e & F2n & F2x & F2o).
  destruct red; cbn [negb].
  2:{ left. unfold OfflineManager.mark_failed. cbn. rewrite F2o, F1o. reflexivity. }
  unfold LedgerManager.store_transaction, TokenManager.get_token.
  destruct dk as [msg|]; cbn.
  { left. unfold OfflineManager.mark_failed. cbn. rewrite F2o, F1o. reflexivity. }
  right. rewrite F2o, F1o, F2n, F1n. split; [reflexivity|].
  rewrite lookup_insert_eq. eexists. split; [reflexivity|]. cbn.
  assert (is_Some (tokens s2 !! OfflineTransaction.token_id o)) as [T HT].
  { rewrite F2t. apply transfer_token_true in E1 as (T & _ & _ & _ & _ & -> & _).
    rewrite lookup_insert_eq. eauto. }
  rewrite HT. repeat split. destruct (OfflineTransaction.is_anonymous o); discriminate.
Qed.

(** What the stores hold for a record of the offline store. *)
Definition offline_audited (s : System) (x : string) (o : OfflineTransaction.t) : Prop :=
  (exists T,
     tokens s !! OfflineTransaction.token_id o = Some T
     /\ Token.value T = OfflineTransaction.value o)
  /\ OfflineTransaction.is_anonymous o = truthy_opt (OfflineTransaction.voucher_id o)
  /\ (forall sg,
        OfflineTransaction.sender_signature o = Some sg ->
        exists W,
          wallets s !! OfflineTransaction.sender_wallet_id o = Some W
          /\ sg = Wallet.sign_transaction W (OfflineManager.tx_data o))
  /\ (forall sg,
        OfflineTransaction.receiver_signature o = Some sg ->
        exists W,
          wallets s !! OfflineTransaction.receiver_wallet_id o = Some W
          /\ sg = Wallet.sign_transaction W (OfflineManager.tx_data o))
  /\ (OfflineTransaction.status o <> OFF_PENDING ->
      is_Some (OfflineTransaction.sender_signature o)
      /\ is_Some (OfflineTransaction.receiver_signature o))
  /\ (OfflineTransaction.status o = OFF_SYNCED ->
      is_Some (OfflineTransaction.synced_timestamp o)
      /\ exists k e,
           entries s !! k = Some e
           /\ LedgerEntry.transaction_id e = x
           /\ LedgerEntry.sender_wallet_id e = OfflineTransaction.sender_wallet_id o
           /\ LedgerEntry.receiver_wallet_id e = OfflineTransaction.receiver_wallet_id o
           /\ LedgerEntry.token_id e = OfflineTransaction.token_id o
           /\ LedgerEntry.value e = OfflineTransaction.value o
           /\ LedgerEntry.is_anonymous e = OfflineTransaction.is_anonymous o
           /\ LedgerEntry.metadata_voucher_id e = OfflineTransaction.voucher_id o
           /\ LedgerEntry.metadata_status e = "completed"
           /\ LedgerEntry.metadata_aml_reason e = None
           /\ LedgerEntry.entry_type e <> AML_FLAGGED).

Lemma sign_same_keys W W' d :
  same_keys W W' -> Wallet.sign_transaction W' d = Wallet.sign_transaction W d.
Proof. intros (_ & _ & K). unfold Wallet.sign_transaction. rewrite K. reflexivity. Qed.

Lemma offline_audited_mono s s' x o :
  rtc prim s s' -> ledger_inv s -> offline_audited s x o -> offline_audited s' x o.
Proof.
  intros Hrtc I ((T & HT & HvT) & A2 & A3 & A4 & A5 & A6).
  destruct (rtc_ledger_mono s s' Hrtc I) as [M _].
  unfold offline_audited. repeat apply conj; try assumption.
  - destruct (rtc_same_token s s' _ T Hrtc HT) as (T' & HT' & _ & Hv & _).
    exists T'. split; [exact HT' | congruence].
  - intros sg Hsg. destruct (A3 sg Hsg) as (W & HW & E).
    destruct (rtc_same_keys s s' _ W Hrtc HW) as (W' & HW' & K).
    exists W'. split; [exact HW'|]. rewrite (sign_same_keys W W' _ K). exact E.
  - intros sg Hsg. destruct (A4 sg Hsg) as (W & HW & E).
    destruct (rtc_same_keys s s' _ W Hrtc HW) as (W' & HW' & K).
    exists W'. split; [exact HW'|]. rewrite (sign_same_keys W W' _ K). exact E.
  - intros Hst. destruct (A6 Hst) as (Hts & k & e & He & Hrest).
    split; [exact Hts|]. exists k, e. split; [apply M, He | exact Hrest].
Qed.

Lemma reachable_ind_strong (I : System -> Prop) :
  I init ->
  (forall o s, reachable s -> I s -> env_ok o s = true -> I (step o s)) ->
  forall s, reachable s -> I s.
Proof.
  intros Hinit Hstep s Hr.
  apply (reachable_invariant (fun s => reachable s /\ I s)); [| |exact Hr].
  - split; [apply reachable_init | exact Hinit].
  - intros o s0 [Hr0 I0] Hok. split; [apply reachable_step; assumption|].
    apply Hstep; assumption.
Qed.

(** A record that keeps its identity stays audited when its signatures
    are genuine and its status is backed by the stores. *)
Lemma offline_audited_change s x o o' :
  offline_audited s x o -> same_identity o o' ->
  (forall sg,
     OfflineTransaction.sender_signature o' = Some sg ->
     OfflineTransaction.sender_signature o = Some sg
     \/ exists W,
          wallets s !! OfflineTransaction.sender_wallet_id o = Some W
          /\ sg = Wallet.sign_transaction W (OfflineManager.tx_data o)) ->
  (forall sg,
     OfflineTransaction.receiver_signature o' = Some sg ->
     OfflineTransaction.receiver_signature o = Some sg
     \/ exists W,
          wallets s !! OfflineTransaction.receiver_wallet_id o = Some W
          /\ sg = Wallet.sign_transaction W (OfflineManager.tx_data o)) ->
  (OfflineTransaction.status o' <> OFF_PENDING ->
   is_Some (OfflineTransaction.sender_signature o')
   /\ is_Some (OfflineTransaction.receiver_signature o')) ->
  (OfflineTransaction.status o' = OFF_SYNCED ->
   is_Some (OfflineTransaction.synced_timestamp o')
   /\ exists k e,
        entries s !! k = Some e
        /\ LedgerEntry.transaction_id e = x
        /\ LedgerEntry.sender_wallet_id e = OfflineTransaction.sender_wallet_id o
        /\ LedgerEntry.receiver_wallet_id e = OfflineTransaction.receiver_wallet_id o
        /\ LedgerEntry.token_id e = OfflineTransaction.token_id o
        /\ LedgerEntry.value e = OfflineTransaction.value o
        /\ LedgerEntry.is_anonymous e = OfflineTransaction.is_anonymous o
        /\ LedgerEntry.metadata_voucher_id e = OfflineTransaction.voucher_id o
        /\ LedgerEntry.metadata_status e = "completed"
        /\ LedgerEntry.metadata_aml_reason e = None
        /\ LedgerEntry.entry_type e <> AML_FLAGGED) ->
  offline_audited s x o'.
Proof.
  intros (A1 & A2 & A3 & A4 & _ & _) Hid Hs Hr Hst Hsy.
  pose proof (tx_data_same o o' Hid) as Hd.
  destruct Hid as (E1 & E2 & E3 & E4 & E5 & E6 & E7 & E8).
  unfold offline_audited. rewrite Hd, E2, E3, E4, E5, E7, E8.
  repeat apply conj; try assumption.
  - intros sg Hsg. destruct (Hs sg Hsg) as [H|H]; [apply A3, H | exact H].
  - intros sg Hsg. destruct (Hr sg Hsg) as [H|H]; [apply A4, H | exact H].
Qed.

Lemma offline_audit_step o s :
  reachable s ->
  (forall x o, offline_transactions s !! x = Some o -> offline_audited s x o) ->
  env_ok o s = true ->
  forall x o', offline_transactions (step o s) !! x = Some o' ->
               offline_audited (step o s) x o'.
Proof.
  intros Hr IH Hok.
  pose proof (step_prims o s Hok) as Hrtc.
  pose proof (reachable_ledger_inv s Hr) as Iled.
  pose proof (reachable_offline_inv s Hr) as Ioff.
  assert (forall x o0, offline_transactions s !! x = Some o0 ->
                       offline_audited (step o s) x o0) as Hold.
  { intros x o0 H. apply (offline_audited_mono s); auto. }
  assert (offline_transactions (step o s) = offline_transactions s ->
          forall x o', offline_transactions (step o s) !! x = Some o' ->
                       offline_audited (step o s) x o') as Hsame.
  { intros E x o0. rewrite E. apply Hold. }
  assert (forall x o0 o1,
            offline_transactions s !! x = Some o0 ->
            offline_transactions (step o s) = <[x := o1]> (offline_transactions s) ->
            offline_audited (step o s) x o1 ->
            forall x' o', offline_transactions (step o s) !! x' = Some o' ->
                          offline_audited (step o s) x' o') as Hupd.
  { intros x o0 o1 H0 E H1 x' o'. rewrite E. destruct (decide (x = x')) as [<-|Hne].
    - rewrite lookup_insert_eq. intros [= <-]. exact H1.
    - rewrite lookup_insert_ne by exact Hne. apply Hold. }
  destruct o as [w k|v w t|t a b|w l v now|v x n|a b t v x now dk|a b t v x now|x w sg|x now dk].
  - apply Hsame. cbn [step]. apply create_wallet_frame.
  - apply Hsame. cbn [step]. apply issue_token_frame.
  - apply Hsame. cbn [step]. apply transfer_token_frame.
  - apply Hsame. cbn [step]. apply issue_voucher_frame.
  - apply Hsame. cbn [step]. apply redeem_voucher_frame.
  - apply Hsame. cbn [step]. apply execute_transfer_offline.
  - (* a new record *)
    destruct (transfer_validation a b t v x now None s) as [Hvalid|[_ [msg E]]].
    2:{ apply Hsame. cbn [step]. rewrite E. reflexivity. }
    pose proof Hvalid as (_ & _ & _ & _ & _ & _ & token & Htok & _).
    pose proof (create_offline_transaction_valid_eq a b t v x now s token Hvalid Htok) as E.
    cbv zeta in E. cbn [step] in *. rewrite E in *. cbn [snd] in *.
    intros x' o'. cbn [offline_transactions set_offline_transactions].
    destruct (decide (x = x')) as [<-|Hne].
    + rewrite lookup_insert_eq. intros [= <-]. unfold offline_audited. cbn.
      repeat apply conj; try discriminate; try reflexivity.
      * exists token. split; [exact Htok | reflexivity].
      * intros H. contradiction.
    + rewrite lookup_insert_ne by exact Hne. apply Hold.
  - (* a signature *)
    cbn [step] in *.
    destruct (OfflineManager.sign_offline_transaction x w sg s) as [[|] s'] eqn:E.
    2:{ apply sign_offline_transaction_false in E. subst s'. apply Hsame. reflexivity. }
    apply sign_offline_transaction_true in E
      as (o & W & o1 & Ho & HW & Hsg & -> & Hid & Hts & Hrole & Hst).
    cbn [snd] in *. apply (Hupd x o o1 Ho); [reflexivity|].
    pose proof (Hold x o Ho) as A.
    pose proof A as (_ & _ & _ & _ & A5 & A6).
    apply (offline_audited_change _ x o o1 A Hid).
    + intros sg' Hsg'. destruct Hrole as [(Hw & Hs1 & _)|(_ & _ & Hs1)].
      * right. exists W. cbn. rewrite <- Hw. split; [exact HW | congruence].
      * left. congruence.
    + intros sg' Hsg'. destruct Hrole as [(_ & _ & Hr1)|(Hw & Hr1 & _)].
      * left. congruence.
      * right. exists W. cbn. rewrite <- Hw. split; [exact HW | congruence].
    + intros Hnp. destruct Hst as [(_ & H1 & H2)|Hst]; [split; assumption|].
      rewrite Hst in Hnp. destruct (A5 Hnp) as [H1 H2].
      destruct Hrole as [(_ & -> & ->)|(_ & -> & ->)]; split; eauto.
    + intros Hsy. destruct Hst as [(Hst & _)|Hst]; [congruence|].
      rewrite Hst in Hsy. rewrite Hts. apply A6, Hsy.
  - (* a sync *)
    cbn [step] in *.
    destruct (sync_with_ledger_offline x now dk s)
      as [E|(o & Ho & Hst & [E|(E & e & He & F1 & F2 & F3 & F4 & F5 & F6 & F7 & F8 & F9 & F10)])].
    + apply Hsame, E.
    + pose proof (Hold x o Ho) as A. pose proof A as (_ & _ & _ & _ & A5 & _).
      apply (Hupd x o _ Ho E).
      apply (offline_audited_change _ x o _ A); [repeat split| | | |].
      * intros sg' H. left. exact H.
      * intros sg' H. left. exact H.
      * intros _. apply A5. rewrite Hst. discriminate.
      * cbn. discriminate.
    + pose proof (Hold x o Ho) as A.
      pose proof A as ((T & HT & HvT) & _ & _ & _ & A5 & _).
      apply (Hupd x o _ Ho E).
      apply (offline_audited_change _ x o _ A); [repeat split| | | |].
      * intros sg' H. left. exact H.
      * intros sg' H. left. exact H.
      * intros _. apply A5. rewrite Hst. discriminate.
      * intros _. split; [cbn; eauto|]. exists (pretty (entry_counter s)), e.
        destruct (Ioff x o Ho) as (Hid & _).
        rewrite HT in F10. cbn in F10.
        repeat apply conj; try assumption; congruence.
Qed.

Lemma reachable_offline_audit s :
  reachable s ->
  forall x o, offline_transactions s !! x = Some o -> offline_audited s x o.
Proof.
  apply (reachable_ind_strong
           (fun s => forall x o, offline_transactions s !! x = Some o ->
                                 offline_audited s x o)).
  - intros x o. cbn. rewrite lookup_empty. discriminate.
  - intros o s0 Hr IH Hok. apply offline_audit_step; assumption.
Qed.

(** X26. The signatures kept in a record of the offline store are genuine:
    each one is the signature that [_verify_offline_signature] accepts
    for the party it is stored for, also after later calls have changed
    the wallets. A record whose status is not pending holds both
    signatures. The value in the record is the value of its token, and
    the record is anonymous exactly when it carries a non-empty voucher
    id. *)
Theorem offline_signatures_genuine (s : System) (x : string) (o : OfflineTransaction.t) :
  reachable s ->
  OfflineManager.get_offline_transaction x s = Some o ->
  (forall sg,
     OfflineTransaction.sender_signature o = Some sg ->
     OfflineManager._verify_offline_signature o (OfflineTransaction.sender_wallet_id o) sg s
     = true)
  /\ (forall sg,
        OfflineTransaction.receiver_signature o = Some sg ->
        OfflineManager._verify_offline_signature o (OfflineTransaction.receiver_wallet_id o)
          sg s = true)
  /\ (OfflineTransaction.status o <> OFF_PENDING ->
      is_Some (OfflineTransaction.sender_signature o)
      /\ is_Some (OfflineTransaction.receiver_signature o))
  /\ (Token.value <$> TokenManager.get_token (OfflineTransaction.token_id o) s)
     = Some (OfflineTransaction.value o)
  /\ (0 < OfflineTransaction.value o)%Z
  /\ OfflineTransaction.is_anonymous o = truthy_opt (OfflineTransaction.voucher_id o).
Proof.
  intros Hr Ho. unfold OfflineManager.get_offline_transaction in Ho.
  destruct (reachable_offline_audit s Hr x o Ho) as ((T & HT & HvT) & A2 & A3 & A4 & A5 & _).
  unfold OfflineManager._verify_offline_signature, WalletManager.get_wallet,
    TokenManager.get_token.
  repeat apply conj.
  - intros sg Hsg. destruct (A3 sg Hsg) as (W & -> & ->). apply String.eqb_refl.
  - intros sg Hsg. destruct (A4 sg Hsg) as (W & -> & ->). apply String.eqb_refl.
  - exact A5.
  - rewrite HT. cbn. congruence.
  - rewrite <- HvT. apply (reachable_token_wf s Hr _ T HT).
  - exact A2.
Qed.

Lemma offline_signatures_genuine_witness :
  match OfflineManager.get_offline_transaction "O1" market with
  | Some o =>
      (forall sg,
         OfflineTransaction.sender_signature o = Some sg ->
         OfflineManager._verify_offline_signature o (OfflineTransaction.sender_wallet_id o)
           sg market = true)
      /\ (forall sg,
            OfflineTransaction.receiver_signature o = Some sg ->
            OfflineManager._verify_offline_signature o
              (OfflineTransaction.receiver_wallet_id o) sg market = true)
      /\ (OfflineTransaction.status o <> OFF_PENDING ->
          is_Some (OfflineTransaction.sender_signature o)
          /\ is_Some (OfflineTransaction.receiver_signature o))
      /\ (Token.value <$> TokenManager.get_token (OfflineTransaction.token_id o) market)
         = Some (OfflineTransaction.value o)
      /\ (0 < OfflineTransaction.value o)%Z
      /\ OfflineTransaction.is_anonymous o = truthy_opt (OfflineTransaction.voucher_id o)
  | None => False
  end.
Proof.
  destruct (OfflineManager.get_offline_transaction "O1" market) as [o|] eqn:E.
  - exact (offline_signatures_genuine market "O1" o market_reachable E).
  - vm_compute in E. discriminate E.
Defined.

(** X27. A record of the offline store with status synced has its sync
    timestamp and an entry in the ledger, listed by
    [get_entries_by_transaction] under the offline id, with the parties,
    the token, the value, the anonymity and the voucher of the record and
    with status completed. That entry is never of type AML-flagged and
    carries no AML reason, whatever the value is. *)
Theorem synced_offline_transaction_in_ledger
  (s : System) (x : string) (o : OfflineTransaction.t) :
  reachable s ->
  OfflineManager.get_offline_transaction x s = Some o ->
  OfflineTransaction.status o = OFF_SYNCED ->
  is_Some (OfflineTransaction.synced_timestamp o)
  /\ exists e,
       e ∈ LedgerManager.get_entries_by_transaction x s
       /\ LedgerEntry.sender_wallet_id e = OfflineTransaction.sender_wallet_id o
       /\ LedgerEntry.receiver_wallet_id e = OfflineTransaction.receiver_wallet_id o
       /\ LedgerEntry.token_id e = OfflineTransaction.token_id o
       /\ LedgerEntry.value e = OfflineTransaction.value o
       /\ LedgerEntry.is_anonymous e = OfflineTransaction.is_anonymous o
       /\ LedgerEntry.metadata_voucher_id e = OfflineTransaction.voucher_id o
       /\ LedgerEntry.metadata_status e = "completed"
       /\ LedgerEntry.metadata_aml_reason e = None
       /\ e ∉ LedgerManager.get_aml_flagged_entries s.
Proof.
  intros Hr Ho Hst. unfold OfflineManager.get_offline_transaction in Ho.
  destruct (reachable_offline_audit s Hr x o Ho) as (_ & _ & _ & _ & _ & A6).
  destruct (A6 Hst) as (Hts & k & e & He & Hid & B1 & B2 & B3 & B4 & B5 & B6 & B7 & B8 & B9).
  split; [exact Hts|]. exists e.
  split; [eapply elem_of_entries_by_transaction; eassumption|].
  repeat apply conj; try assumption.
  intros Hin. apply list_elem_of_filter in Hin as [Hty _]. contradiction.
Qed.

Lemma synced_offline_transaction_in_ledger_witness :
  match OfflineManager.get_offline_transaction "O1" market with
  | Some o =>
      is_Some (OfflineTransaction.synced_timestamp o)
      /\ exists e,
           e ∈ LedgerManager.get_entries_by_transaction "O1" market
           /\ LedgerEntry.sender_wallet_id e = OfflineTransaction.sender_wallet_id o
           /\ LedgerEntry.receiver_wallet_id e = OfflineTransaction.receiver_wallet_id o
           /\ LedgerEntry.token_id e = OfflineTransaction.token_id o
           /\ LedgerEntry.value e = OfflineTransaction.value o
           /\ LedgerEntry.is_anonymous e = OfflineTransaction.is_anonymous o
           /\ LedgerEntry.metadata_voucher_id e = OfflineTransaction.voucher_id o
           /\ LedgerEntry.metadata_status e = "completed"
           /\ LedgerEntry.metadata_aml_reason e = None
           /\ e ∉ LedgerManager.get_aml_flagged_entries market
  | None => False
  end.
Proof.
  destruct (OfflineManager.get_offline_transaction "O1" market) as [o|] eqn:E.
  - apply (synced_offline_transaction_in_ledger market "O1" o market_reachable E).
    vm_compute in E. injection E as <-. reflexivity.
  - vm_compute in E. discriminate E.
Defined.

(** ** The offline protocol, end to end (offline.py) *)

(** The record that [sign_offline_transaction] stores for a signature
    that verifies. *)
Definition signed_record (w sg : string) (o : OfflineTransaction.t) : OfflineTransaction.t :=
  let o1 :=
    if String.eqb w (OfflineTransaction.sender_wallet_id o)
    then OfflineTransaction.set_sender_signature (Some sg) o
    else OfflineTransaction.set_receiver_signature (Some sg) o in
  if truthy_opt (OfflineTransaction.sender_signature o1)
     && truthy_opt (OfflineTransaction.receiver_signature o1)
  then OfflineTransaction.set_status OFF_SIGNED o1
  else o1.

Lemma sign_offline_transaction_eq x w s o W :
  offline_transactions s !! x = Some o ->
  wallets s !! w = Some W ->
  w = OfflineTransaction.sender_wallet_id o \/ w = OfflineTransaction.receiver_wallet_id o ->
  signature_of s x w = Wallet.sign_transaction W (OfflineManager.tx_data o)
  /\ OfflineManager.sign_offline_transaction x w (signature_of s x w) s
     = (true,
        set_offline_transactions
          (<[x := signed_record w (signature_of s x w) o]> (offline_transactions s)) s).
Proof.
  intros Ho HW Hrole.
  assert (signature_of s x w = Wallet.sign_transaction W (OfflineManager.tx_data o)) as Hsg
    by (unfold signature_of; rewrite Ho, HW; reflexivity).
  split; [exact Hsg|].
  unfold OfflineManager.sign_offline_transaction, OfflineManager._verify_offline_signature,
    WalletManager.get_wallet, signed_record.
  rewrite Ho, HW, Hsg, String.eqb_refl. cbn [negb].
  destruct (String.eqb_spec w (OfflineTransaction.sender_wallet_id o)) as [Hs|Hs];
    [reflexivity|].
  destruct (String.eqb_spec w (OfflineTransaction.receiver_wallet_id o)) as [Hr|Hr];
    [reflexivity|].
  destruct Hrole; contradiction.
Qed.

(** X28. A transfer request that is valid in a reachable state can always be
    taken through the offline protocol: created, signed by the sender and
    then by the receiver, each with the signature of its wallet over the
    data of the transfer, the record has status signed, and the sync that
    follows leaves the token with the receiver. The sync returns true and
    marks the record synced when the ledger file is written; when that
    write raises it returns false and marks the record failed. *)
Theorem offline_protocol_completes
  (s : System) (a b t : string) (v : option string) (x now now' : string)
  (disk : option string) :
  reachable s ->
  transfer_valid a b t v s ->
  let s1 := snd (OfflineManager.create_offline_transaction a b t v x now s) in
  let r2 := OfflineManager.sign_offline_transaction x a (signature_of s1 x a) s1 in
  let r3 := OfflineManager.sign_offline_transaction x b (signature_of (snd r2) x b) (snd r2) in
  let r4 := OfflineManager.sync_with_ledger x now' disk (snd r3) in
  fst r2 = true /\ fst r3 = true
  /\ (OfflineTransaction.status <$> OfflineManager.get_offline_transaction x (snd r2))
     = Some OFF_PENDING
  /\ (OfflineTransaction.status <$> OfflineManager.get_offline_transaction x (snd r3))
     = Some OFF_SIGNED
  /\ fst r4 = match disk with None => true | Some _ => false end
  /\ (OfflineTransaction.status <$> OfflineManager.get_offline_transaction x (snd r4))
     = Some (match disk with None => OFF_SYNCED | Some _ => OFF_FAILED end)
  /\ owner_of (snd r4) t = Some b.
Proof.
  intros Hr Hvalid. cbv zeta.
  pose proof Hvalid as (_ & _ & _ & Hab & [A HA] & [B HB] & token & Htok & Hown & Hv).
  rewrite (create_offline_transaction_valid_eq a b t v x now s token Hvalid Htok).
  cbn [snd].
  set (o := OfflineTransaction.mk x a b t (Token.value token) None None OFF_PENDING
              (Some now) None v (truthy_opt v)).
  set (s1 := set_offline_transactions (<[x := o]> (offline_transactions s)) s).
  (* the sender signs *)
  destruct (sign_offline_transaction_eq x a s1 o A) as [Hsa E2];
    [apply lookup_insert_eq | exact HA | left; reflexivity|].
  rewrite E2. cbn [fst snd].
  set (sa := signature_of s1 x a) in *.
  assert (signed_record a sa o = OfflineTransaction.set_sender_signature (Some sa) o) as Ho1.
  { unfold signed_record. cbn [OfflineTransaction.sender_wallet_id o].
    rewrite String.eqb_refl. cbn [OfflineTransaction.sender_signature
      OfflineTransaction.receiver_signature OfflineTransaction.set_sender_signature o
      truthy_opt]. rewrite andb_false_r. reflexivity. }
  rewrite Ho1. set (o1 := OfflineTransaction.set_sender_signature (Some sa) o).
  set (s2 := set_offline_transactions (<[x := o1]> (offline_transactions s1)) s1).
  (* the receiver signs *)
  destruct (sign_offline_transaction_eq x b s2 o1 B) as [Hsb E3];
    [apply lookup_insert_eq | exact HB | right; reflexivity|].
  rewrite E3. cbn [fst snd].
  set (sb := signature_of s2 x b) in *.
  assert (signed_record b sb o1
          = OfflineTransaction.set_status OFF_SIGNED
              (OfflineTransaction.set_receiver_signature (Some sb) o1)) as Ho2.
  { unfold signed_record. cbn [OfflineTransaction.sender_wallet_id o1 o
      OfflineTransaction.set_sender_signature].
    destruct (String.eqb_spec b a) as [Hba|_]; [congruence|].
    cbn [OfflineTransaction.sender_signature OfflineTransaction.receiver_signature
         OfflineTransaction.set_receiver_signature OfflineTransaction.set_sender_signature
         o1 o truthy_opt].
    rewrite Hsa, Hsb. unfold Wallet.sign_transaction. rewrite !hexdigest_truthy.
    reflexivity. }
  rewrite Ho2.
  set (o2 := OfflineTransaction.set_status OFF_SIGNED
               (OfflineTransaction.set_receiver_signature (Some sb) o1)).
  set (s3 := set_offline_transactions (<[x := o2]> (offline_transactions s2)) s2).
  (* the sync *)
  assert (ownership_inv s3) as Iown
    by (apply (ownership_inv_same_wallets s); auto using reachable_ownership_inv).
  unfold OfflineManager.sync_with_ledger, OfflineManager.get_offline_transaction.
  replace (offline_transactions s3 !! x) with (Some o2)
    by (symmetry; apply lookup_insert_eq).
  cbn [OfflineTransaction.status o2 OfflineTransaction.set_status
       OfflineManager.OfflineStatus_eqb negb OfflineTransaction.token_id
       OfflineTransaction.sender_wallet_id OfflineTransaction.receiver_wallet_id
       OfflineTransaction.voucher_id OfflineTransaction.offline_id OfflineTransaction.value
       OfflineTransaction.set_receiver_signature OfflineTransaction.set_sender_signature
       o1 o].
  assert (fst (TokenManager.transfer_token t a b s3) = true) as Hok
    by (apply (transfer_token_succeeds t a b s3 token); eauto).
  destruct (TokenManager.transfer_token t a b s3) as [ok s4] eqn:E4.
  cbn [fst] in Hok. subst ok. cbn [negb].
  destruct (transfer_token_moves t a b s3 s4 Iown E4) as (Ho4 & _).
  pose proof (transfer_token_frame t a b s3) as F4. rewrite E4 in F4. cbn [snd] in F4.
  destruct F4 as (F4v & _ & _ & _ & _ & _ & F4o).
  fold (redeem_if_present v x (Token.value token) s4).
  assert (fst (redeem_if_present v x (Token.value token) s4) = true) as Hred.
  { unfold redeem_if_present. destruct v as [vid|]; [|reflexivity].
    destruct (truthy vid) eqn:Hvid; [|reflexivity].
    destruct (Hv vid eq_refl (truthy_nonempty vid Hvid)) as (V & HV & _ & Hc).
    apply (redeem_voucher_succeeds vid x _ s4 V); [rewrite F4v; exact HV | exact Hc]. }
  destruct (redeem_if_present v x (Token.value token) s4) as [red s5] eqn:E5.
  cbn [fst] in Hred. subst red. cbn [negb].
  pose proof (redeem_if_present_frame v x (Token.value token) s4 true s5 E5)
    as (F5t & _).
  pose proof (store_transaction_frame (OfflineManager.MockTransaction o2) now' disk s5) as F6.
  pose proof (store_transaction_result (OfflineManager.MockTransaction o2) now' disk s5) as R6.
  destruct (LedgerManager.store_transaction _ now' disk s5) as [r6 s6] eqn:E6.
  cbn [fst snd] in F6, R6. destruct F6 as (_ & F6t & _). subst r6.
  destruct disk as [msg|];
    cbn [fst snd offline_transactions set_offline_transactions OfflineManager.mark_failed];
    rewrite !lookup_insert_eq; repeat apply conj; try reflexivity.
  - unfold s2. cbn [offline_transactions set_offline_transactions].
    rewrite lookup_insert_eq. reflexivity.
  - unfold owner_of, OfflineManager.mark_failed in *. cbn [tokens set_offline_transactions].
    rewrite F6t, F5t. exact Ho4.
  - unfold s2. cbn [offline_transactions set_offline_transactions].
    rewrite lookup_insert_eq. reflexivity.
  - unfold owner_of in *. cbn [tokens set_offline_transactions].
    rewrite F6t, F5t. exact Ho4.
Qed.

Lemma offline_protocol_completes_witness :
  let s := default init (run (take 8 market_ops) init) in
  let s1 := snd (OfflineManager.create_offline_transaction "W1" "W2" "T1" (Some "V1") "O9"
                   "2025-01-01T14:00:00" s) in
  let r2 := OfflineManager.sign_offline_transaction "O9" "W1" (signature_of s1 "O9" "W1") s1 in
  let r3 := OfflineManager.sign_offline_transaction "O9" "W2"
              (signature_of (snd r2) "O9" "W2") (snd r2) in
  let r4 := OfflineManager.sync_with_ledger "O9" "2025-01-02T09:30:00" None (snd r3) in
  fst r2 = true /\ fst r3 = true
  /\ (OfflineTransaction.status <$> OfflineManager.get_offline_transaction "O9" (snd r2))
     = Some OFF_PENDING
  /\ (OfflineTransaction.status <$> OfflineManager.get_offline_transaction "O9" (snd r3))
     = Some OFF_SIGNED
  /\ fst r4 = true
  /\ (OfflineTransaction.status <$> OfflineManager.get_offline_transaction "O9" (snd r4))
     = Some OFF_SYNCED
  /\ owner_of (snd r4) "T1" = Some "W2".
Proof.
  apply (offline_protocol_completes (default init (run (take 8 market_ops) init))
           "W1" "W2" "T1" (Some "V1") "O9" "2025-01-01T14:00:00" "2025-01-02T09:30:00"
           None).
  - exists (take 8 market_ops). vm_compute. reflexivity.
  - unfold transfer_valid. repeat apply conj; try discriminate.
    + exists (Wallet.mk "W1" (SHA256.hexdigest "key-of-W1") "key-of-W1" ["T1"; "T2"] 2).
      vm_compute. reflexivity.
    + exists (Wallet.mk "W2" (SHA256.hexdigest "key-of-W2") "key-of-W2" ["T3"] 0).
      vm_compute. reflexivity.
    + exists (Token.mk "T1" 50 "W1" "ECB" None).
      split; [vm_compute; reflexivity|]. split; [reflexivity|].
      intros vid [= <-] _.
      destruct (vouchers (default init (run (take 8 market_ops) init)) !! "V1")
        as [V|] eqn:E; vm_compute in E; [|discriminate E].
      injection E as <-. eexists. split; [reflexivity|]. split; reflexivity.
Defined.

(** ** The value in circulation (token_system.py) *)

(** The sum of the values of the tokens that [list_all_tokens] lists. *)
Definition total_value (s : System) : Z :=
  foldr Z.add 0%Z (Token.value <$> TokenManager.list_all_tokens s).

Lemma total_value_same s s' : tokens s' = tokens s -> total_value s' = total_value s.
Proof. unfold total_value, TokenManager.list_all_tokens. intros ->. reflexivity. Qed.

Lemma total_value_insert_fresh s s' t T :
  tokens s !! t = None -> tokens s' = <[t := T]> (tokens s) ->
  total_value s' = (total_value s + Token.value T)%Z.
Proof.
  intros Hn E. unfold total_value, TokenManager.list_all_tokens. rewrite E.
  rewrite (sum_permutation _ (Token.value <$> ((t, T) :: map_to_list (tokens s)).*2)).
  - cbn. lia.
  - rewrite (map_to_list_insert (tokens s) t T Hn). reflexivity.
Qed.

Lemma total_value_insert_same s s' t T T' :
  tokens s !! t = Some T -> Token.value T' = Token.value T ->
  tokens s' = <[t := T']> (tokens s) ->
  total_value s' = total_value s.
Proof.
  intros Hs Hv E. unfold total_value, TokenManager.list_all_tokens. rewrite E.
  rewrite (sum_permutation _ (Token.value <$> ((t, T') :: map_to_list (delete t (tokens s))).*2)).
  - rewrite (sum_permutation (Token.value <$> (map_to_list (tokens s)).*2)
               (Token.value <$> ((t, T) :: map_to_list (delete t (tokens s))).*2)).
    + cbn. lia.
    + rewrite (map_to_list_delete (tokens s) t T Hs). reflexivity.
  - rewrite <- (insert_delete_eq (tokens s)).
    rewrite (map_to_list_insert (delete t (tokens s)) t T' (lookup_delete_eq _ _)).
    reflexivity.
Qed.

Lemma transfer_token_total t a b s :
  total_value (snd (TokenManager.transfer_token t a b s)) = total_value s.
Proof.
  destruct (TokenManager.transfer_token t a b s) as [[|] s'] eqn:E; cbn [snd].
  - apply transfer_token_true in E as (T & HT & _ & _ & _ & E & _).
    apply (total_value_insert_same s s' t T (snd (Token.transfer_ownership b T)) HT);
      [|exact E].
    apply same_token_transfer_ownership.
  - apply transfer_token_false in E. subst s'. reflexivity.
Qed.

Lemma execute_transfer_total a b t v x now dk s :
  total_value (snd (TransactionEngine.execute_transfer a b t v x now dk s)) = total_value s.
Proof.
  destruct (transfer_validation a b t v x now dk s) as [Hvalid|[[msg E] _]];
    [|rewrite E; reflexivity].
  pose proof Hvalid as (_ & _ & _ & _ & _ & _ & token & Htok & _).
  destruct (execute_transfer_valid_eq a b t v x now dk s token Hvalid Htok) as (E & _).
  cbv zeta in E. rewrite E.
  set (x0 := new_transaction a b t v x now (truthy_opt v)) in *.
  pose proof (check_transaction_frame x0 token now s) as F1.
  destruct (ComplianceManager.check_transaction x0 token now s) as [cr s1].
  cbn [fst snd] in *. destruct F1 as (_ & F1t & _).
  pose proof (transfer_token_total t a b s1) as H2.
  destruct (TokenManager.transfer_token t a b s1) as [ok s2].
  cbn [fst snd] in *.
  destruct (redeem_if_present v x (Token.value token) s2) as [red s3] eqn:E3.
  pose proof (redeem_if_present_frame v x (Token.value token) s2 red s3 E3) as (F3t & _).
  cbn [fst snd] in *.
  match goal with
  | |- context [LedgerManager.store_transaction ?y now dk s3] =>
      pose proof (store_transaction_frame y now dk s3) as (_ & F4t & _)
  end.
  rewrite <- (total_value_same s s1 F1t), <- H2.
  destruct dk; apply total_value_same; cbn [snd tokens set_transactions]; congruence.
Qed.

Lemma sync_with_ledger_total x now dk s :
  total_value (snd (OfflineManager.sync_with_ledger x now dk s)) = total_value s.
Proof.
  unfold OfflineManager.sync_with_ledger.
  destruct (offline_transactions s !! x) as [otx|]; [|reflexivity].
  destruct (negb _); [reflexivity|].
  pose proof (transfer_token_total (OfflineTransaction.token_id otx)
                (OfflineTransaction.sender_wallet_id otx)
                (OfflineTransaction.receiver_wallet_id otx) s) as H1.
  destruct (TokenManager.transfer_token _ _ _ s) as [ok s1] eqn:E1. cbn [snd] in H1.
  destruct (negb ok).
  { rewrite <- H1. apply total_value_same. reflexivity. }
  match goal with
  | |- context [match ?e with (_, _) => _ end] => destruct e as [red s2] eqn:E2
  end.
  pose proof (redeem_if_present_frame _ _ _ _ _ _ E2) as (F2t & _).
  rewrite <- H1. destruct (negb red); [apply total_value_same; cbn; exact F2t|].
  pose proof (store_transaction_frame (OfflineManager.MockTransaction otx) now dk s2) as F3.
  destruct (LedgerManager.store_transaction _ _ _ _) as [[eid|msg] s3];
    cbn [snd] in F3; destruct F3 as (_ & F3t & _);
    apply total_value_same; cbn; congruence.
Qed.

(** X29. Value enters the system only through [issue_token]: a
    successful issue raises the sum of the values of all tokens by the
    value issued, and no other call of a run changes it, neither an
    online transfer nor an offline one, completed or failed, whether the
    ledger file could be written or not. *)
Theorem total_value_conserved (o : op) (s : System) :
  env_ok o s = true ->
  total_value (step o s)
  = match o with
    | op_issue_token value owner_wallet_id token_id =>
        match TokenManager.issue_token value owner_wallet_id token_id s with
        | (Ok _, _) => (total_value s + value)%Z
        | (Err _, _) => total_value s
        end
    | _ => total_value s
    end.
Proof.
  intros Hok.
  destruct o as [w k|v w t|t a b|w l v now|v x n|a b t v x now dk|a b t v x now|x w sg|x now dk];
    cbn [step].
  - apply total_value_same, create_wallet_frame.
  - cbn [env_ok] in Hok. apply is_None_true in Hok.
    unfold TokenManager.issue_token, WalletManager.wallet_exists, WalletManager.get_wallet.
    destruct (wallets s !! w) as [W|] eqn:HW; cbn [negb]; [|reflexivity].
    destruct (negb (Token.post_init_ok _)); [reflexivity|].
    cbn [snd wallets set_tokens]. rewrite HW.
    apply (total_value_insert_fresh s _ t (Token.mk t v w "ECB" None) Hok). reflexivity.
  - apply transfer_token_total.
  - apply total_value_same, issue_voucher_frame.
  - apply total_value_same, redeem_voucher_frame.
  - apply execute_transfer_total.
  - apply total_value_same, create_offline_transaction_frame.
  - apply total_value_same, sign_offline_transaction_frame.
  - apply sync_with_ledger_total.
Qed.

Lemma total_value_conserved_witness :
  let s := default init (run (take 6 market_ops) init) in
  total_value (step (op_issue_token 150 "W1" "T2") s)
  = match TokenManager.issue_token 150 "W1" "T2" s with
    | (Ok _, _) => (total_value s + 150)%Z
    | (Err _, _) => total_value s
    end.
Proof.
  apply (total_value_conserved (op_issue_token 150 "W1" "T2")
           (default init (run (take 6 market_ops) init))).
  vm_compute. reflexivity.
Defined.

Example market_total_value :
  total_value market = 230%Z
  /\ total_value (default init (run (take 6 market_ops) init)) = 50%Z.
Proof. vm_compute. split; reflexivity. Qed.

(** ** What a voucher hides (transaction.py, compliance.py, ledger.py) *)

(** X30. Flagging depends on the value only. In a reachable state a
    stored transaction is AML-flagged, and listed by
    [get_aml_flagged_transactions], exactly when the value of its token
    is above 100, with or without a voucher; and its ledger entry is
    among the entries that [export_aml_loggable_transactions] writes
    exactly when the value is above 100 or the transaction is not
    anonymous. A voucher keeps a transfer out of that export only up to a
    value of 100. *)
Theorem flagged_iff_high_value (s : System) (x : string) (tx : Transaction.t) :
  reachable s ->
  TransactionEngine.get_transaction x s = Some tx ->
  exists T,
    TokenManager.get_token (Transaction.token_id tx) s = Some T
    /\ (Transaction.aml_flagged tx = true <-> (100 < Token.value T)%Z)
    /\ (tx ∈ TransactionEngine.get_aml_flagged_transactions s <-> (100 < Token.value T)%Z)
    /\ exists e,
         e ∈ LedgerManager.get_entries_by_transaction x s
         /\ (e ∈ LedgerManager.aml_loggable_entries s
             <-> (100 < Token.value T)%Z \/ Transaction.is_anonymous tx = false).
Proof.
  intros Hr Hx. destruct (reachable_audit_inv s Hr) as [_ A].
  destruct (reachable_ledger_dense s Hr) as [_ (_ & _ & D3)].
  unfold TransactionEngine.get_transaction, TokenManager.get_token in *.
  destruct (A x tx Hx)
    as (_ & _ & _ & (k & e & He & Hid & _ & _ & _ & Han & _ & _ & Hty) & _ & _ & T & HT & Hf).
  change ComplianceManager.high_value_threshold with 100%Z in Hf.
  destruct (D3 k e He) as (_ & W2 & W3).
  assert (e ∈ LedgerManager.values s) as Hin by (apply elem_of_map_values; eauto).
  exists T. split; [exact HT|]. split; [exact Hf|]. split.
  - rewrite <- Hf.
    unfold TransactionEngine.get_aml_flagged_transactions, TransactionEngine.values.
    rewrite list_elem_of_In, filter_In, <- list_elem_of_In, elem_of_map_values.
    split; [tauto | eauto].
  - exists e. split; [eapply elem_of_entries_by_transaction; eassumption|].
    unfold LedgerManager.aml_loggable_entries, LedgerManager.get_non_anonymous_entries,
      LedgerManager.get_aml_flagged_entries.
    rewrite elem_of_app, !list_elem_of_filter, <- Hf, <- Hty, <- Han. split.
    + intros [[Ht _]|[Ht _]]; [right; apply W3, Ht | left; exact Ht].
    + intros [Ht|Ha]; [right; split; assumption|].
      destruct (LedgerEntry.entry_type e) eqn:Et.
      * rewrite W2 in Ha by reflexivity. discriminate Ha.
      * left. split; [reflexivity | exact Hin].
      * right. split; [reflexivity | exact Hin].
Qed.

Lemma flagged_iff_high_value_witness :
  match TransactionEngine.get_transaction "X2" market with
  | Some tx =>
      exists T,
        TokenManager.get_token (Transaction.token_id tx) market = Some T
        /\ (Transaction.aml_flagged tx = true <-> (100 < Token.value T)%Z)
        /\ (tx ∈ TransactionEngine.get_aml_flagged_transactions market
            <-> (100 < Token.value T)%Z)
        /\ exists e,
             e ∈ LedgerManager.get_entries_by_transaction "X2" market
             /\ (e ∈ LedgerManager.aml_loggable_entries market
                 <-> (100 < Token.value T)%Z \/ Transaction.is_anonymous tx = false)
  | None => False
  end.
Proof.
  destruct (TransactionEngine.get_transaction "X2" market) as [tx|] eqn:E.
  - exact (flagged_iff_high_value market "X2" tx market_reachable E).
  - vm_compute in E. discriminate E.
Defined.
